(** * The remote action orchestration of the Defender connector

    A shallow embedding of [app/lib/MicrosoftDefender.py]: the availability
    gate ([is_machine_available]), the job tracker ([wait_live_response]),
    the sequencers ([run_live_response] and the four containment actions)
    and the planner ([run_automated_machine_actions]).

    The vendor API is an oracle indexed by the number of requests made so
    far; every function threads that number and emits the requests, sleeps
    and log lines it performs, in program order. *)

From Stdlib Require Import ZArith QArith List Ascii String Bool Lia.
Import ListNotations.
Open Scope string_scope.
Open Scope list_scope.
Open Scope Z_scope.

(** ** Vendor data *)

(** An element of the [value] array of [GET /api/machineactions]: the
    vendor's machine action entity, of which the connector reads
    [action["type"]] and [action["status"]]. *)
Record action := {
  action_type : string;
  action_status : string }.

(** An element of the [commands] array of a machine action:
    [command["index"]], [command["command"]["type"]], [command["errors"]],
    [command["commandStatus"]]. *)
Record command := {
  command_index : Z;
  command_type : string;
  command_errors : list string;
  command_status : string }.

(** The body of [GET /api/machineactions/{id}]. *)
Record machine_action := {
  ma_id : string;
  ma_status : string;
  ma_commands : list command }.

(** What one request can come back with: [requests]/[json.loads] raised,
    the body carries an ["error"] key (with or without a ["message"]), or
    it is an ordinary body. *)
Inductive api_reply (A : Type) : Type :=
| Api_raises
| Api_error (message : option string)
| Api_body (body : A).
Arguments Api_raises {A}.
Arguments Api_error {A} message.
Arguments Api_body {A} body.

(** The vendor: the reply to the request made when [n] requests were made
    before it.  The payload of a list body is its ["value"] key, of a
    submission body its ["id"] key, of a result body its ["value"] key;
    each may be missing. *)
Record Vendor := {
  list_reply : nat -> api_reply (option (list action));
  action_reply : nat -> api_reply machine_action;
  submit_reply : nat -> api_reply (option string);
  cancel_reply : nat -> api_reply unit;
  link_reply : nat -> api_reply (option string) }.

(** ** Configuration *)

(** [MACHINE_ACTION_STATUS] of [app.config.conf] (not in src): taken as a
    parameter. *)
Record StatusTable := {
  SUCCEEDED : string;
  TIMEOUT : string;
  FAIL : list string;
  NOT_AVAILABLE : list string }.

(** One containment kind of [MicrosoftDefenderConfig.MACHINE_ACTION]. *)
Record KindConfig := {
  ACTIVE : bool;
  VERDICTS : list string;
  COMMENT : string;
  TYPE : string }.

(** [MicrosoftDefenderConfig.MACHINE_ACTION] (not in src): taken as a
    parameter.  The timeouts are Python ints; [SLEEP] divides them and is
    passed to [time.sleep], so it is a positive number. *)
Record Config := {
  MACHINE_TIMEOUT : Z;
  JOB_TIMEOUT : Z;
  SLEEP : positive;
  COLLECT_INVESTIGATION_PACKAGE : KindConfig;
  ANTI_VIRUS_SCAN : KindConfig;
  STOP_AND_QUARANTINE_FILE : KindConfig;
  ISOLATION : KindConfig }.

(** ** Connector data *)

(** Modelled from the spec: the [LiveResponse] class of [app.lib.Models]
    (not in src), "remote job identifier (absent before submission),
    current status, an elapsed-poll counter, an optional error payload",
    "a command index"; [has_error] and [is_finished] are the two flags the
    source reads and writes. *)
Record LiveResponse := {
  lr_id : option string;
  lr_index : Z;
  lr_errors : list string;
  lr_status : string;
  timeout_counter : Z;
  has_error : bool;
  is_finished : bool }.

(** Modelled from the spec: the [Evidence] class of [app.lib.Models] (not
    in src).  [machines] is the set of machine ids in the order the Python
    set is iterated. *)
Record Evidence := {
  sha256 : string;
  sha1 : string;
  absolute_path : string;
  machines : list string;
  live_response : LiveResponse;
  download_url : option string }.

(** Modelled from the spec: the [Machine] class of [app.lib.Models] (not in
    src), "identifier; ordered collection of pending evidence-acquisition
    requests; a timeout budget counter". *)
Record Machine := {
  machine_id : string;
  evidences : list Evidence;
  machine_timeout_counter : Z }.

Definition set_status (s : string) (lr : LiveResponse) : LiveResponse :=
  {| lr_id := lr_id lr; lr_index := lr_index lr; lr_errors := lr_errors lr;
     lr_status := s; timeout_counter := timeout_counter lr;
     has_error := has_error lr; is_finished := is_finished lr |}.

Definition set_has_error (lr : LiveResponse) : LiveResponse :=
  {| lr_id := lr_id lr; lr_index := lr_index lr; lr_errors := lr_errors lr;
     lr_status := lr_status lr; timeout_counter := timeout_counter lr;
     has_error := true; is_finished := is_finished lr |}.

Definition set_is_finished (lr : LiveResponse) : LiveResponse :=
  {| lr_id := lr_id lr; lr_index := lr_index lr; lr_errors := lr_errors lr;
     lr_status := lr_status lr; timeout_counter := timeout_counter lr;
     has_error := has_error lr; is_finished := true |}.

Definition incr_timeout_counter (lr : LiveResponse) : LiveResponse :=
  {| lr_id := lr_id lr; lr_index := lr_index lr; lr_errors := lr_errors lr;
     lr_status := lr_status lr; timeout_counter := timeout_counter lr + 1;
     has_error := has_error lr; is_finished := is_finished lr |}.

Definition with_live_response (lr : LiveResponse) (e : Evidence) : Evidence :=
  {| sha256 := sha256 e; sha1 := sha1 e; absolute_path := absolute_path e;
     machines := machines e; live_response := lr;
     download_url := download_url e |}.

Definition with_download_url (u : string) (e : Evidence) : Evidence :=
  {| sha256 := sha256 e; sha1 := sha1 e; absolute_path := absolute_path e;
     machines := machines e; live_response := live_response e;
     download_url := Some u |}.

Definition with_evidences (es : list Evidence) (m : Machine) : Machine :=
  {| machine_id := machine_id m; evidences := es;
     machine_timeout_counter := machine_timeout_counter m |}.

Definition with_machine_timeout_counter (c : Z) (m : Machine) : Machine :=
  {| machine_id := machine_id m; evidences := evidences m;
     machine_timeout_counter := c |}.

Definition incr_machine_timeout_counter (m : Machine) : Machine :=
  with_machine_timeout_counter (machine_timeout_counter m + 1) m.

(** ** Observable behaviour *)

Inductive endpoint :=
| RunLiveResponse
| CollectInvestigationPackage
| RunAntiVirusScan
| StopAndQuarantineFile
| Isolate.

Inductive level := Info | Warning | Error.

(** The log lines of the modelled functions with the values formatted into
    them; the failure lines of one request share a constructor. *)
Inductive message :=
| MachineBusy (machine type status : string)
| MachineAvailable (machine : string)
| ListActionsFailed (machine : string)
| GetActionFailed (id : option string)
| CancelFailed (id : option string)
| CancelDone (id : option string)
| ResultFailed (id : option string)
| WaitingJob (id : option string) (sha : string)
| JobFinished (id : option string) (sha : string)
| JobFailed (id : option string) (sha error : string)
| JobTimeoutHit (id : option string) (sha : string)
| WaitingMachine (jobs : nat) (machine : string)
| TryingJob (path machine : string)
| SubmitError (machine sha error : string)
| JobStarted (id : option string) (sha : string)
| ParseFailed (machine : string)
| CreateFailed (machine : string)
| MachineTimeoutHit (machine : string)
| ActionBegin (k : endpoint) (count : nat)
| ActionOnMachine (k : endpoint) (machine : string)
| ActionFailed (k : endpoint) (machine : string)
| ActionStarted (k : endpoint) (machine : string)
| ActionMachineTimeout (k : endpoint) (machine : string).

Inductive event :=
| EvSleep (seconds : Q)
| EvListActions (machine : string)
| EvGetAction (id : option string)
| EvSubmit (k : endpoint) (machine : string) (body : list (string * string))
| EvCancel (id : option string)
| EvGetResult (id : option string) (index : Z)
| EvLog (l : level) (m : message).

(** How a call ends: it returns, or an exception leaves it. *)
Inductive outcome := Returned | Raised.

(** A computation: from the number of requests made so far to its value,
    the events it emits and the number of requests made after it. *)
Definition M (A : Type) : Type := nat -> A * list event * nat.

Definition ret {A} (a : A) : M A := fun t => (a, [], t).

Definition bind {A B} (m : M A) (f : A -> M B) : M B :=
  fun t =>
    let '(a, ev1, t1) := m t in
    let '(b, ev2, t2) := f a t1 in
    (b, ev1 ++ ev2, t2).

Definition emit (e : event) : M unit := fun t => (tt, [e], t).

(** A request: the event, the vendor's reply, one more request made. *)
Definition request {A} (e : event) (reply : nat -> A) : M A :=
  fun t => (reply t, [e], S t).

Definition sleep (seconds : Q) : M unit := emit (EvSleep seconds).
Definition log (l : level) (m : message) : M unit := emit (EvLog l m).

Notation "x <- m ;; k" := (bind m (fun x => k))
  (at level 61, m at next level, right associativity).
Notation "m ;;; k" := (bind m (fun _ => k))
  (at level 61, right associativity).

Definition value {A} (r : A * list event * nat) : A := fst (fst r).
Definition events {A} (r : A * list event * nat) : list event := snd (fst r).
Definition requests {A} (r : A * list event * nat) : nat := snd r.

(** [s in l] on a list of strings. *)
Definition mem (s : string) (l : list string) : bool :=
  existsb (String.eqb s) l.

(** The least [n] with [n * sleep >= timeout]: where [timeout / sleep]
    (true division) stops exceeding a whole counter. *)
Definition polls_allowed (timeout : Z) (sleep : positive) : Z :=
  - ((- timeout) / Z.pos sleep).

(** ** The connector *)

Section Embedding.

Variable cfg : Config.
Variable tbl : StatusTable.
Variable api : Vendor.

(** [Machine.has_pending_actions] and [LiveResponse.start(index, errors,
    status, start_time, id)] of [app.lib.Models] (not in src): taken as
    parameters ([start] without the clock reading). *)
Variable has_pending_actions : Machine -> bool.
Variable start : LiveResponse -> Z -> list string -> string -> string -> LiveResponse.

(** [timeout / SLEEP > counter], Python 3 true division of two ints
    against an int counter; the quotient is kept exact, as the float is for
    ints of this size. *)
Definition within_budget (timeout counter : Z) : bool :=
  negb (Qle_bool (timeout # SLEEP cfg) (inject_Z counter)).

(** [timeout / SLEEP <= counter]. *)
Definition budget_spent (timeout counter : Z) : bool :=
  Qle_bool (timeout # SLEEP cfg) (inject_Z counter).

Definition interval : Q := Z.pos (SLEEP cfg) # 1.

(** [get_machine_actions]: the list of actions, or [None] on any failure
    (an exception, an ["error"] key, no ["value"] key). *)
Definition get_machine_actions (machine : string) : M (option (list action)) :=
  r <- request (EvListActions machine) (list_reply api) ;;
  match r with
  | Api_raises => log Error (ListActionsFailed machine) ;;; ret None
  | Api_error _ => log Error (ListActionsFailed machine) ;;; ret None
  | Api_body None => log Error (ListActionsFailed machine) ;;; ret None
  | Api_body (Some actions) => ret (Some actions)
  end.

(** [get_machine_action]: the record, or [None] on any failure. *)
Definition get_machine_action (id : option string) : M (option machine_action) :=
  r <- request (EvGetAction id) (action_reply api) ;;
  match r with
  | Api_raises => log Error (GetActionFailed id) ;;; ret None
  | Api_error _ => log Error (GetActionFailed id) ;;; ret None
  | Api_body ma => ret (Some ma)
  end.

(** [cancel_machine_action]: whether the cancellation was accepted. *)
Definition cancel_machine_action (lr : LiveResponse) : M bool :=
  r <- request (EvCancel (lr_id lr)) (cancel_reply api) ;;
  match r with
  | Api_raises => log Error (CancelFailed (lr_id lr)) ;;; ret false
  | Api_error _ => log Error (CancelFailed (lr_id lr)) ;;; ret false
  | Api_body _ => log Info (CancelDone (lr_id lr)) ;;; ret true
  end.

(** [get_live_response_result]: the download link, or [None]. *)
Definition get_live_response_result (evidence : Evidence) : M (option string) :=
  let lr := live_response evidence in
  r <- request (EvGetResult (lr_id lr) (lr_index lr)) (link_reply api) ;;
  match r with
  | Api_raises => log Error (ResultFailed (lr_id lr)) ;;; ret None
  | Api_error _ => log Error (ResultFailed (lr_id lr)) ;;; ret None
  | Api_body None => log Error (ResultFailed (lr_id lr)) ;;; ret None
  | Api_body (Some url) => ret (Some url)
  end.

(** The [for action in machine_actions] loop of [is_machine_available],
    with its early [return False]. *)
Fixpoint scan_actions (machine : string) (actions : list action) : M bool :=
  match actions with
  | [] => log Info (MachineAvailable machine) ;;; ret true
  | a :: rest =>
      if mem (action_status a) (NOT_AVAILABLE tbl)
      then log Warning (MachineBusy machine (action_type a) (action_status a)) ;;;
           ret false
      else scan_actions machine rest
  end.

Definition is_machine_available (machine : string) : M bool :=
  machine_actions <- get_machine_actions machine ;;
  match machine_actions with
  | Some actions => scan_actions machine actions
  | None => ret false
  end.

(** [machine_action["commands"][0]["errors"][0]]; [None] where Python
    raises IndexError. *)
Definition first_error (ma : machine_action) : option string :=
  match ma_commands ma with
  | [] => None
  | c :: _ => match command_errors c with
              | [] => None
              | e :: _ => Some e
              end
  end.

(** One iteration of the [while] loop of [wait_live_response]: the sleep,
    the poll and the update of the job.  [Raised] is the IndexError of the
    log line of the failure branch, evaluated before the job is updated. *)
Definition poll_job (evidence : Evidence) : M (outcome * Evidence) :=
  let lr := live_response evidence in
  sleep interval ;;;
  machine_action <- get_machine_action (lr_id lr) ;;
  match machine_action with
  | Some ma =>
      if String.eqb (ma_status ma) (SUCCEEDED tbl) then
        log Info (JobFinished (lr_id lr) (sha256 evidence)) ;;;
        ret (Returned,
             with_live_response
               (set_is_finished (set_status (ma_status ma) lr)) evidence)
      else if mem (ma_status ma) (FAIL tbl) then
        match first_error ma with
        | None => ret (Raised, evidence)
        | Some error =>
            log Error (JobFailed (lr_id lr) (sha256 evidence) error) ;;;
            ret (Returned,
                 with_live_response
                   (set_has_error (set_status (ma_status ma) lr)) evidence)
        end
      else
        ret (Returned, with_live_response (incr_timeout_counter lr) evidence)
  | None =>
      ret (Returned, with_live_response (set_has_error lr) evidence)
  end.

(** The condition of the [while] loop of [wait_live_response]. *)
Definition keeps_waiting (lr : LiveResponse) : bool :=
  within_budget (JOB_TIMEOUT cfg) (timeout_counter lr)
  && negb (has_error lr) && negb (is_finished lr).

(** The [while] loop of [wait_live_response].  [n] bounds the iterations
    that are left; [wait_live_response] starts it with enough of them. *)
Fixpoint wait_loop (n : nat) (evidence : Evidence) : M (outcome * Evidence) :=
  if keeps_waiting (live_response evidence)
  then
    match n with
    | O => ret (Returned, evidence)
    | S n' =>
        r <- poll_job evidence ;;
        match r with
        | (Raised, evidence) => ret (Raised, evidence)
        | (Returned, evidence) => wait_loop n' evidence
        end
    end
  else ret (Returned, evidence).

(** Iterations that [wait_loop] can still make from a counter. *)
Definition polls_left (counter : Z) : nat :=
  S (Z.to_nat (polls_allowed (JOB_TIMEOUT cfg) (SLEEP cfg) - counter)).

Definition wait_live_response (evidence : Evidence) : M (outcome * Evidence) :=
  log Info (WaitingJob (lr_id (live_response evidence)) (sha256 evidence)) ;;;
  r <- wait_loop (polls_left (timeout_counter (live_response evidence))) evidence ;;
  match r with
  | (Raised, evidence) => ret (Raised, evidence)
  | (Returned, evidence) =>
      let lr := live_response evidence in
      if budget_spent (JOB_TIMEOUT cfg) (timeout_counter lr) then
        log Error (JobTimeoutHit (lr_id lr) (sha256 evidence)) ;;;
        let lr := set_status (TIMEOUT tbl) (set_has_error lr) in
        _ <- cancel_machine_action lr ;;
        sleep interval ;;;
        ret (Returned, with_live_response lr evidence)
      else ret (Returned, evidence)
  end.

(** The request body built for each endpoint. *)
Definition request_data (k : endpoint) (evidence : Evidence) : list (string * string) :=
  match k with
  | RunLiveResponse =>
      [("Path", absolute_path evidence);
       ("Comment",
        String.append "VMRay Connector File Acquisition Job for "
                      (sha256 evidence))]
  | CollectInvestigationPackage =>
      [("Comment", COMMENT (COLLECT_INVESTIGATION_PACKAGE cfg))]
  | RunAntiVirusScan =>
      [("Comment", COMMENT (ANTI_VIRUS_SCAN cfg));
       ("ScanType", TYPE (ANTI_VIRUS_SCAN cfg))]
  | StopAndQuarantineFile =>
      [("Comment", COMMENT (ANTI_VIRUS_SCAN cfg)); ("Sha1", sha1 evidence)]
  | Isolate =>
      [("Comment", COMMENT (ISOLATION cfg));
       ("IsolationType", TYPE (ISOLATION cfg))]
  end.

(** The [while] loop of the containment functions ([isolate_machine],
    [run_antivirus_scan], [collect_investigation_package],
    [stop_and_quarantine_file], which differ in the endpoint, the request
    body and the wording of the log lines): it returns [timeout_count].
    The three outcomes of the submission all clear [is_job_pending]. *)
Fixpoint submit_loop (n : nat) (k : endpoint) (evidence : Evidence)
    (machine : string) (timeout_count : Z) (is_job_pending : bool) : M Z :=
  if within_budget (MACHINE_TIMEOUT cfg) timeout_count && is_job_pending
  then
    match n with
    | O => ret timeout_count
    | S n' =>
        available <- is_machine_available machine ;;
        if available then
          r <- request (EvSubmit k machine (request_data k evidence))
                       (submit_reply api) ;;
          match r with
          | Api_raises =>
              log Error (ActionFailed k machine) ;;;
              submit_loop n' k evidence machine timeout_count false
          | Api_error _ =>
              log Error (ActionFailed k machine) ;;;
              submit_loop n' k evidence machine timeout_count false
          | Api_body _ =>
              log Info (ActionStarted k machine) ;;;
              submit_loop n' k evidence machine timeout_count false
          end
        else
          sleep interval ;;;
          submit_loop n' k evidence machine (timeout_count + 1) true
    end
  else ret timeout_count.

(** Iterations that [submit_loop] can still make from a counter. *)
Definition checks_left (counter : Z) : nat :=
  S (Z.to_nat (polls_allowed (MACHINE_TIMEOUT cfg) (SLEEP cfg) - counter)).

(** The body of [for machine_id in evidence.machines]. *)
Definition contain_machine (k : endpoint) (evidence : Evidence)
    (machine : string) : M unit :=
  log Info (ActionOnMachine k machine) ;;;
  timeout_count <- submit_loop (checks_left 0) k evidence machine 0 true ;;
  if budget_spent (MACHINE_TIMEOUT cfg) timeout_count
  then log Error (ActionMachineTimeout k machine)
  else sleep interval.

Fixpoint for_each {A} (body : A -> M unit) (l : list A) : M unit :=
  match l with
  | [] => ret tt
  | x :: rest => body x ;;; for_each body rest
  end.

Definition contain (k : endpoint) (evidence : Evidence) : M unit :=
  log Info (ActionBegin k (List.length (machines evidence))) ;;;
  for_each (contain_machine k evidence) (machines evidence).

Definition isolate_machine := contain Isolate.
Definition run_antivirus_scan := contain RunAntiVirusScan.
Definition collect_investigation_package := contain CollectInvestigationPackage.
Definition stop_and_quarantine_file := contain StopAndQuarantineFile.

(** [config.ACTIVE and sample_data["sample_verdict"] in config.VERDICTS]. *)
Definition triggered (kc : KindConfig) (sample_verdict : string) : bool :=
  ACTIVE kc && mem sample_verdict (VERDICTS kc).

Definition run_automated_machine_actions (sample_verdict : string)
    (evidence : Evidence) : M unit :=
  (if triggered (COLLECT_INVESTIGATION_PACKAGE cfg) sample_verdict
   then collect_investigation_package evidence else ret tt) ;;;
  (if triggered (ANTI_VIRUS_SCAN cfg) sample_verdict
   then run_antivirus_scan evidence else ret tt) ;;;
  (if triggered (STOP_AND_QUARANTINE_FILE cfg) sample_verdict
   then stop_and_quarantine_file evidence else ret tt) ;;;
  (if triggered (ISOLATION cfg) sample_verdict
   then isolate_machine evidence else ret tt).

(** [for command in json_response["commands"]] of [run_live_response]. *)
Definition start_commands (ma : machine_action) (lr : LiveResponse) : LiveResponse :=
  fold_left
    (fun lr c =>
       if String.eqb (command_type c) "GetFile"
       then start lr (command_index c) (command_errors c) (command_status c)
                  (ma_id ma)
       else lr)
    (ma_commands ma) lr.

Definition mark_error (evidence : Evidence) : Evidence :=
  with_live_response (set_has_error (live_response evidence)) evidence.

(** The body of [for evidence in machine.evidences] of [run_live_response]:
    the evidence object after it.  Every exception raised inside it is
    caught by one of its two [except] clauses. *)
Definition acquire (machine : string) (evidence : Evidence) : M Evidence :=
  available <- is_machine_available machine ;;
  if available then
    log Info (TryingJob (absolute_path evidence) machine) ;;;
    r <- request (EvSubmit RunLiveResponse machine
                    (request_data RunLiveResponse evidence))
                 (submit_reply api) ;;
    match r with
    | Api_raises =>
        log Error (CreateFailed machine) ;;; ret (mark_error evidence)
    | Api_error (Some error) =>
        log Error (SubmitError machine (sha256 evidence) error) ;;;
        ret (mark_error evidence)
    | Api_error None =>
        log Error (CreateFailed machine) ;;; ret (mark_error evidence)
    | Api_body None =>
        sleep (5 # 1) ;;;
        log Error (ParseFailed machine) ;;; ret (mark_error evidence)
    | Api_body (Some id) =>
        sleep (5 # 1) ;;;
        json_response <- get_machine_action (Some id) ;;
        match json_response with
        | None => ret evidence
        | Some ma =>
            let evidence :=
              with_live_response (start_commands ma (live_response evidence))
                                 evidence in
            log Info (JobStarted (lr_id (live_response evidence))
                                 (sha256 evidence)) ;;;
            r <- wait_live_response evidence ;;
            match r with
            | (Raised, evidence) =>
                log Error (ParseFailed machine) ;;; ret (mark_error evidence)
            | (Returned, evidence) =>
                if is_finished (live_response evidence) then
                  evidence_result <- get_live_response_result evidence ;;
                  match evidence_result with
                  | Some url => ret (with_download_url url evidence)
                  | None => ret evidence
                  end
                else ret evidence
            end
        end
    end
  else
    sleep (Z.pos (SLEEP cfg) # 60) ;;;
    ret evidence.

(** [for evidence in machine.evidences]: the evidence objects after it. *)
Fixpoint acquire_all (machine : string) (l : list Evidence) : M (list Evidence) :=
  match l with
  | [] => ret []
  | evidence :: rest =>
      evidence' <- acquire machine evidence ;;
      rest' <- acquire_all machine rest ;;
      ret (evidence' :: rest')
  end.

(** One iteration of the [while] loop of [run_live_response]. *)
Definition machine_step (machine : Machine) : M Machine :=
  available <- is_machine_available (machine_id machine) ;;
  if available then
    l <- acquire_all (machine_id machine) (evidences machine) ;;
    ret (with_evidences l machine)
  else
    sleep interval ;;;
    ret (incr_machine_timeout_counter machine).

(** The [while] loop of [run_live_response] for one machine; [None] when
    [fuel] iterations did not end it. *)
Fixpoint machine_loop (fuel : nat) (machine : Machine) : M (option Machine) :=
  if within_budget (MACHINE_TIMEOUT cfg) (machine_timeout_counter machine)
     && has_pending_actions machine
  then
    match fuel with
    | O => ret None
    | S fuel' =>
        machine <- machine_step machine ;;
        machine_loop fuel' machine
    end
  else ret (Some machine).

(** The body of [for machine in machines]. *)
Definition run_machine (fuel : nat) (machine : Machine) : M (option Machine) :=
  log Info (WaitingMachine (List.length (evidences machine)) (machine_id machine)) ;;;
  r <- machine_loop fuel machine ;;
  match r with
  | None => ret None
  | Some machine =>
      if has_pending_actions machine
      then log Error (MachineTimeoutHit (machine_id machine)) ;;;
           ret (Some machine)
      else ret (Some machine)
  end.

Fixpoint run_live_response (fuel : nat) (l : list Machine) : M (option (list Machine)) :=
  match l with
  | [] => ret (Some [])
  | machine :: rest =>
      r <- run_machine fuel machine ;;
      match r with
      | None => ret None
      | Some machine' =>
          r <- run_live_response fuel rest ;;
          match r with
          | None => ret None
          | Some rest' => ret (Some (machine' :: rest'))
          end
      end
  end.

End Embedding.

(** ** The indicators *)

(** Modelled from the call in [create_indicator_objects]: the [Indicator]
    class of [app.lib.Models] (not in src), with the six keyword arguments
    of its constructor. *)
Record Indicator := {
  indicator_type : string;
  indicator_value : string;
  indicator_action : string;
  indicator_application : string;
  indicator_title : string;
  indicator_description : string }.

(** [MicrosoftDefenderConfig.INDICATOR] and [API.APPLICATION_NAME] (not in
    src): taken as a parameter. *)
Record IndicatorConfig := {
  INDICATOR_ACTION : string;
  INDICATOR_TITLE : string;
  INDICATOR_DESCRIPTION : string;
  APPLICATION_NAME : string }.

(** A Python dict from strings to lists of strings: its items in the order
    of iteration.  [lookup] is [d[key]], [None] where the key is absent. *)
Definition dict : Type := list (string * list string).

Fixpoint lookup (key : string) (d : dict) : option (list string) :=
  match d with
  | [] => None
  | (k, v) :: rest => if String.eqb key k then Some v else lookup key rest
  end.

Section Indicators.

Variable icfg : IndicatorConfig.

(** [IOC_FIELD_MAPPINGS] of [app.config.conf] (not in src): taken as a
    parameter. *)
Variable IOC_FIELD_MAPPINGS : dict.

Definition new_indicator (indicator_field indicator : string) : Indicator :=
  {| indicator_type := indicator_field;
     indicator_value := indicator;
     indicator_action := INDICATOR_ACTION icfg;
     indicator_application := APPLICATION_NAME icfg;
     indicator_title := INDICATOR_TITLE icfg;
     indicator_description := INDICATOR_DESCRIPTION icfg |}.

(** [create_indicator_objects]: the three nested loops, each appending to
    [indicator_objects].  [old_indicators] is a set of strings, read with
    [in]; [indicator_data[key]] is there for every key the outer loop
    yields. *)
Definition create_indicator_objects (indicator_data : dict)
    (old_indicators : list string) : list Indicator :=
  flat_map
    (fun key =>
       match lookup key IOC_FIELD_MAPPINGS with
       | None => []
       | Some fields =>
           flat_map
             (fun indicator_field =>
                match lookup key indicator_data with
                | None => []
                | Some indicator_value =>
                    map (new_indicator indicator_field)
                        (filter (fun indicator => negb (mem indicator old_indicators))
                                indicator_value)
                end)
             fields
       end)
    (map fst indicator_data).

End Indicators.

(** [indicators.add(v)] on the set [indicators]. *)
Definition set_add (v : string) (s : list string) : list string :=
  if mem v s then s else s ++ [v].

(** The loop of [get_indicators] over [json_response["value"]]: an
    indicator without ["indicatorValue"] raises KeyError, and the [except]
    returns the set as it is then. *)
Fixpoint collect_indicators (l : list (option string)) (indicators : list string)
    : list string :=
  match l with
  | [] => indicators
  | None :: _ => indicators
  | Some v :: rest => collect_indicators rest (set_add v indicators)
  end.

(** [get_indicators] on the reply to its request: the set of the indicator
    values, as the list of its members.  The payload of a body is its
    ["value"] key, each indicator with its ["indicatorValue"], where it has
    one. *)
Definition get_indicators (reply : api_reply (option (list (option string))))
    : list string :=
  match reply with
  | Api_raises => []
  | Api_error _ => []
  | Api_body None => []
  | Api_body (Some l) => collect_indicators l []
  end.

(** The indicator values of a listing up to its first indicator without a
    value. *)
Fixpoint readable (l : list (option string)) : list string :=
  match l with
  | Some v :: rest => v :: readable rest
  | _ => []
  end.


(** ** The ingestion of alerts *)

(** An element of [alert["evidence"]], by the keys the connector reads;
    [None] is a missing key.  The value of ["sha256"] may be null. *)
Record alert_evidence := {
  ev_sha256 : option (option string);
  ev_entityType : option string;
  ev_sha1 : option string;
  ev_fileName : option string;
  ev_filePath : option string }.

(** An element of the [value] array of [GET /api/alerts], by the keys the
    connector reads; [None] is a missing key. *)
Record alert := {
  alert_id : option string;
  alert_severity : option string;
  alert_machineId : option string;
  alert_evidences : option (list alert_evidence) }.

(** Modelled from the spec: the [Database] class of [app.lib.Database] (not
    in src), "the external deduplication store" of "already processed
    identifiers": the identifiers inserted so far.
    [check_alert_evidence_exists] is [mem], [insert_alert_evidence] adds
    the identifier. *)
Definition store : Type := list string.

(** [c.lower()] on an ASCII letter. *)
Definition lower_ascii (c : ascii) : ascii :=
  let n := nat_of_ascii c in
  if (Nat.leb 65 n && Nat.leb n 90)%bool then ascii_of_nat (n + 32) else c.

(** [s.lower()]. *)
Fixpoint lower (s : string) : string :=
  match s with
  | EmptyString => EmptyString
  | String c rest => String (lower_ascii c) (lower rest)
  end.

Section Ingestion.

(** [config.ALERT.EVIDENCE_ENTITY_TYPES] (not in src): taken as a
    parameter. *)
Variable EVIDENCE_ENTITY_TYPES : list string.

(** The [Evidence] objects of [app.lib.Models] (not in src) as this
    function makes them: [Evidence(alert_id, alert_severity, sha256, sha1,
    fileName, filePath, machine_id)], and [e.alerts.add(alert_id)] with
    [e.machines.add(machine_id)]; taken as parameters. *)
Variable E : Type.
Variable new_evidence : string -> string -> string -> string -> string -> string -> string -> E.
Variable add_alert : string -> string -> E -> E.

(** The dict [evidences]: its items in the order of insertion. *)
Definition evidence_dict : Type := list (string * E).

Definition keys (d : evidence_dict) : list string := map fst d.

(** [evidences[key]] updated in place. *)
Fixpoint dict_update (key : string) (f : E -> E) (d : evidence_dict) : evidence_dict :=
  match d with
  | [] => []
  | (k, e) :: rest =>
      if String.eqb key k then (k, f e) :: rest
      else (k, e) :: dict_update key f rest
  end.

(** The body of [for evidence in alert["evidence"]] on the dict and the
    store; [Raised] is a KeyError, which leaves both as they are then. *)
Definition ingest_evidence (alert_id alert_severity machine_id : string)
    (evidence : alert_evidence) (st : evidence_dict * store)
    : outcome * (evidence_dict * store) :=
  let (evidences, db) := st in
  match ev_sha256 evidence with
  | None => (Raised, st)
  | Some sha256 =>
      match ev_entityType evidence with
      | None => (Raised, st)
      | Some entity_type =>
          if mem entity_type EVIDENCE_ENTITY_TYPES then
            match sha256 with
            | None => (Returned, st)
            | Some sha256 =>
                if String.eqb (lower sha256) "none" then (Returned, st)
                else if mem (String.append alert_id sha256) db then (Returned, st)
                else
                  let db := String.append alert_id sha256 :: db in
                  if mem sha256 (keys evidences) then
                    (Returned,
                     (dict_update sha256 (add_alert alert_id machine_id) evidences,
                      db))
                  else
                    match ev_sha1 evidence, ev_fileName evidence,
                          ev_filePath evidence with
                    | Some sha1, Some file_name, Some file_path =>
                        (Returned,
                         (evidences
                          ++ [(sha256,
                               new_evidence alert_id alert_severity sha256 sha1
                                            file_name file_path machine_id)],
                          db))
                    | _, _, _ => (Raised, (evidences, db))
                    end
            end
          else (Returned, st)
      end
  end.

(** [for evidence in alert["evidence"]]: a KeyError ends it. *)
Fixpoint ingest_evidences (alert_id alert_severity machine_id : string)
    (l : list alert_evidence) (st : evidence_dict * store)
    : outcome * (evidence_dict * store) :=
  match l with
  | [] => (Returned, st)
  | evidence :: rest =>
      match ingest_evidence alert_id alert_severity machine_id evidence st with
      | (Raised, st') => (Raised, st')
      | (Returned, st') =>
          ingest_evidences alert_id alert_severity machine_id rest st'
      end
  end.

(** The body of [for alert in alerts]: its [try] with the [except] that
    logs and goes on to the next alert. *)
Definition ingest_alert (a : alert) (st : evidence_dict * store)
    : evidence_dict * store :=
  match alert_id a, alert_severity a, alert_machineId a, alert_evidences a with
  | Some id, Some severity, Some machine_id, Some l =>
      snd (ingest_evidences id severity machine_id l st)
  | _, _, _, _ => st
  end.

(** [for alert in alerts]. *)
Definition ingest_alerts (alerts : list alert) (st : evidence_dict * store)
    : evidence_dict * store :=
  fold_left (fun st a => ingest_alert a st) alerts st.

(** [get_evidences_from_alerts] on the reply to its request and the store:
    the dict it returns and the store after it.  The payload of a body is
    its ["value"] key. *)
Definition get_evidences_from_alerts (reply : api_reply (option (list alert)))
    (db : store) : evidence_dict * store :=
  match reply with
  | Api_raises => ([], db)
  | Api_error _ => ([], db)
  | Api_body None => ([], db)
  | Api_body (Some alerts) => ingest_alerts alerts ([], db)
  end.

(** The identifiers that the loops look up in the store, whatever the
    store holds, when no evidence lacks a file key. *)
Fixpoint looked_up_of (alert_id : string) (l : list alert_evidence) : list string :=
  match l with
  | [] => []
  | evidence :: rest =>
      match ev_sha256 evidence, ev_entityType evidence with
      | Some sha256, Some entity_type =>
          (if mem entity_type EVIDENCE_ENTITY_TYPES then
             match sha256 with
             | Some sha256 =>
                 if String.eqb (lower sha256) "none" then []
                 else [String.append alert_id sha256]
             | None => []
             end
           else [])
          ++ looked_up_of alert_id rest
      | _, _ => []
      end
  end.

Definition looked_up (alerts : list alert) : list string :=
  flat_map
    (fun a =>
       match alert_id a, alert_severity a, alert_machineId a, alert_evidences a with
       | Some id, Some _, Some _, Some l => looked_up_of id l
       | _, _, _, _ => []
       end)
    alerts.

(** Every evidence of every alert has its three file keys. *)
Definition files_complete (alerts : list alert) : Prop :=
  forall a l evidence,
    In a alerts -> alert_evidences a = Some l -> In evidence l ->
    ev_sha1 evidence <> None
    /\ ev_fileName evidence <> None
    /\ ev_filePath evidence <> None.

(** What the evidence [ev] of the alert [id] adds to the dict: nothing, or
    the key [sha], then looked up and not found in the store [db] and
    found in the store [db'] after it. *)
Definition adds (id : string) (ev : alert_evidence) (db db' : store)
    (sha : string) : Prop :=
  ev_sha256 ev = Some (Some sha)
  /\ lower sha <> "none"
  /\ (exists ty, ev_entityType ev = Some ty /\ In ty EVIDENCE_ENTITY_TYPES)
  /\ In (String.append id sha) db'
  /\ ~ In (String.append id sha) db.

(** A key of the dict is accounted for by an evidence of an alert of
    [alerts]. *)
Definition accounted (alerts : list alert) (db db' : store) (sha : string) : Prop :=
  exists a id l ev,
    In a alerts /\ alert_id a = Some id /\ alert_evidences a = Some l
    /\ In ev l /\ adds id ev db db' sha.

End Ingestion.


(** ** The download of evidences *)

(** How the transfer of one evidence ends: [requests.get] raises, writing
    the archive raises, extracting it or removing it raises, or the file
    is there. *)
Inductive transfer := Download_raises | Write_raises | Extract_raises | Extracted.

Definition has_link (evidence : Evidence) : bool :=
  match download_url evidence with Some _ => true | None => false end.

(** [download_evidences]: the evidences appended to
    [downloaded_evidences], in order, each with the [download_file_path]
    set on it, the file named by its hash in the download directory;
    with them the number of transfers made.  [transfers n] is how the
    transfer goes that is made when [n] were made before. *)
Fixpoint download_evidences (transfers : nat -> transfer)
    (evidences : list Evidence) (n : nat) : list (Evidence * string) * nat :=
  match evidences with
  | [] => ([], n)
  | evidence :: rest =>
      match download_url evidence with
      | None => download_evidences transfers rest n
      | Some _ =>
          let r := download_evidences transfers rest (S n) in
          match transfers n with
          | Extracted => ((evidence, sha256 evidence) :: fst r, snd r)
          | _ => r
          end
      end
  end.


(** ** Reading a trace *)

Definition is_poll (e : event) : bool :=
  match e with EvGetAction _ => true | _ => false end.

Definition is_cancel (e : event) : bool :=
  match e with EvCancel _ => true | _ => false end.

Definition is_submit (e : event) : bool :=
  match e with EvSubmit _ _ _ => true | _ => false end.

Definition is_begin (e : event) : bool :=
  match e with EvLog Info (ActionBegin _ _) => true | _ => false end.

Definition count (p : event -> bool) (l : list event) : nat :=
  List.length (filter p l).

Definition same_id (a b : option string) : bool :=
  match a, b with
  | Some x, Some y => String.eqb x y
  | None, None => true
  | _, _ => false
  end.

(** Every cancellation in the trace comes right after the log line of the
    job timeout of the same job; [prev] is the event before the trace. *)
Fixpoint cancels_follow_timeout (prev : option event) (l : list event) : bool :=
  match l with
  | [] => true
  | e :: rest =>
      match e with
      | EvCancel id =>
          match prev with
          | Some (EvLog Error (JobTimeoutHit id' _)) => same_id id id'
          | _ => false
          end
      | _ => true
      end && cancels_follow_timeout (Some e) rest
  end.

(** A job is terminal for the tracker when one of its two flags is set. *)
Definition terminal (lr : LiveResponse) : bool :=
  has_error lr || is_finished lr.

Definition with_cancel_reply (c : nat -> api_reply unit) (api : Vendor) : Vendor :=
  {| list_reply := list_reply api; action_reply := action_reply api;
     submit_reply := submit_reply api; cancel_reply := c;
     link_reply := link_reply api |}.

(** ** Vocabulary of the properties *)

Section Vocabulary.

Variable cfg : Config.
Variable tbl : StatusTable.
Variable api : Vendor.

(** What one poll does to the job, by the reply it gets. *)
Inductive polled (evidence : Evidence) : api_reply machine_action -> outcome * Evidence -> Prop :=
| polled_succeeded ma :
    String.eqb (ma_status ma) (SUCCEEDED tbl) = true ->
    polled evidence (Api_body ma)
      (Returned,
       with_live_response
         (set_is_finished (set_status (ma_status ma) (live_response evidence)))
         evidence)
| polled_failed ma error :
    String.eqb (ma_status ma) (SUCCEEDED tbl) = false ->
    mem (ma_status ma) (FAIL tbl) = true ->
    first_error ma = Some error ->
    polled evidence (Api_body ma)
      (Returned,
       with_live_response
         (set_has_error (set_status (ma_status ma) (live_response evidence)))
         evidence)
| polled_failed_no_error ma :
    String.eqb (ma_status ma) (SUCCEEDED tbl) = false ->
    mem (ma_status ma) (FAIL tbl) = true ->
    first_error ma = None ->
    polled evidence (Api_body ma) (Raised, evidence)
| polled_running ma :
    String.eqb (ma_status ma) (SUCCEEDED tbl) = false ->
    mem (ma_status ma) (FAIL tbl) = false ->
    polled evidence (Api_body ma)
      (Returned,
       with_live_response (incr_timeout_counter (live_response evidence)) evidence)
| polled_raises :
    polled evidence Api_raises
      (Returned, with_live_response (set_has_error (live_response evidence)) evidence)
| polled_error message :
    polled evidence (Api_error message)
      (Returned, with_live_response (set_has_error (live_response evidence)) evidence).

(** The job after the timeout branch of [wait_live_response]. *)
Definition timed_out (evidence : Evidence) : Evidence :=
  with_live_response
    (set_status (TIMEOUT tbl) (set_has_error (live_response evidence))) evidence.


(** A containment function is about one endpoint and goes through the
    machines one by one. *)
Section OneMachine.

Variable k : endpoint.
Variable machine : string.

(** [j] rounds of a failed availability check followed by the sleep, from
    request [t] on. *)
Fixpoint busy_rounds (j : nat) (t : nat) : list event :=
  match j with
  | O => []
  | S j' =>
      events (is_machine_available tbl api machine t)
      ++ EvSleep (interval cfg) :: busy_rounds j' (S t)
  end.

(** The log line that follows a submission. *)
Definition submit_log (reply : api_reply (option string)) : event :=
  match reply with
  | Api_body _ => EvLog Info (ActionStarted k machine)
  | _ => EvLog Error (ActionFailed k machine)
  end.

End OneMachine.

(** The computation never emits an event that [p] selects. *)
Definition silent (p : event -> bool) {A} (m : M A) : Prop :=
  forall t, count p (events (m t)) = 0%nat.

(** The predicates that the availability gate is silent for. *)
Definition off_gate : list (event -> bool) :=
  [is_poll; is_cancel; is_submit; is_begin].

(** The predicates that a containment function is silent for. *)
Definition off_containment : list (event -> bool) :=
  [is_poll; is_cancel].

(** Every cancellation the computation emits follows the log line of the
    timeout of its job. *)
Definition guarded {A} (m : M A) : Prop :=
  forall t, cancels_follow_timeout None (events (m t)) = true.

(** The containment kinds in the order of the spec: package collection,
    antivirus scan, quarantine, isolation. *)
Definition priority : list endpoint :=
  [CollectInvestigationPackage; RunAntiVirusScan; StopAndQuarantineFile; Isolate].

(** A kind is due when it is enabled and the verdict is one of its
    trigger verdicts. *)
Definition due (sample_verdict : string) (k : endpoint) : bool :=
  match k with
  | RunLiveResponse => false
  | CollectInvestigationPackage =>
      ACTIVE (COLLECT_INVESTIGATION_PACKAGE cfg)
      && mem sample_verdict (VERDICTS (COLLECT_INVESTIGATION_PACKAGE cfg))
  | RunAntiVirusScan =>
      ACTIVE (ANTI_VIRUS_SCAN cfg)
      && mem sample_verdict (VERDICTS (ANTI_VIRUS_SCAN cfg))
  | StopAndQuarantineFile =>
      ACTIVE (STOP_AND_QUARANTINE_FILE cfg)
      && mem sample_verdict (VERDICTS (STOP_AND_QUARANTINE_FILE cfg))
  | Isolate =>
      ACTIVE (ISOLATION cfg) && mem sample_verdict (VERDICTS (ISOLATION cfg))
  end.

(** The planner in the words of the spec: the sequencer of each due kind,
    in priority order. *)
Definition run_due_kinds (sample_verdict : string) (evidence : Evidence) : M unit :=
  for_each (fun k => contain cfg tbl api k evidence)
           (filter (due sample_verdict) priority).

End Vocabulary.

(** ** More readings of a trace and of a job *)

Definition is_sleep (e : event) : bool :=
  match e with EvSleep _ => true | _ => false end.

(** What a call may change of an evidence: the flags, the status and the
    counter of its job, upwards.  The file, the machines, the download link
    and the identity of the job stay. *)
Definition same_file (e e' : Evidence) : Prop :=
  sha256 e' = sha256 e
  /\ sha1 e' = sha1 e
  /\ absolute_path e' = absolute_path e
  /\ machines e' = machines e
  /\ download_url e' = download_url e
  /\ lr_id (live_response e') = lr_id (live_response e)
  /\ lr_index (live_response e') = lr_index (live_response e)
  /\ lr_errors (live_response e') = lr_errors (live_response e)
  /\ timeout_counter (live_response e) <= timeout_counter (live_response e').


(** All sleeps of the trace last [SLEEP]. *)
Definition sleeps_one_interval (cfg : Config) (l : list event) : Prop :=
  forall q, In (EvSleep q) l -> q = interval cfg.

(** What the sequencer keeps of an evidence whatever happens to its job
    and its download link. *)
Definition same_sample (e e' : Evidence) : Prop :=
  sha256 e' = sha256 e
  /\ sha1 e' = sha1 e
  /\ absolute_path e' = absolute_path e
  /\ machines e' = machines e.

(** The evidence after the loop body, by how the body ended. *)
Inductive acquired (api : Vendor) (evidence : Evidence) : Evidence -> Prop :=
| acquired_untouched : acquired api evidence evidence
| acquired_failed e :
    same_sample evidence e -> download_url e = download_url evidence ->
    acquired api evidence (mark_error e)
| acquired_unfinished e :
    same_sample evidence e -> download_url e = download_url evidence ->
    is_finished (live_response e) = false ->
    acquired api evidence e
| acquired_without_link e :
    same_sample evidence e -> download_url e = download_url evidence ->
    is_finished (live_response e) = true ->
    acquired api evidence e
| acquired_with_link e url n :
    same_sample evidence e ->
    is_finished (live_response e) = true ->
    link_reply api n = Api_body (Some url) ->
    acquired api evidence (with_download_url url e).

(** The queue of a machine as the sequencer finds it: the machine and the
    hashes of its evidences, in order. *)
Definition queue (m : Machine) : string * list string :=
  (machine_id m, map sha256 (evidences m)).


(** The submissions of a trace are those of the endpoint [k] with its
    request body, to the machines of [l]. *)
Definition submits_only_to (cfg : Config) (k : endpoint) (evidence : Evidence)
    (l : list string) (events : list event) : Prop :=
  forall k' machine body,
    In (EvSubmit k' machine body) events ->
    k' = k /\ In machine l /\ body = request_data cfg k evidence.

(** The vendor reports a job as still running: a record whose status is
    neither [SUCCEEDED] nor in [FAIL]. *)
Definition reports_running (tbl : StatusTable) (reply : api_reply machine_action)
    : Prop :=
  exists ma,
    reply = Api_body ma
    /\ String.eqb (ma_status ma) (SUCCEEDED tbl) = false
    /\ mem (ma_status ma) (FAIL tbl) = false.

(** The vendor reports a job as succeeded. *)
Definition reports_succeeded (tbl : StatusTable) (reply : api_reply machine_action)
    : Prop :=
  exists ma, reply = Api_body ma /\ ma_status ma = SUCCEEDED tbl.


(** ** Sample configurations, vendors and jobs *)

(** The status names of the spec's scenarios. *)
Definition sample_status : StatusTable :=
  {| SUCCEEDED := "Succeeded"; TIMEOUT := "TimeOut";
     FAIL := ["TimeOut"; "Failed"; "Cancelled"];
     NOT_AVAILABLE := ["Pending"; "InProgress"] |}.

Definition sample_kind (active : bool) (verdicts : list string) : KindConfig :=
  {| ACTIVE := active; VERDICTS := verdicts; COMMENT := "VMRay"; TYPE := "Full" |}.

Definition sample_config (machine_timeout job_timeout : Z) (sleep : positive) : Config :=
  {| MACHINE_TIMEOUT := machine_timeout; JOB_TIMEOUT := job_timeout;
     SLEEP := sleep;
     COLLECT_INVESTIGATION_PACKAGE := sample_kind true ["malicious"];
     ANTI_VIRUS_SCAN := sample_kind false ["malicious"];
     STOP_AND_QUARANTINE_FILE := sample_kind true ["malicious"; "suspicious"];
     ISOLATION := sample_kind true ["suspicious"] |}.

Definition get_file (errors : list string) : command :=
  {| command_index := 0; command_type := "GetFile"; command_errors := errors;
     command_status := "Created" |}.

Definition sample_action (status : string) (errors : list string) : machine_action :=
  {| ma_id := "a1"; ma_status := status; ma_commands := [get_file errors] |}.

(** A vendor whose machines list the actions [listed n] at request [n],
    whose jobs are in [status] with the given command errors, and that
    accepts submissions and cancellations. *)
Definition sample_vendor (listed : nat -> list action) (status : string)
    (errors : list string) : Vendor :=
  {| list_reply := fun n => Api_body (Some (listed n));
     action_reply := fun _ => Api_body (sample_action status errors);
     submit_reply := fun _ => Api_body (Some "a1");
     cancel_reply := fun _ => Api_body tt;
     link_reply := fun _ => Api_body (Some "https://download/a1") |}.

(** The same vendor, answering every submission with an ["error"] body. *)
Definition refusing_vendor (listed : nat -> list action) : Vendor :=
  {| list_reply := fun n => Api_body (Some (listed n));
     action_reply := fun _ => Api_body (sample_action "InProgress" []);
     submit_reply := fun _ => Api_error (Some "ActiveRequestAlreadyExists");
     cancel_reply := fun _ => Api_body tt;
     link_reply := fun _ => Api_body (Some "https://download/a1") |}.

Definition busy : list action :=
  [{| action_type := "LiveResponse"; action_status := "InProgress" |}].

Definition idle : list action :=
  [{| action_type := "LiveResponse"; action_status := "Succeeded" |}].

(** Busy for the first [n] requests, idle afterwards. *)
Definition busy_until (n : nat) (t : nat) : list action :=
  if Nat.ltb t n then busy else idle.

Definition fresh_job : LiveResponse :=
  {| lr_id := Some "a1"; lr_index := 0; lr_errors := []; lr_status := "Created";
     timeout_counter := 0; has_error := false; is_finished := false |}.

Definition sample_evidence : Evidence :=
  {| sha256 := "ab12"; sha1 := "cd34"; absolute_path := "C:\\evil.exe";
     machines := ["m1"]; live_response := fresh_job; download_url := None |}.

Definition sample_machine : Machine :=
  {| machine_id := "m1"; evidences := [sample_evidence];
     machine_timeout_counter := 0 |}.

(** A queue is pending while one of its jobs has neither flag set. *)
Definition sample_pending (m : Machine) : bool :=
  existsb (fun e => negb (terminal (live_response e))) (evidences m).

(** A [start] that stores what it is given. *)
Definition sample_start (lr : LiveResponse) (index : Z) (errors : list string)
    (status id : string) : LiveResponse :=
  {| lr_id := Some id; lr_index := index; lr_errors := errors;
     lr_status := status; timeout_counter := timeout_counter lr;
     has_error := has_error lr; is_finished := is_finished lr |}.




(** Timeouts of 25 seconds polled every 10 seconds. *)
Definition uneven_config : Config := sample_config 25 25 10.

(** Timeouts of 30 seconds polled every 10 seconds (Scenario A). *)
Definition even_config : Config := sample_config 30 30 10.

(** A vendor whose machines are idle and whose jobs stay in progress. *)
Definition stuck_vendor : Vendor := sample_vendor (fun _ => idle) "InProgress" [].

(** A vendor whose machines are idle and whose jobs succeed. *)
Definition prompt_vendor : Vendor := sample_vendor (fun _ => idle) "Succeeded" [].

(** A vendor whose machines are idle and whose jobs have failed without a
    command error: [{"status": "Failed", "commands": [{"errors": []}]}]. *)
Definition failing_vendor : Vendor := sample_vendor (fun _ => idle) "Failed" [].

(** A vendor whose machines are always busy. *)
Definition busy_vendor : Vendor := sample_vendor (fun _ => busy) "InProgress" [].

(** A vendor whose machines are busy for two requests and idle afterwards. *)
Definition late_vendor : Vendor := sample_vendor (busy_until 2) "Succeeded" [].


(** A vendor whose machines are idle at every even request and busy at
    every odd one: the outer check of [run_live_response] succeeds and the
    check inside its [for] loop fails. *)
Definition flapping_vendor : Vendor :=
  sample_vendor (fun n => if Nat.even n then idle else busy) "InProgress" [].


(** A vendor whose machines list an idle, a busy and an idle action. *)
Definition mixed_vendor : Vendor :=
  sample_vendor (fun _ => idle ++ busy ++ idle) "InProgress" [].

(** A vendor that accepts submissions and fails every read of a machine
    action. *)
Definition forgetful_vendor : Vendor :=
  {| list_reply := fun _ => Api_body (Some idle);
     action_reply := fun _ => Api_raises;
     submit_reply := fun _ => Api_body (Some "a1");
     cancel_reply := fun _ => Api_body tt;
     link_reply := fun _ => Api_body (Some "https://download/a1") |}.

(** The machines that [run_live_response] returns for the sample machine
    against the prompt vendor. *)
Definition sample_outcome : list Machine :=
  match value (run_live_response even_config sample_status prompt_vendor
                 sample_pending sample_start 10%nat [sample_machine] 0%nat) with
  | Some l => l
  | None => []
  end.

(** An evidence object as the pair of its hash and its alerts. *)
Definition sample_new_evidence (alert_id severity sha256 sha1 file_name file_path
    machine_id : string) : string * list string :=
  (sha256, [alert_id]).

Definition sample_add_alert (alert_id machine_id : string)
    (e : string * list string) : string * list string :=
  (fst e, alert_id :: snd e).

Definition sample_file (sha : string) (sha1 : option string) : alert_evidence :=
  {| ev_sha256 := Some (Some sha); ev_entityType := Some "File";
     ev_sha1 := sha1; ev_fileName := Some "evil.exe";
     ev_filePath := Some "C:\\" |}.

Definition sample_alert : alert :=
  {| alert_id := Some "al1"; alert_severity := Some "High";
     alert_machineId := Some "m1";
     alert_evidences := Some [sample_file "ab12" (Some "cd34");
                              sample_file "ef56" (Some "0789")] |}.


(** A vendor whose jobs are in progress for two requests and succeeded
    afterwards. *)
Definition slow_vendor : Vendor :=
  {| list_reply := fun _ => Api_body (Some idle);
     action_reply := fun n =>
       Api_body (sample_action (if Nat.ltb n 2 then "InProgress" else "Succeeded") []);
     submit_reply := fun _ => Api_body (Some "a1");
     cancel_reply := fun _ => Api_body tt;
     link_reply := fun _ => Api_body (Some "https://download/a1") |}.

(** A machine without evidences. *)
Definition empty_machine : Machine :=
  {| machine_id := "m0"; evidences := []; machine_timeout_counter := 0 |}.


(** * Properties *)

Section Properties.

Variable cfg : Config.
Variable tbl : StatusTable.

(** ** Running a computation *)

Lemma bind_run {A B} (m : M A) (f : A -> M B) (t : nat) :
  bind m f t =
  (value (f (value (m t)) (requests (m t))),
   events (m t) ++ events (f (value (m t)) (requests (m t))),
   requests (f (value (m t)) (requests (m t)))).
Proof.
  unfold bind, value, events, requests.
  destruct (m t) as [[a ev1] t1]; cbn.
  destruct (f a t1) as [[b ev2] t2]; reflexivity.
Qed.

Lemma value_bind {A B} (m : M A) (f : A -> M B) t :
  value (bind m f t) = value (f (value (m t)) (requests (m t))).
Proof. rewrite bind_run; reflexivity. Qed.

Lemma events_bind {A B} (m : M A) (f : A -> M B) t :
  events (bind m f t) = events (m t) ++ events (f (value (m t)) (requests (m t))).
Proof. rewrite bind_run; reflexivity. Qed.

Lemma requests_bind {A B} (m : M A) (f : A -> M B) t :
  requests (bind m f t) = requests (f (value (m t)) (requests (m t))).
Proof. rewrite bind_run; reflexivity. Qed.

Lemma count_app p a b : count p (a ++ b) = (count p a + count p b)%nat.
Proof. unfold count; rewrite filter_app, length_app; reflexivity. Qed.

Lemma count_cons p e l :
  count p (e :: l) = ((if p e then 1 else 0) + count p l)%nat.
Proof. unfold count; cbn [filter]. destruct (p e); reflexivity. Qed.

(** ** The budget comparisons *)

Lemma budget_spent_ceil (timeout counter : Z) :
  budget_spent cfg timeout counter = (polls_allowed timeout (SLEEP cfg) <=? counter).
Proof.
  unfold budget_spent, polls_allowed, Qle_bool; cbn [Qnum Qden inject_Z].
  rewrite Z.mul_1_r.
  set (s := Z.pos (SLEEP cfg)).
  assert (Hs : 0 < s) by (subst s; lia).
  apply eq_true_iff_eq; rewrite !Z.leb_le.
  split; intro H.
  - assert (- counter * s <= - timeout) by lia.
    assert (- counter <= - timeout / s) by (apply Z.div_le_lower_bound; lia).
    lia.
  - assert (- counter <= - timeout / s) by lia.
    assert (s * (- timeout / s) <= - timeout) by (apply Z.mul_div_le; lia).
    nia.
Qed.

Lemma within_budget_ceil (timeout counter : Z) :
  within_budget cfg timeout counter = (counter <? polls_allowed timeout (SLEEP cfg)).
Proof.
  unfold within_budget; fold (budget_spent cfg timeout counter).
  rewrite budget_spent_ceil, Z.ltb_antisym; reflexivity.
Qed.

(** Where [SLEEP] divides the timeout the allowance is the quotient. *)
Lemma polls_allowed_exact (timeout : Z) (sleep : positive) :
  timeout mod Z.pos sleep = 0 -> polls_allowed timeout sleep = timeout / Z.pos sleep.
Proof.
  intro H; unfold polls_allowed.
  rewrite Z.div_opp_l_z by lia. lia.
Qed.

(** ** The availability gate *)

Section Gate.

Variable api : Vendor.

Lemma get_machine_actions_run machine t :
  get_machine_actions api machine t =
  (match list_reply api t with Api_body (Some actions) => Some actions | _ => None end,
   EvListActions machine ::
   match list_reply api t with
   | Api_body (Some _) => []
   | _ => [EvLog Error (ListActionsFailed machine)]
   end,
   S t).
Proof.
  unfold get_machine_actions, bind, request, log, emit, ret.
  destruct (list_reply api t) as [| |[actions|]]; reflexivity.
Qed.

Lemma scan_actions_value machine actions t :
  value (scan_actions tbl machine actions t) =
  forallb (fun a => negb (mem (action_status a) (NOT_AVAILABLE tbl))) actions.
Proof.
  induction actions as [|a rest IH]; cbn [scan_actions forallb].
  - reflexivity.
  - destruct (mem (action_status a) (NOT_AVAILABLE tbl)); cbn [negb andb].
    + reflexivity.
    + exact IH.
Qed.

Lemma scan_actions_requests machine actions t :
  requests (scan_actions tbl machine actions t) = t.
Proof.
  induction actions as [|a rest IH]; cbn [scan_actions].
  - reflexivity.
  - destruct (mem (action_status a) (NOT_AVAILABLE tbl)); [reflexivity | exact IH].
Qed.

Lemma is_machine_available_value machine t :
  value (is_machine_available tbl api machine t) =
  match list_reply api t with
  | Api_body (Some actions) =>
      forallb (fun a => negb (mem (action_status a) (NOT_AVAILABLE tbl))) actions
  | _ => false
  end.
Proof.
  unfold is_machine_available.
  rewrite value_bind, get_machine_actions_run; cbn [value requests fst snd].
  destruct (list_reply api t) as [| |[actions|]]; try reflexivity.
  apply scan_actions_value.
Qed.

Lemma is_machine_available_requests machine t :
  requests (is_machine_available tbl api machine t) = S t.
Proof.
  unfold is_machine_available.
  rewrite requests_bind, get_machine_actions_run; cbn [value requests fst snd].
  destruct (list_reply api t) as [| |[actions|]]; try reflexivity.
  apply scan_actions_requests.
Qed.

(** C1.  [is_machine_available] makes one request, the listing of the
    machine's actions.  It answers [False] when a listed action has a
    status in [NOT_AVAILABLE], [False] when the listing failed (an
    exception, an ["error"] body, a body without ["value"]), and [True] only
    when the listing succeeded and no listed action has such a status. *)
Theorem is_machine_available_fail_closed (machine : string) (t : nat) :
  let available := value (is_machine_available tbl api machine t) in
  (forall actions a,
      list_reply api t = Api_body (Some actions) ->
      In a actions ->
      mem (action_status a) (NOT_AVAILABLE tbl) = true ->
      available = false)
  /\ ((forall actions, list_reply api t <> Api_body (Some actions)) ->
      available = false)
  /\ (available = true ->
      exists actions,
        list_reply api t = Api_body (Some actions)
        /\ forall a, In a actions ->
                     mem (action_status a) (NOT_AVAILABLE tbl) = false)
  /\ requests (is_machine_available tbl api machine t) = S t.
Proof.
  cbv zeta. rewrite is_machine_available_value.
  repeat split.
  - intros actions a Hr Hin Hbusy. rewrite Hr.
    destruct (forallb _ actions) eqn:E; [|reflexivity].
    rewrite forallb_forall in E. specialize (E a Hin).
    rewrite Hbusy in E. discriminate.
  - intros Hfail.
    destruct (list_reply api t) as [| |[actions|]]; try reflexivity.
    exfalso; exact (Hfail actions eq_refl).
  - destruct (list_reply api t) as [| |[actions|]]; try discriminate.
    intro E. exists actions. split; [reflexivity|].
    rewrite forallb_forall in E. intros a Hin.
    apply negb_true_iff. exact (E a Hin).
  - apply is_machine_available_requests.
Qed.

End Gate.


(** ** The job tracker *)

Section Tracker.

Variable api : Vendor.

Let allowance : Z := polls_allowed (JOB_TIMEOUT cfg) (SLEEP cfg).

Lemma get_machine_action_run id t :
  get_machine_action api id t =
  (match action_reply api t with Api_body ma => Some ma | _ => None end,
   EvGetAction id ::
   match action_reply api t with
   | Api_body _ => []
   | _ => [EvLog Error (GetActionFailed id)]
   end,
   S t).
Proof.
  unfold get_machine_action, bind, request, log, emit, ret.
  destruct (action_reply api t); reflexivity.
Qed.

Lemma poll_job_polled evidence t :
  polled tbl evidence (action_reply api t) (value (poll_job cfg tbl api evidence t)).
Proof.
  unfold poll_job.
  rewrite value_bind, value_bind, get_machine_action_run.
  cbn [value requests fst snd sleep emit].
  destruct (action_reply api t) as [| message | ma].
  - constructor.
  - constructor.
  - destruct (String.eqb (ma_status ma) (SUCCEEDED tbl)) eqn:Es.
    + rewrite value_bind. cbn. now constructor.
    + destruct (mem (ma_status ma) (FAIL tbl)) eqn:Ef.
      * destruct (first_error ma) as [error|] eqn:Ee.
        -- rewrite value_bind. cbn. now apply polled_failed with (error := error).
        -- cbn. now constructor.
      * cbn. now constructor.
Qed.

Lemma poll_job_requests evidence t :
  requests (poll_job cfg tbl api evidence t) = S t.
Proof.
  unfold poll_job.
  rewrite requests_bind, requests_bind, get_machine_action_run.
  cbn [value requests fst snd sleep emit].
  destruct (action_reply api t) as [| message | ma]; try reflexivity.
  destruct (String.eqb (ma_status ma) (SUCCEEDED tbl)); [reflexivity|].
  destruct (mem (ma_status ma) (FAIL tbl)); [|reflexivity].
  destruct (first_error ma); reflexivity.
Qed.

Lemma poll_job_events evidence t :
  exists logs,
    events (poll_job cfg tbl api evidence t) =
    EvSleep (interval cfg) :: EvGetAction (lr_id (live_response evidence)) :: logs
    /\ Forall (fun e => exists l m, e = EvLog l m) logs.
Proof.
  unfold poll_job.
  rewrite events_bind, events_bind, get_machine_action_run.
  cbn [value events requests fst snd sleep emit app].
  destruct (action_reply api t) as [| message | ma].
  - eexists; split; [reflexivity|]. repeat constructor; eauto.
  - eexists; split; [reflexivity|]. repeat constructor; eauto.
  - destruct (String.eqb (ma_status ma) (SUCCEEDED tbl)).
    + eexists; split; [reflexivity|]. repeat constructor; eauto.
    + destruct (mem (ma_status ma) (FAIL tbl)).
      * destruct (first_error ma).
        -- eexists; split; [reflexivity|]. repeat constructor; eauto.
        -- eexists; split; [reflexivity|]. constructor.
      * eexists; split; [reflexivity|]. constructor.
Qed.

Lemma count_logs p logs :
  (forall l m, p (EvLog l m) = false) ->
  Forall (fun e => exists l m, e = EvLog l m) logs ->
  count p logs = 0%nat.
Proof.
  intros Hp H. induction H as [|e logs [l [m ->]] _ IH]; [reflexivity|].
  unfold count in *; cbn [filter]. rewrite Hp. exact IH.
Qed.

Lemma poll_job_polls evidence t :
  count is_poll (events (poll_job cfg tbl api evidence t)) = 1%nat.
Proof.
  destruct (poll_job_events evidence t) as [logs [-> Hlogs]].
  change (S (count is_poll logs) = 1%nat).
  rewrite count_logs; auto.
Qed.

Lemma poll_job_cancels evidence t :
  count is_cancel (events (poll_job cfg tbl api evidence t)) = 0%nat.
Proof.
  destruct (poll_job_events evidence t) as [logs [-> Hlogs]].
  change (count is_cancel logs = 0%nat).
  rewrite count_logs; auto.
Qed.

Lemma keeps_waiting_spec lr :
  keeps_waiting cfg lr = true <->
  timeout_counter lr < allowance /\ terminal lr = false.
Proof.
  unfold keeps_waiting, terminal, allowance.
  rewrite within_budget_ceil, !andb_true_iff, Z.ltb_lt, !negb_true_iff, orb_false_iff.
  tauto.
Qed.

Lemma wait_loop_stops n evidence t :
  keeps_waiting cfg (live_response evidence) = false ->
  wait_loop cfg tbl api n evidence t = (Returned, evidence, [], t).
Proof.
  intro H. destruct n; cbn [wait_loop]; rewrite H; reflexivity.
Qed.

Lemma wait_loop_step n evidence t :
  keeps_waiting cfg (live_response evidence) = true ->
  wait_loop cfg tbl api (S n) evidence t =
  let r := poll_job cfg tbl api evidence t in
  match value r with
  | (Raised, evidence') => (Raised, evidence', events r, S t)
  | (Returned, evidence') =>
      let r' := wait_loop cfg tbl api n evidence' (S t) in
      (value r', events r ++ events r', requests r')
  end.
Proof.
  intro H. cbn [wait_loop]. rewrite H, bind_run, poll_job_requests. cbv zeta.
  destruct (value (poll_job cfg tbl api evidence t)) as [[|] evidence'].
  - reflexivity.
  - cbn [ret value events requests fst snd]. rewrite app_nil_r. reflexivity.
Qed.

(** After a poll of a job that is being waited for, the job is terminal
    with its counter unchanged, or it is as before with its counter one
    higher; an exception leaves it as before. *)
Lemma polled_cases evidence reply o evidence' :
  polled tbl evidence reply (o, evidence') ->
  terminal (live_response evidence) = false ->
  match o with
  | Raised => evidence' = evidence
  | Returned =>
      (terminal (live_response evidence') = true
       /\ timeout_counter (live_response evidence')
          = timeout_counter (live_response evidence))
      \/ (terminal (live_response evidence') = false
          /\ timeout_counter (live_response evidence')
             = timeout_counter (live_response evidence) + 1)
  end.
Proof.
  intros H Ht. inversion H; subst; cbn; auto.
  left. split; [apply orb_true_r | reflexivity].
Qed.

Ltac poll_cases evidence t o evidence' Hp :=
  let P := fresh "P" in
  pose proof (poll_job_polled evidence t) as P;
  destruct (value (poll_job cfg tbl api evidence t)) as [o evidence'] eqn:Hp;
  apply polled_cases in P.

(** The loop polls at most as often as the counter is below the
    allowance. *)
Lemma wait_loop_polls n : forall evidence t,
  Z.of_nat (count is_poll (events (wait_loop cfg tbl api n evidence t)))
  <= Z.max 0 (allowance - timeout_counter (live_response evidence)).
Proof.
  induction n as [|n IH]; intros evidence t.
  - cbn [wait_loop].
    destruct (keeps_waiting cfg (live_response evidence)); cbn; lia.
  - destruct (keeps_waiting cfg (live_response evidence)) eqn:Hk.
    + rewrite wait_loop_step by exact Hk. cbv zeta.
      apply keeps_waiting_spec in Hk. destruct Hk as [Hc Ht].
      pose proof (poll_job_polls evidence t) as H1.
      poll_cases evidence t o evidence' Hp; [|exact Ht].
      destruct o.
      * destruct P as [[Ht' Hc'] | [Ht' Hc']].
        -- rewrite wait_loop_stops.
           ++ cbn [events fst snd]. rewrite app_nil_r, H1. lia.
           ++ destruct (keeps_waiting cfg (live_response evidence')) eqn:Hk'; [|reflexivity].
              apply keeps_waiting_spec in Hk'. destruct Hk' as [_ Hk']. congruence.
        -- cbn [events fst snd]. rewrite count_app.
           fold (events (poll_job cfg tbl api evidence t)). rewrite H1.
           specialize (IH evidence' (S t)). rewrite Hc' in IH.
           unfold events in *. lia.
      * cbn [events fst snd].
        fold (events (poll_job cfg tbl api evidence t)). rewrite H1. lia.
    + rewrite wait_loop_stops by exact Hk. cbn. lia.
Qed.

Lemma wait_loop_cancels n : forall evidence t,
  count is_cancel (events (wait_loop cfg tbl api n evidence t)) = 0%nat.
Proof.
  induction n as [|n IH]; intros evidence t.
  - cbn [wait_loop].
    destruct (keeps_waiting cfg (live_response evidence)); reflexivity.
  - destruct (keeps_waiting cfg (live_response evidence)) eqn:Hk.
    + rewrite wait_loop_step by exact Hk. cbv zeta.
      pose proof (poll_job_cancels evidence t) as H1.
      destruct (value (poll_job cfg tbl api evidence t)) as [[|] evidence'].
      * cbn [events fst snd]. rewrite count_app.
        fold (events (poll_job cfg tbl api evidence t)). rewrite H1.
        specialize (IH evidence' (S t)). unfold events in *. rewrite IH. reflexivity.
      * exact H1.
    + rewrite wait_loop_stops by exact Hk. reflexivity.
Qed.

(** With as many iterations as the counter is below the allowance, the
    loop ends because its condition fails. *)
Lemma wait_loop_exit n : forall evidence t,
  (Z.to_nat (allowance - timeout_counter (live_response evidence)) <= n)%nat ->
  fst (value (wait_loop cfg tbl api n evidence t)) = Returned ->
  keeps_waiting cfg
    (live_response (snd (value (wait_loop cfg tbl api n evidence t)))) = false.
Proof.
  induction n as [|n IH]; intros evidence t Hn Hr.
  - destruct (keeps_waiting cfg (live_response evidence)) eqn:Hk.
    + apply keeps_waiting_spec in Hk. lia.
    + rewrite wait_loop_stops by exact Hk. exact Hk.
  - destruct (keeps_waiting cfg (live_response evidence)) eqn:Hk.
    + rewrite wait_loop_step in * by exact Hk. cbv zeta in *.
      apply keeps_waiting_spec in Hk. destruct Hk as [Hc Ht].
      poll_cases evidence t o evidence' Hp; [|exact Ht].
      destruct o; [|discriminate Hr].
      cbn [value fst snd] in *.
      destruct P as [[Ht' Hc'] | [Ht' Hc']].
      * assert (Hk' : keeps_waiting cfg (live_response evidence') = false).
        { destruct (keeps_waiting cfg (live_response evidence')) eqn:Hk'; [|reflexivity].
          apply keeps_waiting_spec in Hk'. destruct Hk' as [_ Hk']. congruence. }
        rewrite wait_loop_stops by exact Hk'. exact Hk'.
      * apply IH; [lia | exact Hr].
    + rewrite wait_loop_stops by exact Hk. exact Hk.
Qed.

(** More iterations than that change nothing: the bound is never what
    ends the loop. *)
Lemma wait_loop_enough n : forall m evidence t,
  (Z.to_nat (allowance - timeout_counter (live_response evidence)) <= n)%nat ->
  (Z.to_nat (allowance - timeout_counter (live_response evidence)) <= m)%nat ->
  wait_loop cfg tbl api n evidence t = wait_loop cfg tbl api m evidence t.
Proof.
  induction n as [|n IH]; intros m evidence t Hn Hm.
  - destruct (keeps_waiting cfg (live_response evidence)) eqn:Hk.
    + apply keeps_waiting_spec in Hk. lia.
    + rewrite !wait_loop_stops by exact Hk. reflexivity.
  - destruct (keeps_waiting cfg (live_response evidence)) eqn:Hk.
    + destruct m as [|m].
      { apply keeps_waiting_spec in Hk. lia. }
      rewrite !wait_loop_step by exact Hk. cbv zeta.
      apply keeps_waiting_spec in Hk. destruct Hk as [Hc Ht].
      poll_cases evidence t o evidence' Hp; [|exact Ht].
      destruct o; [|reflexivity].
      destruct P as [[Ht' Hc'] | [Ht' Hc']].
      * assert (Hk' : keeps_waiting cfg (live_response evidence') = false).
        { destruct (keeps_waiting cfg (live_response evidence')) eqn:Hk'; [|reflexivity].
          apply keeps_waiting_spec in Hk'. destruct Hk' as [_ Hk']. congruence. }
        rewrite !wait_loop_stops by exact Hk'. reflexivity.
      * rewrite (IH m evidence' (S t)) by lia. reflexivity.
    + rewrite !wait_loop_stops by exact Hk. reflexivity.
Qed.


Lemma cancel_machine_action_run lr t :
  cancel_machine_action api lr t =
  (match cancel_reply api t with Api_body _ => true | _ => false end,
   [EvCancel (lr_id lr);
    match cancel_reply api t with
    | Api_body _ => EvLog Info (CancelDone (lr_id lr))
    | _ => EvLog Error (CancelFailed (lr_id lr))
    end],
   S t).
Proof.
  unfold cancel_machine_action, bind, request, log, emit, ret.
  destruct (cancel_reply api t); reflexivity.
Qed.

(** [wait_live_response] in one piece: the loop, then the timeout branch
    when the counter has used up the budget. *)
Lemma wait_live_response_run evidence t :
  let lr := live_response evidence in
  let r := wait_loop cfg tbl api (polls_left cfg (timeout_counter lr)) evidence t in
  let evidence' := snd (value r) in
  let lr' := live_response evidence' in
  wait_live_response cfg tbl api evidence t =
  match fst (value r) with
  | Raised =>
      (Raised, evidence',
       EvLog Info (WaitingJob (lr_id lr) (sha256 evidence)) :: events r,
       requests r)
  | Returned =>
      if budget_spent cfg (JOB_TIMEOUT cfg) (timeout_counter lr') then
        (Returned, timed_out tbl evidence',
         EvLog Info (WaitingJob (lr_id lr) (sha256 evidence)) :: events r ++
         [EvLog Error (JobTimeoutHit (lr_id lr') (sha256 evidence'));
          EvCancel (lr_id lr');
          match cancel_reply api (requests r) with
          | Api_body _ => EvLog Info (CancelDone (lr_id lr'))
          | _ => EvLog Error (CancelFailed (lr_id lr'))
          end;
          EvSleep (interval cfg)],
         S (requests r))
      else
        (Returned, evidence',
         EvLog Info (WaitingJob (lr_id lr) (sha256 evidence)) :: events r,
         requests r)
  end.
Proof.
  cbv zeta. unfold wait_live_response.
  rewrite bind_run. cbn [log emit value events requests fst snd app].
  rewrite bind_run.
  destruct (wait_loop cfg tbl api (polls_left cfg (timeout_counter (live_response evidence)))
              evidence t) as [[[[|] evidence'] ev] t'] eqn:Hw;
    cbn [value events requests fst snd].
  - destruct (budget_spent cfg (JOB_TIMEOUT cfg) (timeout_counter (live_response evidence'))).
    + rewrite bind_run. cbn [log emit value events requests fst snd app].
      rewrite bind_run, cancel_machine_action_run.
      cbn [value events requests fst snd app lr_id set_status set_has_error].
      rewrite bind_run. cbn [sleep emit ret value events requests fst snd app].
      reflexivity.
    + cbn [ret]. rewrite app_nil_r. reflexivity.
  - cbn [ret]. rewrite app_nil_r. reflexivity.
Qed.

Lemma polls_left_enough counter :
  (Z.to_nat (allowance - counter) <= polls_left cfg counter)%nat.
Proof. unfold polls_left, allowance. lia. Qed.



Lemma same_id_refl id : same_id id id = true.
Proof. destruct id as [s|]; [apply String.eqb_refl | reflexivity]. Qed.

Lemma follow_weaken l : forall prev,
  cancels_follow_timeout None l = true -> cancels_follow_timeout prev l = true.
Proof.
  destruct l as [|e l]; intros prev H; [reflexivity|].
  cbn [cancels_follow_timeout] in *.
  destruct e; try exact H. discriminate H.
Qed.

Lemma follow_app a : forall prev b,
  cancels_follow_timeout prev a = true ->
  cancels_follow_timeout None b = true ->
  cancels_follow_timeout prev (a ++ b) = true.
Proof.
  induction a as [|e a IH]; intros prev b Ha Hb; cbn [app].
  - apply follow_weaken; exact Hb.
  - cbn [cancels_follow_timeout] in *.
    apply andb_true_iff in Ha. destruct Ha as [He Ha].
    rewrite He. cbn [andb]. apply IH; assumption.
Qed.

Lemma follow_quiet l : forall prev,
  count is_cancel l = 0%nat -> cancels_follow_timeout prev l = true.
Proof.
  induction l as [|e l IH]; intros prev H; [reflexivity|].
  cbn [cancels_follow_timeout].
  destruct e; try (apply IH; exact H). discriminate H.
Qed.

(** The cancellations of one call of the tracker: one, right after the
    log line of the timeout, when it returns with the budget used up;
    none otherwise. *)
Lemma wait_live_response_cancels evidence t :
  let r := wait_live_response cfg tbl api evidence t in
  count is_cancel (events r) =
    (if budget_spent cfg (JOB_TIMEOUT cfg)
          (timeout_counter (live_response (snd (value r))))
     then match fst (value r) with Returned => 1 | Raised => 0 end
     else 0)%nat
  /\ cancels_follow_timeout None (events r) = true.
Proof.
  cbv zeta. rewrite wait_live_response_run. cbv zeta.
  pose proof (wait_loop_cancels
                (polls_left cfg (timeout_counter (live_response evidence)))
                evidence t) as Hq.
  set (r := wait_loop cfg tbl api _ evidence t) in *.
  destruct (fst (value r)) eqn:Ho.
  - destruct (budget_spent cfg (JOB_TIMEOUT cfg)
                (timeout_counter (live_response (snd (value r))))) eqn:Hb;
      cbn [value events fst snd].
    + cbn [timed_out with_live_response live_response timeout_counter
             set_status set_has_error]. rewrite Hb. split.
      * rewrite count_cons, count_app, Hq.
        destruct (cancel_reply api (requests r)); reflexivity.
      * cbn [cancels_follow_timeout andb]. apply follow_app.
        -- apply follow_quiet; exact Hq.
        -- cbn [cancels_follow_timeout]. rewrite same_id_refl.
           destruct (cancel_reply api (requests r)); reflexivity.
    + rewrite Hb. split.
      * rewrite count_cons. exact Hq.
      * cbn [cancels_follow_timeout andb]. apply follow_quiet; exact Hq.
  - cbn [value events fst snd]. split.
    + rewrite count_cons. destruct (budget_spent _ _ _); exact Hq.
    + cbn [cancels_follow_timeout andb]. apply follow_quiet; exact Hq.
Qed.

End Tracker.

(** The tracker returning with the counter at the allowance: the job is
    marked timed out and one cancellation was sent. *)
Lemma tracker_times_out (api : Vendor) (evidence : Evidence) (t : nat) :
  let r := wait_live_response cfg tbl api evidence t in
  let lr' := live_response (snd (value r)) in
  fst (value r) = Returned ->
  polls_allowed (JOB_TIMEOUT cfg) (SLEEP cfg) <= timeout_counter lr' ->
  lr_status lr' = TIMEOUT tbl
  /\ has_error lr' = true
  /\ count is_cancel (events r) = 1%nat.
Proof.
  cbv zeta. intros Hr Hc.
  destruct (wait_live_response_cancels api evidence t) as [Hn _]. cbv zeta in Hn.
  rewrite Hn, Hr, budget_spent_ceil. clear Hn.
  apply Z.leb_le in Hc. rewrite Hc.
  rewrite wait_live_response_run in *. cbv zeta in *.
  set (r := wait_loop cfg tbl api _ evidence t) in *.
  destruct (fst (value r)); [|discriminate Hr].
  destruct (budget_spent cfg (JOB_TIMEOUT cfg)
              (timeout_counter (live_response (snd (value r))))) eqn:Hb.
  + cbn. auto.
  + cbn [value fst snd] in Hc. rewrite <- budget_spent_ceil in Hc. congruence.
Qed.

Lemma wait_live_response_polls (api : Vendor) (evidence : Evidence) (t : nat) :
  Z.of_nat (count is_poll (events (wait_live_response cfg tbl api evidence t)))
  <= Z.max 0 (polls_allowed (JOB_TIMEOUT cfg) (SLEEP cfg)
              - timeout_counter (live_response evidence)).
Proof.
  rewrite wait_live_response_run. cbv zeta.
  pose proof (wait_loop_polls api
                (polls_left cfg (timeout_counter (live_response evidence)))
                evidence t) as Hp.
  set (r := wait_loop cfg tbl api _ evidence t) in *.
  destruct (fst (value r)).
  - destruct (budget_spent _ _ _); cbn [events fst snd].
    + rewrite count_cons, count_app.
      replace (count is_poll [_; _; _; _]) with 0%nat
        by (destruct (cancel_reply api (requests r)); reflexivity).
      cbn [is_poll]. lia.
    + rewrite count_cons. exact Hp.
  - cbn [events fst snd]. rewrite count_cons. exact Hp.
Qed.

(** C2 (amended).  The tracker polls at most
    [polls_allowed JOB_TIMEOUT SLEEP] times less the polls already counted,
    the least whole number of sleeps that reaches the job timeout.  When it
    returns with the counter at that allowance, the job has the status
    [TIMEOUT] and [has_error] set and exactly one cancellation was sent;
    the job it returns is the same whatever the vendor answers to the
    cancellation. *)
Theorem wait_live_response_poll_budget (api : Vendor) (evidence : Evidence) (t : nat) :
  let r := wait_live_response cfg tbl api evidence t in
  let lr' := live_response (snd (value r)) in
  Z.of_nat (count is_poll (events r))
    <= Z.max 0 (polls_allowed (JOB_TIMEOUT cfg) (SLEEP cfg)
                - timeout_counter (live_response evidence))
  /\ (fst (value r) = Returned ->
      polls_allowed (JOB_TIMEOUT cfg) (SLEEP cfg) <= timeout_counter lr' ->
      lr_status lr' = TIMEOUT tbl
      /\ has_error lr' = true
      /\ count is_cancel (events r) = 1%nat)
  /\ (forall c,
      value (wait_live_response cfg tbl (with_cancel_reply c api) evidence t)
      = value r).
Proof.
  cbv zeta. split; [|split].
  - apply wait_live_response_polls.
  - apply tracker_times_out.
  - intro c.
    rewrite !wait_live_response_run. cbv zeta.
    change (wait_loop cfg tbl (with_cancel_reply c api))
      with (wait_loop cfg tbl api).
    set (r := wait_loop cfg tbl api _ evidence t).
    destruct (fst (value r)); [|reflexivity].
    destruct (budget_spent _ _ _); reflexivity.
Qed.





(** Where [SLEEP] divides [JOB_TIMEOUT] the allowance is the quotient of
    the two. *)
Corollary tracker_polls_within_quotient (api : Vendor) (evidence : Evidence) (t : nat) :
  JOB_TIMEOUT cfg mod Z.pos (SLEEP cfg) = 0 ->
  Z.of_nat (count is_poll (events (wait_live_response cfg tbl api evidence t)))
  <= Z.max 0 (JOB_TIMEOUT cfg / Z.pos (SLEEP cfg)
              - timeout_counter (live_response evidence)).
Proof.
  intro H. rewrite <- (polls_allowed_exact _ _ H).
  apply (wait_live_response_polls api evidence t).
Qed.

Lemma terminal_stops_waiting lr :
  terminal lr = true -> keeps_waiting cfg lr = false.
Proof.
  intro H. destruct (keeps_waiting cfg lr) eqn:Hk; [|reflexivity].
  apply keeps_waiting_spec in Hk. destruct Hk as [_ Hk]. congruence.
Qed.

(** A terminal job is not polled: the loop of the tracker leaves at once
    and leaves the job as it is. *)
Lemma terminal_job_is_not_polled (api : Vendor) n evidence t :
  terminal (live_response evidence) = true ->
  wait_loop cfg tbl api n evidence t = (Returned, evidence, [], t).
Proof. intro H. apply wait_loop_stops, terminal_stops_waiting, H. Qed.





(** The transitions of one poll, by the record the vendor returns.  The
    failure transition is the one that a record without a first command
    error does not make: see [polled_failed_no_error]. *)
Lemma poll_job_transitions (api : Vendor) (evidence : Evidence) (t : nat) :
  let lr := live_response evidence in
  let r := value (poll_job cfg tbl api evidence t) in
  (forall ma, action_reply api t = Api_body ma ->
     String.eqb (ma_status ma) (SUCCEEDED tbl) = true ->
     r = (Returned,
          with_live_response (set_is_finished (set_status (ma_status ma) lr))
                             evidence))
  /\ (forall ma error, action_reply api t = Api_body ma ->
     String.eqb (ma_status ma) (SUCCEEDED tbl) = false ->
     mem (ma_status ma) (FAIL tbl) = true ->
     first_error ma = Some error ->
     r = (Returned,
          with_live_response (set_has_error (set_status (ma_status ma) lr))
                             evidence)
     /\ In (EvLog Error (JobFailed (lr_id lr) (sha256 evidence) error))
           (events (poll_job cfg tbl api evidence t)))
  /\ (forall ma, action_reply api t = Api_body ma ->
     String.eqb (ma_status ma) (SUCCEEDED tbl) = false ->
     mem (ma_status ma) (FAIL tbl) = false ->
     r = (Returned, with_live_response (incr_timeout_counter lr) evidence))
  /\ ((forall ma, action_reply api t <> Api_body ma) ->
     r = (Returned, with_live_response (set_has_error lr) evidence)).
Proof.
  cbv zeta.
  pose proof (poll_job_polled api evidence t) as P.
  split; [|split; [|split]].
  - intros ma Hr Hs. rewrite Hr in P. inversion P; subst; congruence.
  - intros ma error Hr Hs Hf He. split.
    + rewrite Hr in P. inversion P; subst; congruence.
    + unfold poll_job.
      rewrite events_bind, events_bind, get_machine_action_run.
      cbn [value events requests fst snd sleep emit app].
      rewrite Hr, Hs, Hf, He. rewrite events_bind. cbn. auto.
  - intros ma Hr Hs Hf. rewrite Hr in P. inversion P; subst; congruence.
  - intros Hn. inversion P; subst; try reflexivity;
      match goal with H : Api_body ?ma = _ |- _ =>
        exfalso; apply (Hn ma); symmetry; exact H end.
Qed.

(** The failure branch formats [machine_action["commands"][0]["errors"][0]]
    into its log line before it updates the job: on a failure status with
    no first command error the poll raises, the job keeps its status and
    flags, and the loop is left by the exception. *)
Lemma poll_job_failure_without_error (api : Vendor) (evidence : Evidence) (t : nat) ma :
  action_reply api t = Api_body ma ->
  String.eqb (ma_status ma) (SUCCEEDED tbl) = false ->
  mem (ma_status ma) (FAIL tbl) = true ->
  first_error ma = None ->
  poll_job cfg tbl api evidence t =
  (Raised, evidence,
   [EvSleep (interval cfg); EvGetAction (lr_id (live_response evidence))], S t).
Proof.
  intros Hr Hs Hf He. unfold poll_job.
  rewrite bind_run. cbn [sleep emit value events requests fst snd].
  rewrite bind_run, get_machine_action_run.
  cbn [value events requests fst snd]. rewrite Hr, Hs, Hf, He. reflexivity.
Qed.


(** ** The containment sequencer *)

Section Containment.

Variable api : Vendor.
Variable k : endpoint.
Variable evidence : Evidence.
Variable machine : string.

Let budget : Z := polls_allowed (MACHINE_TIMEOUT cfg) (SLEEP cfg).

Lemma submit_loop_done n timeout_count t :
  submit_loop cfg tbl api n k evidence machine timeout_count false t
  = (timeout_count, [], t).
Proof. destruct n; cbn [submit_loop]; rewrite andb_false_r; reflexivity. Qed.

Lemma submit_loop_spent n timeout_count pending t :
  within_budget cfg (MACHINE_TIMEOUT cfg) timeout_count = false ->
  submit_loop cfg tbl api n k evidence machine timeout_count pending t
  = (timeout_count, [], t).
Proof. intro H. destruct n; cbn [submit_loop]; rewrite H; reflexivity. Qed.

Lemma submit_loop_step n timeout_count t :
  within_budget cfg (MACHINE_TIMEOUT cfg) timeout_count = true ->
  submit_loop cfg tbl api (S n) k evidence machine timeout_count true t =
  let a := is_machine_available tbl api machine t in
  if value a then
    (timeout_count,
     events a ++ [EvSubmit k machine (request_data cfg k evidence);
                  submit_log k machine (submit_reply api (S t))],
     S (S t))
  else
    let r := submit_loop cfg tbl api n k evidence machine (timeout_count + 1) true (S t) in
    (value r, events a ++ EvSleep (interval cfg) :: events r, requests r).
Proof.
  intro H. cbn [submit_loop]. rewrite H. cbn [andb]. cbv zeta.
  rewrite bind_run, is_machine_available_requests.
  destruct (value (is_machine_available tbl api machine t)).
  - rewrite bind_run. cbn [request value events requests fst snd].
    destruct (submit_reply api (S t));
      rewrite bind_run; cbn [log emit value events requests fst snd];
      rewrite submit_loop_done; reflexivity.
  - rewrite bind_run. cbn [sleep emit value events requests fst snd app].
    reflexivity.
Qed.

(** The loop of a containment function: [j] failed checks, then either an
    available machine below the budget and the submission, or the budget
    used up and nothing submitted. *)
Lemma submit_loop_shape n : forall timeout_count t,
  (Z.to_nat (budget - timeout_count) <= n)%nat ->
  let r := submit_loop cfg tbl api n k evidence machine timeout_count true t in
  exists j : nat,
    (forall i, (i < j)%nat ->
       value (is_machine_available tbl api machine (t + i)%nat) = false)
    /\ ((timeout_count + Z.of_nat j < budget
         /\ value (is_machine_available tbl api machine (t + j)%nat) = true
         /\ r = (timeout_count + Z.of_nat j,
                 busy_rounds cfg tbl api machine j t
                 ++ events (is_machine_available tbl api machine (t + j)%nat)
                 ++ [EvSubmit k machine (request_data cfg k evidence);
                     submit_log k machine (submit_reply api (S (t + j)%nat))],
                 S (S (t + j)%nat)))
        \/ (j = Z.to_nat (budget - timeout_count)
            /\ r = (timeout_count + Z.of_nat j, busy_rounds cfg tbl api machine j t, (t + j)%nat))).
Proof.
  induction n as [|n IH]; intros c t Hn; cbv zeta.
  - exists 0%nat. split; [intros i Hi; lia|]. right.
    assert (Hc : within_budget cfg (MACHINE_TIMEOUT cfg) c = false).
    { rewrite within_budget_ceil. apply Z.ltb_ge. fold budget. lia. }
    rewrite submit_loop_spent by exact Hc.
    split; [lia|]. rewrite Z.add_0_r, Nat.add_0_r. reflexivity.
  - destruct (within_budget cfg (MACHINE_TIMEOUT cfg) c) eqn:Hc.
    + rewrite submit_loop_step by exact Hc. cbv zeta.
      rewrite within_budget_ceil in Hc. apply Z.ltb_lt in Hc. fold budget in Hc.
      destruct (value (is_machine_available tbl api machine t)) eqn:Ha.
      * exists 0%nat. split; [intros i Hi; lia|]. left.
        rewrite Z.add_0_r, Nat.add_0_r. repeat split; [lia | exact Ha].
      * destruct (IH (c + 1) (S t)) as [j [Hbusy Hj]]; [lia|].
        exists (S j). split.
        { intros [|i] Hi.
          - rewrite Nat.add_0_r. exact Ha.
          - rewrite Nat.add_succ_r. apply (Hbusy i). lia. }
        rewrite Nat.add_succ_r. cbn [busy_rounds].
        destruct Hj as [[Hlt [Hav Hr]] | [Hjj Hr]]; cbv zeta in Hr; rewrite Hr;
          cbn [value events requests fst snd].
        -- left. split; [lia|]. split; [exact Hav|].
           replace (c + Z.of_nat (S j)) with (c + 1 + Z.of_nat j) by lia.
           rewrite <- app_assoc. reflexivity.
        -- right. split; [lia|].
           replace (c + Z.of_nat (S j)) with (c + 1 + Z.of_nat j) by lia.
           reflexivity.
    + exists 0%nat. split; [intros i Hi; lia|]. right.
      rewrite submit_loop_spent by exact Hc.
      rewrite within_budget_ceil in Hc. apply Z.ltb_ge in Hc. fold budget in Hc.
      split; [lia|]. rewrite Z.add_0_r, Nat.add_0_r. reflexivity.
Qed.

(** One machine of a containment function: the failed checks, then the
    submission, its log line and one sleep of [SLEEP], or, with the budget
    used up, the log line of the timeout and no submission. *)
Lemma contain_machine_shape t :
  let r := contain_machine cfg tbl api k evidence machine t in
  exists j : nat,
    (forall i, (i < j)%nat ->
       value (is_machine_available tbl api machine (t + i)%nat) = false)
    /\ ((Z.of_nat j < budget
         /\ value (is_machine_available tbl api machine (t + j)%nat) = true
         /\ events r =
            EvLog Info (ActionOnMachine k machine)
            :: busy_rounds cfg tbl api machine j t
            ++ events (is_machine_available tbl api machine (t + j)%nat)
            ++ [EvSubmit k machine (request_data cfg k evidence);
                submit_log k machine (submit_reply api (S (t + j)%nat));
                EvSleep (interval cfg)]
         /\ requests r = S (S (t + j)%nat))
        \/ (j = Z.to_nat budget
            /\ events r =
               EvLog Info (ActionOnMachine k machine)
               :: busy_rounds cfg tbl api machine j t
               ++ [EvLog Error (ActionMachineTimeout k machine)]
            /\ requests r = (t + j)%nat)).
Proof.
  cbv zeta. unfold contain_machine.
  rewrite events_bind, requests_bind.
  cbn [log emit value events requests fst snd app].
  rewrite events_bind, requests_bind.
  destruct (submit_loop_shape (checks_left cfg 0) 0 t) as [j [Hbusy Hj]].
  { unfold checks_left, budget. lia. }
  exists j. split; [exact Hbusy|].
  destruct Hj as [[Hlt [Hav Hr]] | [Hjj Hr]]; cbv zeta in Hr; rewrite Hr;
    cbn [value events requests fst snd]; rewrite budget_spent_ceil;
    fold budget.
  - left. split; [lia|]. split; [exact Hav|].
    replace (budget <=? 0 + Z.of_nat j) with false by (symmetry; apply Z.leb_gt; lia).
    cbn [sleep emit events requests fst snd].
    split; [|reflexivity].
    rewrite <- !app_assoc. reflexivity.
  - right. split; [rewrite Z.sub_0_r in Hjj; exact Hjj|].
    replace (budget <=? 0 + Z.of_nat j) with true by (symmetry; apply Z.leb_le; lia).
    cbn [log emit events requests fst snd].
    split; reflexivity.
Qed.


End Containment.


(** ** Events a computation never emits *)

Lemma silent_ret p {A} (a : A) : silent p (ret a).
Proof. intro t; reflexivity. Qed.

Lemma silent_bind p {A B} (m : M A) (f : A -> M B) :
  silent p m -> (forall a, silent p (f a)) -> silent p (bind m f).
Proof.
  intros Hm Hf t. rewrite events_bind, count_app, Hm, Hf. reflexivity.
Qed.

Lemma silent_emit p e : p e = false -> silent p (emit e).
Proof. intros H t. cbn [emit events fst snd]. rewrite count_cons, H. reflexivity. Qed.

Lemma silent_request p {A} e (reply : nat -> A) :
  p e = false -> silent p (request e reply).
Proof. intros H t. cbn [request events fst snd]. rewrite count_cons, H. reflexivity. Qed.

Ltac silence :=
  unfold log, sleep;
  repeat first
    [ assumption
    | apply silent_ret
    | apply silent_emit; reflexivity
    | apply silent_request; reflexivity
    | apply silent_bind; [| intro]
    | match goal with
      | |- silent _ (match ?x with _ => _ end) => destruct x
      | H : forall x, silent _ _ |- _ => apply H
      end ].

Lemma silent_scan_actions (api : Vendor) p machine actions :
  In p off_gate -> silent p (scan_actions tbl machine actions).
Proof.
  intro H. induction actions as [|a rest IH]; cbn [scan_actions].
  - repeat (destruct H as [<-|H]); try contradiction; silence.
  - destruct (mem (action_status a) (NOT_AVAILABLE tbl)); [|exact IH].
    clear IH. repeat (destruct H as [<-|H]); try contradiction; silence.
Qed.

Lemma silent_is_machine_available (api : Vendor) p machine :
  In p off_gate -> silent p (is_machine_available tbl api machine).
Proof.
  intro H. unfold is_machine_available.
  apply silent_bind.
  - unfold get_machine_actions.
    repeat (destruct H as [<-|H]); try contradiction; silence.
  - intros [actions|]; [|apply silent_ret].
    apply (silent_scan_actions api); exact H.
Qed.

Lemma silent_busy_rounds (api : Vendor) p machine j : forall t,
  In p off_gate -> p (EvSleep (interval cfg)) = false ->
  count p (busy_rounds cfg tbl api machine j t) = 0%nat.
Proof.
  induction j as [|j IH]; intros t H Hs; cbn [busy_rounds]; [reflexivity|].
  rewrite count_app, count_cons, Hs, IH by assumption.
  rewrite (silent_is_machine_available api p machine H). reflexivity.
Qed.

Lemma silent_for_each p {A} (body : A -> M unit) (l : list A) :
  (forall x, silent p (body x)) -> silent p (for_each body l).
Proof.
  intro H. induction l as [|x l IH]; cbn [for_each]; silence.
Qed.

Lemma silent_submit_loop (api : Vendor) p k evidence machine n :
  forall timeout_count pending,
  In p (is_begin :: off_containment) ->
  silent p (submit_loop cfg tbl api n k evidence machine timeout_count pending).
Proof.
  induction n as [|n IH]; intros c pending H; cbn [submit_loop].
  - destruct (_ && _); apply silent_ret.
  - destruct (_ && _); [|apply silent_ret].
    apply silent_bind.
    + apply silent_is_machine_available.
      unfold off_gate; cbn in *; intuition.
    + intros [|].
      * pose proof (IH c false H).
        repeat (destruct H as [<-|H]); try contradiction; silence.
      * pose proof (IH (c + 1) true H).
        repeat (destruct H as [<-|H]); try contradiction; silence.
Qed.

Lemma silent_contain_machine (api : Vendor) p k evidence machine :
  In p (is_begin :: off_containment) ->
  silent p (contain_machine cfg tbl api k evidence machine).
Proof.
  intro H. unfold contain_machine.
  pose proof (silent_submit_loop api p k evidence machine (checks_left cfg 0) 0 true H).
  repeat (destruct H as [<-|H]); try contradiction; silence.
Qed.

Lemma silent_contain (api : Vendor) p k evidence :
  In p off_containment -> silent p (contain cfg tbl api k evidence).
Proof.
  intro H. unfold contain.
  assert (Hm : forall machine, silent p (contain_machine cfg tbl api k evidence machine)).
  { intro machine. apply silent_contain_machine. right; exact H. }
  pose proof (silent_for_each p _ (machines evidence) Hm).
  repeat (destruct H as [<-|H]); try contradiction; silence.
Qed.


Lemma for_each_cons {A} (body : A -> M unit) x l t :
  events (for_each body (x :: l) t)
  = events (body x t) ++ events (for_each body l (requests (body x t))).
Proof. cbn [for_each]. rewrite events_bind. reflexivity. Qed.

(** C7 (amended).  A containment function goes through the machines of the
    evidence in order, each on its own: failed availability checks, each
    followed by a sleep of [SLEEP], then the submission, its log line and
    one sleep of [SLEEP]; or, after [polls_allowed MACHINE_TIMEOUT SLEEP]
    failed checks, the log line of the timeout.  It never reads a machine
    action and never cancels one: after the submission it does not wait for
    the action to end. *)
Theorem contain_submits_then_sleeps (api : Vendor) (k : endpoint)
    (evidence : Evidence) :
  (forall t,
      count is_poll (events (contain cfg tbl api k evidence t)) = 0%nat
      /\ count is_cancel (events (contain cfg tbl api k evidence t)) = 0%nat)
  /\ (forall t,
      events (contain cfg tbl api k evidence t)
      = EvLog Info (ActionBegin k (List.length (machines evidence)))
        :: events (for_each (contain_machine cfg tbl api k evidence)
                            (machines evidence) t))
  /\ (forall machine rest t,
      events (for_each (contain_machine cfg tbl api k evidence) (machine :: rest) t)
      = events (contain_machine cfg tbl api k evidence machine t)
        ++ events (for_each (contain_machine cfg tbl api k evidence) rest
                     (requests (contain_machine cfg tbl api k evidence machine t))))
  /\ (forall machine t,
      let r := contain_machine cfg tbl api k evidence machine t in
      exists j : nat,
        (forall i, (i < j)%nat ->
           value (is_machine_available tbl api machine (t + i)%nat) = false)
        /\ ((Z.of_nat j < polls_allowed (MACHINE_TIMEOUT cfg) (SLEEP cfg)
             /\ value (is_machine_available tbl api machine (t + j)%nat) = true
             /\ events r =
                EvLog Info (ActionOnMachine k machine)
                :: busy_rounds cfg tbl api machine j t
                ++ events (is_machine_available tbl api machine (t + j)%nat)
                ++ [EvSubmit k machine (request_data cfg k evidence);
                    submit_log k machine (submit_reply api (S (t + j)%nat));
                    EvSleep (interval cfg)]
             /\ requests r = S (S (t + j)%nat))
            \/ (j = Z.to_nat (polls_allowed (MACHINE_TIMEOUT cfg) (SLEEP cfg))
                /\ events r =
                   EvLog Info (ActionOnMachine k machine)
                   :: busy_rounds cfg tbl api machine j t
                   ++ [EvLog Error (ActionMachineTimeout k machine)]
                /\ requests r = (t + j)%nat))).
Proof.
  split; [|split; [|split]].
  - intro t. split; apply silent_contain; cbn; auto.
  - intro t. unfold contain. rewrite events_bind. reflexivity.
  - intros machine rest t. apply for_each_cons.
  - intros machine t. apply contain_machine_shape.
Qed.


(** ** The live response sequencer *)

Section Live.

Variable api : Vendor.
Variable has_pending_actions : Machine -> bool.
Variable start : LiveResponse -> Z -> list string -> string -> string -> LiveResponse.

Let budget : Z := polls_allowed (MACHINE_TIMEOUT cfg) (SLEEP cfg).

Lemma machine_step_busy machine t :
  value (is_machine_available tbl api (machine_id machine) t) = false ->
  machine_step cfg tbl api start machine t =
  (incr_machine_timeout_counter machine,
   events (is_machine_available tbl api (machine_id machine) t)
   ++ [EvSleep (interval cfg)],
   S t).
Proof.
  intro H. unfold machine_step.
  rewrite bind_run, is_machine_available_requests, H.
  rewrite bind_run. reflexivity.
Qed.

Lemma machine_step_available machine t :
  value (is_machine_available tbl api (machine_id machine) t) = true ->
  value (machine_step cfg tbl api start machine t) =
  with_evidences
    (value (acquire_all cfg tbl api start (machine_id machine) (evidences machine) (S t)))
    machine.
Proof.
  intro H. unfold machine_step.
  rewrite value_bind, is_machine_available_requests, H.
  rewrite value_bind. reflexivity.
Qed.

Lemma acquire_unavailable machine evidence t :
  value (is_machine_available tbl api machine t) = false ->
  acquire cfg tbl api start machine evidence t =
  (evidence,
   events (is_machine_available tbl api machine t)
   ++ [EvSleep (Z.pos (SLEEP cfg) # 60)],
   S t).
Proof.
  intro H. unfold acquire.
  rewrite bind_run, is_machine_available_requests, H.
  rewrite bind_run. reflexivity.
Qed.

Lemma machine_loop_spent fuel machine t :
  within_budget cfg (MACHINE_TIMEOUT cfg) (machine_timeout_counter machine) = false ->
  machine_loop cfg tbl api has_pending_actions start fuel machine t
  = (Some machine, [], t).
Proof. intro H. destruct fuel; cbn [machine_loop]; rewrite H; reflexivity. Qed.

(** C10.  One iteration of the loop of [run_live_response] raises
    [machine.timeout_counter] by one exactly when its own availability
    check, the outer one, fails, and then sleeps [SLEEP]; when that check
    succeeds the counter is as before, whatever the checks inside the
    [for] loop answer.  An inner check that fails leaves the evidence as it
    is and sleeps [SLEEP / 60].  The counter is what the condition of the
    loop compares with [MACHINE_TIMEOUT / SLEEP]. *)
Theorem inner_unavailability_keeps_counter (machine : Machine) (t : nat) :
  let available := value (is_machine_available tbl api (machine_id machine) t) in
  let r := machine_step cfg tbl api start machine t in
  machine_timeout_counter (value r)
    = machine_timeout_counter machine + (if available then 0 else 1)
  /\ (available = false ->
      events r = events (is_machine_available tbl api (machine_id machine) t)
                 ++ [EvSleep (Z.pos (SLEEP cfg) # 1)])
  /\ (forall evidence t',
      value (is_machine_available tbl api (machine_id machine) t') = false ->
      acquire cfg tbl api start (machine_id machine) evidence t' =
      (evidence,
       events (is_machine_available tbl api (machine_id machine) t')
       ++ [EvSleep (Z.pos (SLEEP cfg) # 60)],
       S t'))
  /\ (forall fuel,
      within_budget cfg (MACHINE_TIMEOUT cfg) (machine_timeout_counter machine)
        = false ->
      machine_loop cfg tbl api has_pending_actions start fuel machine t
      = (Some machine, [], t)).
Proof.
  cbv zeta. split; [|split; [|split]].
  - destruct (value (is_machine_available tbl api (machine_id machine) t)) eqn:Ha.
    + rewrite machine_step_available by exact Ha. cbn. lia.
    + rewrite machine_step_busy by exact Ha. reflexivity.
  - intro Ha. rewrite machine_step_busy by exact Ha. reflexivity.
  - intros evidence t'. apply acquire_unavailable.
  - intro fuel. apply machine_loop_spent.
Qed.

(** C9.  A live response submission answered with an ["error"] body: the
    error is logged, [has_error] is set on the job, nothing else is
    requested (no machine action is read, the tracker is not run), no
    exception leaves the loop body, and the [for] loop goes on with the
    evidences that follow. *)
Theorem refused_submission_is_not_fatal (machine : string) (evidence : Evidence)
    (rest : list Evidence) (t : nat) (message : option string) :
  value (is_machine_available tbl api machine t) = true ->
  submit_reply api (S t) = Api_error message ->
  let r := acquire cfg tbl api start machine evidence t in
  value r = mark_error evidence
  /\ has_error (live_response (value r)) = true
  /\ events r =
     events (is_machine_available tbl api machine t)
     ++ [EvLog Info (TryingJob (absolute_path evidence) machine);
         EvSubmit RunLiveResponse machine (request_data cfg RunLiveResponse evidence);
         EvLog Error
           match message with
           | Some error => SubmitError machine (sha256 evidence) error
           | None => CreateFailed machine
           end]
  /\ count is_poll (events r) = 0%nat
  /\ requests r = S (S t)
  /\ acquire_all cfg tbl api start machine (evidence :: rest) t =
     (mark_error evidence
      :: value (acquire_all cfg tbl api start machine rest (S (S t))),
      events r ++ events (acquire_all cfg tbl api start machine rest (S (S t))),
      requests (acquire_all cfg tbl api start machine rest (S (S t)))).
Proof.
  intros Ha Hs. cbv zeta.
  assert (Hr : acquire cfg tbl api start machine evidence t =
               (mark_error evidence,
                events (is_machine_available tbl api machine t)
                ++ [EvLog Info (TryingJob (absolute_path evidence) machine);
                    EvSubmit RunLiveResponse machine
                      (request_data cfg RunLiveResponse evidence);
                    EvLog Error
                      match message with
                      | Some error => SubmitError machine (sha256 evidence) error
                      | None => CreateFailed machine
                      end],
                S (S t))).
  { unfold acquire.
    rewrite bind_run, is_machine_available_requests, Ha.
    rewrite bind_run. cbn [log emit value events requests fst snd].
    rewrite bind_run. cbn [request value events requests fst snd].
    rewrite Hs. destruct message; rewrite bind_run; reflexivity. }
  rewrite Hr. cbn [value events requests fst snd].
  split; [reflexivity|]. split; [reflexivity|]. split; [reflexivity|].
  split; [|split; [reflexivity|]].
  - rewrite count_app.
    rewrite (silent_is_machine_available api is_poll machine) by (cbn; auto).
    reflexivity.
  - cbn [acquire_all]. rewrite bind_run, Hr. cbn [value events requests fst snd].
    rewrite bind_run. cbn [ret value events requests fst snd].
    rewrite app_nil_r. reflexivity.
Qed.

Lemma with_counter_incr c machine :
  with_machine_timeout_counter c (incr_machine_timeout_counter machine)
  = with_machine_timeout_counter c machine.
Proof. reflexivity. Qed.

Lemma with_counter_same machine :
  with_machine_timeout_counter (machine_timeout_counter machine) machine = machine.
Proof. destruct machine; reflexivity. Qed.

(** A machine that fails every availability check until the budget is
    used up: the loop of [run_live_response] counts up to the budget,
    submits nothing and leaves the queue as it is. *)
Lemma machine_loop_busy fuel : forall machine t,
  (forall i : nat,
      Z.of_nat i < budget - machine_timeout_counter machine ->
      value (is_machine_available tbl api (machine_id machine) (t + i)%nat) = false) ->
  (forall c, has_pending_actions (with_machine_timeout_counter c machine) = true) ->
  (Z.to_nat (budget - machine_timeout_counter machine) <= fuel)%nat ->
  machine_loop cfg tbl api has_pending_actions start fuel machine t =
  (Some (with_machine_timeout_counter
           (Z.max (machine_timeout_counter machine) budget) machine),
   busy_rounds cfg tbl api (machine_id machine)
     (Z.to_nat (budget - machine_timeout_counter machine)) t,
   (t + Z.to_nat (budget - machine_timeout_counter machine))%nat).
Proof.
  induction fuel as [|fuel IH]; intros machine t Hbusy Hpending Hfuel.
  - assert (Hc : within_budget cfg (MACHINE_TIMEOUT cfg)
                   (machine_timeout_counter machine) = false).
    { rewrite within_budget_ceil. apply Z.ltb_ge. fold budget. lia. }
    rewrite machine_loop_spent by exact Hc.
    replace (Z.to_nat (budget - machine_timeout_counter machine)) with 0%nat by lia.
    rewrite Z.max_l by lia. rewrite with_counter_same, Nat.add_0_r. reflexivity.
  - destruct (within_budget cfg (MACHINE_TIMEOUT cfg)
                (machine_timeout_counter machine)) eqn:Hc.
    + assert (Hp : has_pending_actions machine = true).
      { pose proof (Hpending (machine_timeout_counter machine)) as Hp.
        rewrite with_counter_same in Hp. exact Hp. }
      cbn [machine_loop]. rewrite Hc, Hp. cbn [andb].
      rewrite within_budget_ceil in Hc. apply Z.ltb_lt in Hc. fold budget in Hc.
      assert (Ha : value (is_machine_available tbl api (machine_id machine) t) = false).
      { rewrite <- (Nat.add_0_r t). apply Hbusy. lia. }
      rewrite bind_run, machine_step_busy by exact Ha.
      cbn [value events requests fst snd].
      rewrite IH.
      * cbn [machine_timeout_counter incr_machine_timeout_counter
               with_machine_timeout_counter machine_id value events requests fst snd].
        replace (Z.to_nat (budget - machine_timeout_counter machine))
          with (S (Z.to_nat (budget - (machine_timeout_counter machine + 1)))) by lia.
        cbn [busy_rounds]. rewrite <- app_assoc. cbn [app].
        rewrite !Z.max_r by lia. rewrite Nat.add_succ_r. reflexivity.
      * intros i Hi. cbn [machine_id incr_machine_timeout_counter
                            with_machine_timeout_counter machine_timeout_counter] in *.
        replace (S t + i)%nat with (t + S i)%nat by lia. apply Hbusy. lia.
      * intro c. rewrite with_counter_incr. apply Hpending.
      * cbn [machine_timeout_counter incr_machine_timeout_counter
               with_machine_timeout_counter]. lia.
    + rewrite machine_loop_spent by exact Hc.
      rewrite within_budget_ceil in Hc. apply Z.ltb_ge in Hc. fold budget in Hc.
      replace (Z.to_nat (budget - machine_timeout_counter machine)) with 0%nat by lia.
      rewrite Z.max_l by lia. rewrite with_counter_same, Nat.add_0_r. reflexivity.
Qed.

Lemma run_machine_busy fuel machine t :
  (forall i : nat,
      Z.of_nat i < budget - machine_timeout_counter machine ->
      value (is_machine_available tbl api (machine_id machine) (t + i)%nat) = false) ->
  (forall c, has_pending_actions (with_machine_timeout_counter c machine) = true) ->
  (Z.to_nat (budget - machine_timeout_counter machine) <= fuel)%nat ->
  run_machine cfg tbl api has_pending_actions start fuel machine t =
  (Some (with_machine_timeout_counter
           (Z.max (machine_timeout_counter machine) budget) machine),
   EvLog Info (WaitingMachine (List.length (evidences machine)) (machine_id machine))
   :: busy_rounds cfg tbl api (machine_id machine)
        (Z.to_nat (budget - machine_timeout_counter machine)) t
   ++ [EvLog Error (MachineTimeoutHit (machine_id machine))],
   (t + Z.to_nat (budget - machine_timeout_counter machine))%nat).
Proof.
  intros Hbusy Hpending Hfuel. unfold run_machine.
  rewrite bind_run. cbn [log emit value events requests fst snd app].
  rewrite bind_run, machine_loop_busy by assumption.
  cbn [value events requests fst snd]. rewrite Hpending.
  rewrite bind_run. reflexivity.
Qed.


(** C5 (amended).  A machine that fails its first
    [polls_allowed MACHINE_TIMEOUT SLEEP] availability checks, the least
    whole number of sleeps that reaches the machine timeout: a containment
    function submits nothing for it and logs that the machine was not
    available during the timeout; [run_live_response], with jobs pending
    for it, submits nothing either, leaves its queue as it is and logs the
    same. *)
Theorem unavailable_machine_is_not_submitted_to (machine : Machine)
    (k : endpoint) (evidence : Evidence) (fuel t : nat) :
  0 <= machine_timeout_counter machine ->
  (forall i : nat,
      Z.of_nat i < polls_allowed (MACHINE_TIMEOUT cfg) (SLEEP cfg) ->
      value (is_machine_available tbl api (machine_id machine) (t + i)%nat) = false) ->
  (forall c, has_pending_actions (with_machine_timeout_counter c machine) = true) ->
  (Z.to_nat (polls_allowed (MACHINE_TIMEOUT cfg) (SLEEP cfg)) <= fuel)%nat ->
  let rc := contain_machine cfg tbl api k evidence (machine_id machine) t in
  let rl := run_machine cfg tbl api has_pending_actions start fuel machine t in
  (count is_submit (events rc) = 0%nat
   /\ In (EvLog Error (ActionMachineTimeout k (machine_id machine))) (events rc)
   /\ requests rc = (t + Z.to_nat (polls_allowed (MACHINE_TIMEOUT cfg) (SLEEP cfg)))%nat)
  /\ (exists machine',
       value rl = Some machine'
       /\ evidences machine' = evidences machine
       /\ count is_submit (events rl) = 0%nat
       /\ In (EvLog Error (MachineTimeoutHit (machine_id machine))) (events rl)).
Proof.
  intros Hc Hbusy Hpending Hfuel. cbv zeta. split.
  - destruct (contain_machine_shape api k evidence (machine_id machine) t)
      as [j [_ [[Hlt [Hav _]] | [Hj [Hev Hreq]]]]].
    + rewrite Hbusy in Hav by exact Hlt. discriminate Hav.
    + rewrite Hev, Hreq, Hj. split; [|split].
      * rewrite count_cons, count_app, silent_busy_rounds by (cbn; auto).
        reflexivity.
      * right. apply in_or_app. right. left. reflexivity.
      * reflexivity.
  - rewrite run_machine_busy; try assumption; try (unfold budget; lia).
    + eexists. cbn [value events fst snd]. split; [reflexivity|].
      split; [reflexivity|]. split.
      * rewrite count_cons, count_app, silent_busy_rounds by (cbn; auto).
        reflexivity.
      * right. apply in_or_app. right. left. reflexivity.
    + intros i Hi. apply Hbusy. unfold budget in Hi. lia.
Qed.

(** ** Where cancellations come from *)

Lemma guarded_ret {A} (a : A) : guarded (ret a).
Proof. intro t; reflexivity. Qed.

Lemma guarded_bind {A B} (m : M A) (f : A -> M B) :
  guarded m -> (forall a, guarded (f a)) -> guarded (bind m f).
Proof. intros Hm Hf t. rewrite events_bind. apply follow_app; [apply Hm | apply Hf]. Qed.

Lemma guarded_silent {A} (m : M A) : silent is_cancel m -> guarded m.
Proof. intros H t. apply follow_quiet, H. Qed.

Lemma guarded_wait_live_response evidence :
  guarded (wait_live_response cfg tbl api evidence).
Proof. intro t. apply (wait_live_response_cancels api evidence t). Qed.

Ltac follow :=
  repeat first
    [ assumption
    | apply guarded_ret
    | apply guarded_wait_live_response
    | apply guarded_silent; solve [ silence ]
    | apply guarded_silent, silent_is_machine_available; cbn; solve [ auto ]
    | apply guarded_bind; [| intro]
    | match goal with
      | |- guarded (match ?x with _ => _ end) => destruct x
      | H : forall x, guarded _ |- _ => apply H
      end ].

Lemma guarded_acquire machine evidence :
  guarded (acquire cfg tbl api start machine evidence).
Proof.
  unfold acquire, get_machine_action, get_live_response_result. follow.
Qed.

Lemma guarded_acquire_all machine l :
  guarded (acquire_all cfg tbl api start machine l).
Proof.
  induction l as [|evidence rest IH]; cbn [acquire_all].
  - apply guarded_ret.
  - pose proof (guarded_acquire machine evidence). follow.
Qed.

Lemma guarded_machine_loop fuel : forall machine,
  guarded (machine_loop cfg tbl api has_pending_actions start fuel machine).
Proof.
  induction fuel as [|fuel IH]; intro machine; cbn [machine_loop].
  - destruct (_ && _); apply guarded_ret.
  - destruct (_ && _); [|apply guarded_ret].
    apply guarded_bind; [|exact IH].
    unfold machine_step.
    pose proof (guarded_acquire_all (machine_id machine) (evidences machine)).
    follow.
Qed.

Lemma guarded_run_live_response fuel l :
  guarded (run_live_response cfg tbl api has_pending_actions start fuel l).
Proof.
  induction l as [|machine rest IH]; cbn [run_live_response].
  - apply guarded_ret.
  - apply guarded_bind.
    + unfold run_machine.
      pose proof (guarded_machine_loop fuel machine). follow.
    + intros [machine'|]; follow.
Qed.


Lemma silent_planner p sample_verdict evidence :
  In p off_containment ->
  silent p (run_automated_machine_actions cfg tbl api sample_verdict evidence).
Proof.
  intro H. unfold run_automated_machine_actions, isolate_machine,
    run_antivirus_scan, collect_investigation_package, stop_and_quarantine_file.
  pose proof (fun k => silent_contain api p k evidence H) as Hk.
  repeat first
    [ apply silent_ret
    | apply Hk
    | apply silent_bind; [| intro]
    | match goal with
      | |- silent _ (if ?x then _ else _) => destruct x
      end ].
Qed.

(** C6.  [cancel_machine_action] is called from the timeout branch of the
    tracker only.  One call of the tracker cancels at most once, and does
    so exactly when it returns with the counter at the allowance, the job
    then having the status [TIMEOUT] and [has_error] set.  In every trace of
    [run_live_response] each cancellation comes right after the log line
    of the job timeout of the same job.  The containment functions and the
    planner never cancel. *)
Theorem cancellation_only_after_timeout (fuel : nat) (l : list Machine)
    (k : endpoint) (evidence : Evidence) (sample_verdict : string) (t : nat) :
  (let r := wait_live_response cfg tbl api evidence t in
   let lr' := live_response (snd (value r)) in
   (count is_cancel (events r) <= 1)%nat
   /\ (count is_cancel (events r) = 1%nat <->
       fst (value r) = Returned
       /\ polls_allowed (JOB_TIMEOUT cfg) (SLEEP cfg) <= timeout_counter lr')
   /\ (count is_cancel (events r) = 1%nat ->
       lr_status lr' = TIMEOUT tbl /\ has_error lr' = true)
   /\ cancels_follow_timeout None (events r) = true)
  /\ cancels_follow_timeout None
       (events (run_live_response cfg tbl api has_pending_actions start fuel l t))
     = true
  /\ count is_cancel (events (contain cfg tbl api k evidence t)) = 0%nat
  /\ count is_cancel
       (events (run_automated_machine_actions cfg tbl api sample_verdict evidence t))
     = 0%nat.
Proof.
  split; [|split; [|split]].
  - cbv zeta.
    destruct (wait_live_response_cancels api evidence t) as [Hn Hf].
    cbv zeta in Hn.
    pose proof (tracker_times_out api evidence t) as Hb.
    cbv zeta in Hb.
    rewrite budget_spent_ceil in Hn.
    destruct (fst (value (wait_live_response cfg tbl api evidence t))) eqn:Ho;
      destruct (polls_allowed (JOB_TIMEOUT cfg) (SLEEP cfg) <=?
                timeout_counter
                  (live_response (snd (value (wait_live_response cfg tbl api evidence t)))))
        eqn:Hc; rewrite Hn;
      try (apply Z.leb_le in Hc); try (apply Z.leb_gt in Hc).
    + specialize (Hb eq_refl Hc). destruct Hb as [Hs [He _]].
      repeat split; auto.
    + repeat split; auto; try discriminate; intros [_ H]; lia.
    + repeat split; auto; try discriminate; intros [H _]; discriminate H.
    + repeat split; auto; try discriminate; intros [H _]; discriminate H.
  - apply guarded_run_live_response.
  - apply silent_contain. cbn; auto.
  - apply silent_planner. cbn; auto.
Qed.


End Live.


(** ** The planner *)

Section Planner.

Variable api : Vendor.

Lemma run_unit_eq (r r' : unit * list event * nat) :
  events r = events r' -> requests r = requests r' -> r = r'.
Proof.
  destruct r as [[[] ev] t], r' as [[[] ev'] t']; cbn. intros -> ->. reflexivity.
Qed.

Lemma contain_begin k evidence t :
  filter is_begin (events (contain cfg tbl api k evidence t))
  = [EvLog Info (ActionBegin k (List.length (machines evidence)))].
Proof.
  unfold contain. rewrite events_bind. cbn [log emit events fst snd app filter is_begin].
  f_equal. apply length_zero_iff_nil.
  apply (silent_for_each is_begin).
  intro machine. apply silent_contain_machine. left; reflexivity.
Qed.

Lemma for_each_begin evidence (ks : list endpoint) : forall t,
  filter is_begin (events (for_each (fun k => contain cfg tbl api k evidence) ks t))
  = map (fun k => EvLog Info (ActionBegin k (List.length (machines evidence)))) ks.
Proof.
  induction ks as [|k ks IH]; intro t; [reflexivity|].
  rewrite for_each_cons, filter_app, contain_begin, IH. reflexivity.
Qed.

(** C8.  [run_automated_machine_actions] runs the sequencer of exactly the
    kinds that are enabled and have the verdict among their trigger
    verdicts, in the order package collection, antivirus scan, quarantine,
    isolation: it is the run of the due kinds in priority order, and the
    opening log lines of the sequencers in its trace are those of the due
    kinds, once each, in that order.  This holds for every vendor, so also
    when submissions of an earlier kind fail or its machines time out. *)
Theorem planner_runs_due_kinds_in_order (sample_verdict : string)
    (evidence : Evidence) (t : nat) :
  run_automated_machine_actions cfg tbl api sample_verdict evidence t
  = run_due_kinds cfg tbl api sample_verdict evidence t
  /\ filter is_begin
       (events (run_automated_machine_actions cfg tbl api sample_verdict evidence t))
     = map (fun k => EvLog Info (ActionBegin k (List.length (machines evidence))))
           (filter (due cfg sample_verdict) priority)
  /\ (forall k, In k (filter (due cfg sample_verdict) priority) <->
                k <> RunLiveResponse /\ due cfg sample_verdict k = true).
Proof.
  assert (E : run_automated_machine_actions cfg tbl api sample_verdict evidence t
              = run_due_kinds cfg tbl api sample_verdict evidence t).
  { unfold run_automated_machine_actions, run_due_kinds, triggered,
      isolate_machine, run_antivirus_scan, collect_investigation_package,
      stop_and_quarantine_file, priority.
    cbn [filter due].
    destruct (ACTIVE (COLLECT_INVESTIGATION_PACKAGE cfg) && _);
      destruct (ACTIVE (ANTI_VIRUS_SCAN cfg) && _);
      destruct (ACTIVE (STOP_AND_QUARANTINE_FILE cfg) && _);
      destruct (ACTIVE (ISOLATION cfg) && _);
      cbn [for_each];
      apply run_unit_eq;
      repeat (rewrite ?events_bind, ?requests_bind;
              cbn [ret value events requests fst snd app]);
      rewrite ?app_nil_r; reflexivity. }
  split; [exact E|]. split.
  - rewrite E. apply for_each_begin.
  - intro k. rewrite filter_In. unfold priority. cbn [In].
    split.
    + intros [Hin Hd]. split; [|exact Hd]. intros ->. discriminate Hd.
    + intros [Hk Hd]. split; [|exact Hd]. destruct k; auto. congruence.
Qed.

End Planner.


(** ** The client calls *)

Section Client.

Variable api : Vendor.

Lemma get_live_response_result_run evidence t :
  get_live_response_result api evidence t =
  (match link_reply api t with Api_body (Some url) => Some url | _ => None end,
   EvGetResult (lr_id (live_response evidence)) (lr_index (live_response evidence)) ::
   match link_reply api t with
   | Api_body (Some _) => []
   | _ => [EvLog Error (ResultFailed (lr_id (live_response evidence)))]
   end,
   S t).
Proof.
  unfold get_live_response_result, bind, request, log, emit, ret.
  destruct (link_reply api t) as [| |[url|]]; reflexivity.
Qed.

(** X1.  The four client calls make one request each and never raise.
    [get_machine_actions] returns the listed actions exactly when the reply
    is a body with a ["value"] key, and [None] with one error line
    otherwise; [get_machine_action] returns the record exactly when the
    reply is a body without an ["error"] key; [cancel_machine_action]
    answers [True] exactly then; [get_live_response_result] returns the
    link exactly when the reply is a body with a ["value"] key. *)
Theorem client_calls_fail_closed (machine : string) (id : option string)
    (lr : LiveResponse) (evidence : Evidence) (t : nat) :
  (let r := get_machine_actions api machine t in
   requests r = S t
   /\ (forall actions,
         value r = Some actions <-> list_reply api t = Api_body (Some actions))
   /\ (value r = None <->
       events r = [EvListActions machine; EvLog Error (ListActionsFailed machine)])
   /\ (value r <> None -> events r = [EvListActions machine]))
  /\ (let r := get_machine_action api id t in
      requests r = S t
      /\ (forall ma, value r = Some ma <-> action_reply api t = Api_body ma)
      /\ (value r = None <->
          events r = [EvGetAction id; EvLog Error (GetActionFailed id)])
      /\ (value r <> None -> events r = [EvGetAction id]))
  /\ (let r := cancel_machine_action api lr t in
      requests r = S t
      /\ (value r = true <-> exists u, cancel_reply api t = Api_body u)
      /\ (value r = false <->
          events r = [EvCancel (lr_id lr); EvLog Error (CancelFailed (lr_id lr))])
      /\ (value r = true ->
          events r = [EvCancel (lr_id lr); EvLog Info (CancelDone (lr_id lr))]))
  /\ (let r := get_live_response_result api evidence t in
      requests r = S t
      /\ (forall url, value r = Some url <-> link_reply api t = Api_body (Some url))
      /\ (value r = None <->
          events r =
          [EvGetResult (lr_id (live_response evidence))
                       (lr_index (live_response evidence));
           EvLog Error (ResultFailed (lr_id (live_response evidence)))])).
Proof.
  cbv zeta. split; [|split; [|split]].
  - rewrite get_machine_actions_run. cbn [value events requests fst snd].
    destruct (list_reply api t) as [| m |[actions|]];
      (split; [reflexivity|]); (split; [|split]);
      try (intro a); try (split; intro H); try congruence;
      try reflexivity; try discriminate H; try (exfalso; apply H; reflexivity).
  - rewrite get_machine_action_run. cbn [value events requests fst snd].
    destruct (action_reply api t) as [| m | ma];
      (split; [reflexivity|]); (split; [|split]);
      try (intro a); try (split; intro H); try congruence;
      try reflexivity; try discriminate H; try (exfalso; apply H; reflexivity).
  - rewrite cancel_machine_action_run. cbn [value events requests fst snd].
    destruct (cancel_reply api t) as [| m | u];
      (split; [reflexivity|]); (split; [|split]);
      try (split; intro H); try congruence; try reflexivity;
      try discriminate H; try (destruct H; discriminate);
      try (exists u; reflexivity); try (intro H; discriminate H);
      try (intros _; reflexivity).
  - rewrite get_live_response_result_run. cbn [value events requests fst snd].
    destruct (link_reply api t) as [| m |[url|]];
      (split; [reflexivity|]); split;
      try (intro a); try (split; intro H); try congruence;
      try reflexivity; try discriminate H.
Qed.

(** X2.  The availability check stops at the first listed action whose
    status is in [NOT_AVAILABLE]: it answers [False], its warning names
    that action, and the actions listed after it are not looked at. *)
Theorem first_busy_action_decides (machine : string)
    (before : list action) (a : action) (after : list action) (t : nat) :
  list_reply api t = Api_body (Some (before ++ a :: after)) ->
  (forall b, In b before -> mem (action_status b) (NOT_AVAILABLE tbl) = false) ->
  mem (action_status a) (NOT_AVAILABLE tbl) = true ->
  is_machine_available tbl api machine t =
  (false,
   [EvListActions machine;
    EvLog Warning (MachineBusy machine (action_type a) (action_status a))],
   S t).
Proof.
  intros Hr Hfree Hbusy. unfold is_machine_available.
  rewrite bind_run, get_machine_actions_run, Hr.
  cbn [value events requests fst snd].
  assert (Hs : scan_actions tbl machine (before ++ a :: after) (S t) =
               (false,
                [EvLog Warning (MachineBusy machine (action_type a) (action_status a))],
                S t)).
  { clear Hr. induction before as [|b before IH]; cbn [app scan_actions].
    - rewrite Hbusy. reflexivity.
    - rewrite (Hfree b) by (left; reflexivity).
      apply IH. intros b' Hb'. apply Hfree. right. exact Hb'. }
  rewrite Hs. reflexivity.
Qed.

End Client.


(** With the budget not used up the loop goes on exactly for the jobs that
    have neither flag set. *)
Lemma keeps_waiting_spec_false lr :
  keeps_waiting cfg lr = false ->
  budget_spent cfg (JOB_TIMEOUT cfg) (timeout_counter lr) = false ->
  terminal lr = true.
Proof.
  unfold keeps_waiting, within_budget, terminal.
  fold (budget_spent cfg (JOB_TIMEOUT cfg) (timeout_counter lr)).
  intros Hk Hb. rewrite Hb in Hk.
  destruct (has_error lr), (is_finished lr); try reflexivity; discriminate Hk.
Qed.

(** ** More on the job tracker *)

Section TrackerFrame.

Variable api : Vendor.

Let allowance : Z := polls_allowed (JOB_TIMEOUT cfg) (SLEEP cfg).

Lemma same_file_refl e : same_file e e.
Proof. unfold same_file. repeat split; lia. Qed.

Lemma same_file_trans e1 e2 e3 :
  same_file e1 e2 -> same_file e2 e3 -> same_file e1 e3.
Proof.
  unfold same_file. intros H1 H2.
  destruct H1 as (A1 & A2 & A3 & A4 & A5 & A6 & A7 & A8 & A9).
  destruct H2 as (B1 & B2 & B3 & B4 & B5 & B6 & B7 & B8 & B9).
  repeat split; try congruence. lia.
Qed.

Lemma polled_same_file e reply o e' :
  polled tbl e reply (o, e') -> same_file e e'.
Proof.
  intro H. inversion H; subst; unfold same_file; cbn; repeat split; lia.
Qed.

Lemma wait_loop_same_file n : forall e t,
  same_file e (snd (value (wait_loop cfg tbl api n e t))).
Proof.
  induction n as [|n IH]; intros e t.
  - cbn [wait_loop]. destruct (keeps_waiting cfg (live_response e));
      apply same_file_refl.
  - destruct (keeps_waiting cfg (live_response e)) eqn:Hk.
    + rewrite wait_loop_step by exact Hk. cbv zeta.
      pose proof (poll_job_polled api e t) as P.
      destruct (value (poll_job cfg tbl api e t)) as [o e'].
      apply polled_same_file in P.
      destruct o; cbn [value fst snd].
      * eapply same_file_trans; [exact P | apply IH].
      * exact P.
    + rewrite wait_loop_stops by exact Hk. apply same_file_refl.
Qed.

Lemma wait_live_response_same_file (evidence : Evidence) (t : nat) :
  same_file evidence (snd (value (wait_live_response cfg tbl api evidence t))).
Proof.
  rewrite wait_live_response_run. cbv zeta.
  pose proof (wait_loop_same_file
                (polls_left cfg (timeout_counter (live_response evidence)))
                evidence t) as Hl.
  set (r := wait_loop cfg tbl api _ evidence t) in *.
  destruct (fst (value r)).
  - destruct (budget_spent _ _ _); cbn [value fst snd]; [|exact Hl].
    eapply same_file_trans; [exact Hl|].
    unfold same_file, timed_out. cbn. repeat split; lia.
  - exact Hl.
Qed.

(** X3.  The tracker changes of an evidence only the status, the two flags
    and the counter of its job, and the counter only upwards: hashes, path,
    machines, download link and the id, index and errors of the job are as
    before, whether it returns or is left by an exception. *)
Theorem tracker_keeps_the_file (evidence : Evidence) (t : nat) :
  let e' := snd (value (wait_live_response cfg tbl api evidence t)) in
  sha256 e' = sha256 evidence
  /\ sha1 e' = sha1 evidence
  /\ absolute_path e' = absolute_path evidence
  /\ machines e' = machines evidence
  /\ download_url e' = download_url evidence
  /\ lr_id (live_response e') = lr_id (live_response evidence)
  /\ lr_index (live_response e') = lr_index (live_response evidence)
  /\ lr_errors (live_response e') = lr_errors (live_response evidence)
  /\ timeout_counter (live_response evidence) <= timeout_counter (live_response e').
Proof. exact (wait_live_response_same_file evidence t). Qed.

(** What the loop of the tracker makes of a job that has neither flag
    set: it is still such a job, or it has finished with the status
    [SUCCEEDED] below the budget, or it has failed. *)
Lemma wait_loop_flags n : forall e t,
  terminal (live_response e) = false ->
  let e' := snd (value (wait_loop cfg tbl api n e t)) in
  terminal (live_response e') = false
  \/ (is_finished (live_response e') = true
      /\ has_error (live_response e') = false
      /\ lr_status (live_response e') = SUCCEEDED tbl
      /\ timeout_counter (live_response e') < allowance)
  \/ (has_error (live_response e') = true
      /\ is_finished (live_response e') = false).
Proof.
  induction n as [|n IH]; intros e t Ht; cbv zeta.
  - cbn [wait_loop]. destruct (keeps_waiting cfg (live_response e)); left; exact Ht.
  - destruct (keeps_waiting cfg (live_response e)) eqn:Hk.
    + rewrite wait_loop_step by exact Hk. cbv zeta.
      apply keeps_waiting_spec in Hk. destruct Hk as [Hc _].
      pose proof (poll_job_polled api e t) as P.
      destruct (value (poll_job cfg tbl api e t)) as [o e'].
      unfold terminal in Ht. apply orb_false_iff in Ht. destruct Ht as [He Hf].
      inversion P; subst; cbn [value fst snd].
      * rewrite terminal_job_is_not_polled by (cbn; apply orb_true_r).
        cbn [value fst snd]. right. left. cbn.
        repeat split; try assumption.
        apply String.eqb_eq. assumption.
      * rewrite terminal_job_is_not_polled by reflexivity.
        cbn [value fst snd]. right. right. cbn. split; [reflexivity | exact Hf].
      * left. unfold terminal. rewrite He, Hf. reflexivity.
      * apply IH. unfold terminal. cbn. rewrite He, Hf. reflexivity.
      * rewrite terminal_job_is_not_polled by reflexivity.
        cbn [value fst snd]. right. right. cbn. split; [reflexivity | exact Hf].
      * rewrite terminal_job_is_not_polled by reflexivity.
        cbn [value fst snd]. right. right. cbn. split; [reflexivity | exact Hf].
    + rewrite wait_loop_stops by exact Hk. left. exact Ht.
Qed.

(** X4.  On a job that had neither flag set the tracker never returns with
    both flags set.  A job it returns finished has the status [SUCCEEDED],
    a counter below the budget and was not cancelled; a job it returns
    unfinished has [has_error] set. *)
Theorem tracker_flags_exclude_each_other (evidence : Evidence) (t : nat) :
  terminal (live_response evidence) = false ->
  let r := wait_live_response cfg tbl api evidence t in
  let lr' := live_response (snd (value r)) in
  fst (value r) = Returned ->
  (is_finished lr' = true ->
     has_error lr' = false
     /\ lr_status lr' = SUCCEEDED tbl
     /\ timeout_counter lr' < polls_allowed (JOB_TIMEOUT cfg) (SLEEP cfg)
     /\ count is_cancel (events r) = 0%nat)
  /\ (is_finished lr' = false -> has_error lr' = true).
Proof.
  intros Ht. cbv zeta.
  destruct (wait_live_response_cancels api evidence t) as [Hn _]. cbv zeta in Hn.
  rewrite Hn. clear Hn.
  rewrite wait_live_response_run. cbv zeta.
  pose proof (wait_loop_flags
                (polls_left cfg (timeout_counter (live_response evidence)))
                evidence t Ht) as Hl.
  pose proof (wait_loop_exit api
                (polls_left cfg (timeout_counter (live_response evidence)))
                evidence t (polls_left_enough _)) as Hx.
  cbv zeta in Hl.
  set (r := wait_loop cfg tbl api _ evidence t) in *.
  destruct (fst (value r)) eqn:Ho; [|discriminate].
  specialize (Hx eq_refl). intros _.
  set (e1 := snd (value r)) in *.
  destruct (budget_spent cfg (JOB_TIMEOUT cfg) (timeout_counter (live_response e1)))
    eqn:Hb; cbn [value fst snd].
  - rewrite budget_spent_ceil in Hb. apply Z.leb_le in Hb. fold allowance in Hb.
    destruct Hl as [Hl | [(Hf & _ & _ & Hc) | (He & Hf)]].
    + unfold terminal in Hl. apply orb_false_iff in Hl. destruct Hl as [_ Hf].
      cbn. rewrite Hf. split; [discriminate | reflexivity].
    + lia.
    + cbn. rewrite Hf. split; [discriminate | reflexivity].
  - rewrite Hb.
    destruct Hl as [Hl | [(Hf & He & Hs & Hc) | (He & Hf)]].
    + apply keeps_waiting_spec_false in Hx; [|exact Hb]. congruence.
    + rewrite Hf. split; [intros _; auto | discriminate].
    + rewrite Hf. split; [discriminate | intros _; exact He].
Qed.

End TrackerFrame.


Section TrackerEffort.

Variable api : Vendor.

Lemma poll_job_sleeps evidence t :
  count is_sleep (events (poll_job cfg tbl api evidence t)) = 1%nat
  /\ sleeps_one_interval cfg (events (poll_job cfg tbl api evidence t)).
Proof.
  destruct (poll_job_events api evidence t) as [logs [-> Hlogs]]. split.
  - rewrite !count_cons. cbn [is_sleep]. rewrite count_logs; auto.
  - intros q [H | [H | H]]; try congruence.
    rewrite Forall_forall in Hlogs. destruct (Hlogs _ H) as (l & m & E).
    discriminate E.
Qed.

Lemma wait_loop_effort n : forall e t,
  let r := wait_loop cfg tbl api n e t in
  count is_sleep (events r) = count is_poll (events r)
  /\ requests r = (t + count is_poll (events r))%nat
  /\ sleeps_one_interval cfg (events r).
Proof.
  induction n as [|n IH]; intros e t; cbv zeta.
  - cbn [wait_loop]. destruct (keeps_waiting cfg (live_response e));
      cbn; repeat split; try lia; intros q [].
  - destruct (keeps_waiting cfg (live_response e)) eqn:Hk.
    + rewrite wait_loop_step by exact Hk. cbv zeta.
      destruct (poll_job_sleeps e t) as [Hs Hi].
      pose proof (poll_job_polls api e t) as Hp.
      destruct (value (poll_job cfg tbl api e t)) as [[|] e'];
        cbn [value events requests fst snd].
      * destruct (IH e' (S t)) as (A & B & C).
        rewrite !count_app, Hs, Hp, A, B. repeat split; try lia.
        intros q Hq. apply in_app_or in Hq. destruct Hq as [Hq|Hq]; auto.
      * rewrite Hs, Hp. repeat split; try lia. exact Hi.
    + rewrite wait_loop_stops by exact Hk. cbn. repeat split; try lia. intros q [].
Qed.

(** X5.  What one call of the tracker costs: as many requests as it polls
    and cancels, as many sleeps, each of [SLEEP]; so at most the polls that
    the budget leaves, and one more, of each. *)
Theorem tracker_effort_is_bounded (evidence : Evidence) (t : nat) :
  let r := wait_live_response cfg tbl api evidence t in
  let left :=
    Z.max 0 (polls_allowed (JOB_TIMEOUT cfg) (SLEEP cfg)
             - timeout_counter (live_response evidence)) in
  requests r = (t + count is_poll (events r) + count is_cancel (events r))%nat
  /\ count is_sleep (events r)
     = (count is_poll (events r) + count is_cancel (events r))%nat
  /\ sleeps_one_interval cfg (events r)
  /\ Z.of_nat (requests r) <= Z.of_nat t + left + 1
  /\ Z.of_nat (count is_sleep (events r)) <= left + 1.
Proof.
  cbv zeta.
  pose proof (wait_live_response_polls api evidence t) as Hp.
  assert (H : requests (wait_live_response cfg tbl api evidence t)
              = (t + count is_poll (events (wait_live_response cfg tbl api evidence t))
                 + count is_cancel (events (wait_live_response cfg tbl api evidence t)))%nat
              /\ count is_sleep (events (wait_live_response cfg tbl api evidence t))
                 = (count is_poll (events (wait_live_response cfg tbl api evidence t))
                    + count is_cancel (events (wait_live_response cfg tbl api evidence t)))%nat
              /\ sleeps_one_interval cfg (events (wait_live_response cfg tbl api evidence t))
              /\ (count is_cancel (events (wait_live_response cfg tbl api evidence t)) <= 1)%nat).
  { rewrite wait_live_response_run. cbv zeta.
    destruct (wait_loop_effort
                (polls_left cfg (timeout_counter (live_response evidence)))
                evidence t) as (A & B & C).
    pose proof (wait_loop_cancels api
                  (polls_left cfg (timeout_counter (live_response evidence)))
                  evidence t) as D.
    set (r := wait_loop cfg tbl api _ evidence t) in *.
    destruct (fst (value r)).
    - destruct (budget_spent _ _ _); cbn [value events requests fst snd].
      + destruct (cancel_reply api (requests r));
          rewrite !count_cons, !count_app, A, B, D;
          cbn [count filter is_sleep is_poll is_cancel List.length];
          (repeat split; try lia);
          intros q [Hq|Hq]; try discriminate Hq;
          (apply in_app_or in Hq; destruct Hq as [Hq|Hq]; [auto|]);
          repeat (destruct Hq as [Hq|Hq]; [congruence|]); destruct Hq.
      + rewrite !count_cons, A, B, D. cbn [is_sleep is_poll is_cancel].
        repeat split; try lia.
        intros q [Hq|Hq]; [discriminate Hq | auto].
    - cbn [value events requests fst snd].
      rewrite !count_cons, A, B, D. cbn [is_sleep is_poll is_cancel].
      repeat split; try lia.
      intros q [Hq|Hq]; [discriminate Hq | auto]. }
  destruct H as (A & B & C & D).
  repeat split; try assumption; lia.
Qed.

End TrackerEffort.


(** ** More on the live response sequencer *)

Section LiveFrame.

Variable api : Vendor.
Variable has_pending_actions : Machine -> bool.
Variable start : LiveResponse -> Z -> list string -> string -> string -> LiveResponse.

Let budget : Z := polls_allowed (MACHINE_TIMEOUT cfg) (SLEEP cfg).

(** X6.  A submission that the vendor accepts but whose record cannot be
    read back five seconds later is forgotten: the evidence is left exactly
    as it was, no id stored and no flag set, after three requests. *)
Theorem unread_submission_is_forgotten (machine : string) (evidence : Evidence)
    (t : nat) (id : string) :
  value (is_machine_available tbl api machine t) = true ->
  submit_reply api (S t) = Api_body (Some id) ->
  (forall ma, action_reply api (S (S t)) <> Api_body ma) ->
  acquire cfg tbl api start machine evidence t =
  (evidence,
   events (is_machine_available tbl api machine t)
   ++ [EvLog Info (TryingJob (absolute_path evidence) machine);
       EvSubmit RunLiveResponse machine (request_data cfg RunLiveResponse evidence);
       EvSleep (5 # 1);
       EvGetAction (Some id);
       EvLog Error (GetActionFailed (Some id))],
   S (S (S t))).
Proof.
  intros Ha Hs Hr. unfold acquire.
  rewrite bind_run, is_machine_available_requests, Ha.
  rewrite bind_run. cbn [log emit value events requests fst snd].
  rewrite bind_run. cbn [request value events requests fst snd].
  rewrite Hs. rewrite bind_run. cbn [sleep emit value events requests fst snd].
  rewrite bind_run, get_machine_action_run. cbn [value events requests fst snd].
  destruct (action_reply api (S (S t))) as [| m | ma].
  - reflexivity.
  - reflexivity.
  - exfalso. exact (Hr ma eq_refl).
Qed.

Lemma same_sample_refl e : same_sample e e.
Proof. unfold same_sample. auto. Qed.

Lemma same_file_sample e e' : same_file e e' -> same_sample e e'.
Proof. unfold same_file, same_sample. intuition. Qed.

Lemma acquire_acquired machine evidence t :
  acquired api evidence (value (acquire cfg tbl api start machine evidence t)).
Proof.
  unfold acquire. rewrite value_bind.
  destruct (value (is_machine_available tbl api machine t)).
  2:{ rewrite value_bind. cbn. apply acquired_untouched. }
  rewrite value_bind. cbn [log emit value requests fst snd].
  rewrite value_bind. cbn [request value requests fst snd].
  set (t1 := requests (is_machine_available tbl api machine t)).
  destruct (submit_reply api t1) as [| [error|] | [id|]].
  - rewrite value_bind. cbn. apply acquired_failed; [apply same_sample_refl | reflexivity].
  - rewrite value_bind. cbn. apply acquired_failed; [apply same_sample_refl | reflexivity].
  - rewrite value_bind. cbn. apply acquired_failed; [apply same_sample_refl | reflexivity].
  - rewrite value_bind. cbn [sleep emit value requests fst snd].
    rewrite value_bind, get_machine_action_run. cbn [value requests fst snd].
    destruct (action_reply api (S t1)) as [| m | ma];
      try (cbn; apply acquired_untouched).
    rewrite value_bind. cbn [log emit value requests fst snd].
    rewrite value_bind.
    set (e0 := with_live_response (start_commands start ma (live_response evidence))
                                  evidence).
    pose proof (wait_live_response_same_file api e0 (S (S t1))) as Hf.
    destruct (wait_live_response cfg tbl api e0 (S (S t1))) as [[[o e1] ev] t2].
    cbn [value requests fst snd] in *.
    assert (Hs : same_sample evidence e1).
    { apply same_file_sample in Hf. unfold same_sample in *. cbn in Hf. exact Hf. }
    assert (Hu : download_url e1 = download_url evidence).
    { destruct Hf as (_ & _ & _ & _ & Hu & _). exact Hu. }
    destruct o.
    + destruct (is_finished (live_response e1)) eqn:Hfin.
      * rewrite value_bind, get_live_response_result_run.
        cbn [value requests fst snd].
        destruct (link_reply api t2) as [| m |[url|]] eqn:Hl; cbn [ret value fst];
          try (apply acquired_without_link; assumption).
        eapply acquired_with_link; eassumption.
      * cbn. apply acquired_unfinished; assumption.
    + rewrite value_bind. cbn. apply acquired_failed; assumption.
  - rewrite value_bind. cbn [sleep emit value requests fst snd].
    rewrite value_bind. cbn. apply acquired_failed; [apply same_sample_refl | reflexivity].
Qed.

(** X7.  The loop body of [run_live_response] keeps the hashes, the path
    and the machines of the evidence.  It changes the download link only to
    a link that the vendor returned for the result, and only on a job that
    is finished. *)
Theorem acquire_keeps_the_sample (machine : string) (evidence : Evidence) (t : nat) :
  let e' := value (acquire cfg tbl api start machine evidence t) in
  same_sample evidence e'
  /\ (download_url e' <> download_url evidence ->
      is_finished (live_response e') = true
      /\ exists n url,
           link_reply api n = Api_body (Some url) /\ download_url e' = Some url).
Proof.
  cbv zeta. generalize (acquire_acquired machine evidence t).
  generalize (value (acquire cfg tbl api start machine evidence t)).
  intros e' H.
  destruct H as [ | e Hs Hu | e Hs Hu Hf | e Hs Hu Hf | e url n Hs Hf Hl ].
  - split; [apply same_sample_refl | congruence].
  - split; [exact Hs | intro Hn; exfalso; apply Hn; exact Hu].
  - split; [exact Hs | intro Hn; exfalso; apply Hn; exact Hu].
  - split; [exact Hs | intro Hn; exfalso; apply Hn; exact Hu].
  - split; [exact Hs|]. intros _. split; [exact Hf|].
    exists n, url. split; [exact Hl | reflexivity].
Qed.

Lemma acquire_same_sample machine evidence t :
  same_sample evidence (value (acquire cfg tbl api start machine evidence t)).
Proof.
  generalize (acquire_acquired machine evidence t).
  generalize (value (acquire cfg tbl api start machine evidence t)).
  intros e' H. destruct H; try assumption. apply same_sample_refl.
Qed.

Lemma acquire_all_hashes machine l : forall t,
  map sha256 (value (acquire_all cfg tbl api start machine l t)) = map sha256 l.
Proof.
  induction l as [|e l IH]; intro t; cbn [acquire_all]; [reflexivity|].
  rewrite value_bind, value_bind. cbn [ret value fst map].
  rewrite IH. f_equal. apply (acquire_same_sample machine e t).
Qed.

(** One iteration of the loop: the queue is as before, the counter as
    before or one higher. *)
Lemma machine_step_frame machine t :
  let m' := value (machine_step cfg tbl api start machine t) in
  queue m' = queue machine
  /\ (machine_timeout_counter m' = machine_timeout_counter machine
      \/ machine_timeout_counter m' = machine_timeout_counter machine + 1).
Proof.
  cbv zeta.
  destruct (value (is_machine_available tbl api (machine_id machine) t)) eqn:Ha.
  - rewrite machine_step_available by exact Ha. unfold queue. cbn.
    rewrite acquire_all_hashes. auto.
  - rewrite machine_step_busy by exact Ha. unfold queue. cbn. auto.
Qed.

Lemma machine_loop_frame fuel : forall machine t machine',
  value (machine_loop cfg tbl api has_pending_actions start fuel machine t)
    = Some machine' ->
  queue machine' = queue machine
  /\ machine_timeout_counter machine <= machine_timeout_counter machine'
  /\ machine_timeout_counter machine'
     <= Z.max (machine_timeout_counter machine) budget.
Proof.
  induction fuel as [|fuel IH]; intros machine t machine' H.
  - cbn [machine_loop] in H.
    destruct (_ && _); cbn in H; [discriminate H|].
    injection H as <-. repeat split; lia.
  - cbn [machine_loop] in H.
    destruct (within_budget cfg (MACHINE_TIMEOUT cfg)
                (machine_timeout_counter machine)) eqn:Hc; cbn [andb] in H.
    + destruct (has_pending_actions machine).
      * rewrite value_bind in H. apply IH in H.
        destruct (machine_step_frame machine t) as [Hq Hn]. cbv zeta in Hq, Hn.
        rewrite within_budget_ceil in Hc. apply Z.ltb_lt in Hc.
        destruct H as (Hq' & Hlo & Hhi).
        split; [congruence|]. unfold budget in *. lia.
      * cbn in H. injection H as <-. repeat split; lia.
    + cbn in H. injection H as <-. repeat split; lia.
Qed.

(** X8.  When [run_live_response] returns, it returns the machines it was
    given, in order, each with the evidences it had, by hash and in order;
    the availability counter of a machine is at least what it was and at
    most the larger of what it was and the budget. *)
Theorem run_live_response_keeps_the_queues (fuel : nat) (l l' : list Machine)
    (t : nat) :
  value (run_live_response cfg tbl api has_pending_actions start fuel l t)
    = Some l' ->
  Forall2
    (fun m m' =>
       queue m' = queue m
       /\ machine_timeout_counter m <= machine_timeout_counter m'
       /\ machine_timeout_counter m'
          <= Z.max (machine_timeout_counter m)
                   (polls_allowed (MACHINE_TIMEOUT cfg) (SLEEP cfg)))
    l l'.
Proof.
  revert l' t. induction l as [|m l IH]; intros l' t H; cbn [run_live_response] in H.
  - cbn in H. injection H as <-. constructor.
  - rewrite value_bind in H.
    destruct (value (run_machine cfg tbl api has_pending_actions start fuel m t))
      as [m'|] eqn:Hm; [|cbn in H; discriminate H].
    rewrite value_bind in H.
    destruct (value (run_live_response cfg tbl api has_pending_actions start fuel l
                       (requests (run_machine cfg tbl api has_pending_actions start
                                    fuel m t)))) as [rest|] eqn:Hr;
      [|cbn in H; discriminate H].
    cbn in H. injection H as <-. constructor.
    + unfold run_machine in Hm.
      rewrite value_bind in Hm. cbn [log emit value requests fst snd] in Hm.
      rewrite value_bind in Hm.
      destruct (value (machine_loop cfg tbl api has_pending_actions start fuel m t))
        as [m1|] eqn:Hl; [|cbn in Hm; discriminate Hm].
      apply machine_loop_frame in Hl.
      destruct (has_pending_actions m1).
      * rewrite value_bind in Hm. cbn in Hm. injection Hm as <-. exact Hl.
      * cbn in Hm. injection Hm as <-. exact Hl.
    + eapply IH. exact Hr.
Qed.


(** X17.  When everything goes well the evidence gets its link: the
    machine is available, the submission is accepted, the record is read
    back, the job so started is one to wait for, the first poll reports
    [SUCCEEDED] and the result has a link.  The loop body then returns the
    evidence with the job finished under the status [SUCCEEDED] and with
    that link, after five requests. *)
Theorem acquire_gets_the_link (machine : string) (evidence : Evidence) (t : nat)
    (id url : string) (ma ma' : machine_action) :
  let started :=
    with_live_response (start_commands start ma (live_response evidence)) evidence in
  value (is_machine_available tbl api machine t) = true ->
  submit_reply api (S t) = Api_body (Some id) ->
  action_reply api (S (S t)) = Api_body ma ->
  keeps_waiting cfg (live_response started) = true ->
  action_reply api (S (S (S t))) = Api_body ma' ->
  ma_status ma' = SUCCEEDED tbl ->
  link_reply api (S (S (S (S t)))) = Api_body (Some url) ->
  value (acquire cfg tbl api start machine evidence t)
  = with_download_url url
      (with_live_response
         (set_is_finished (set_status (SUCCEEDED tbl) (live_response started)))
         started)
  /\ requests (acquire cfg tbl api start machine evidence t) = S (S (S (S (S t)))).
Proof.
  cbv zeta. intros Ha Hs Hr Hk Hp Hst Hl.
  set (started := with_live_response
                    (start_commands start ma (live_response evidence)) evidence) in *.
  set (done := with_live_response
                 (set_is_finished (set_status (SUCCEEDED tbl) (live_response started)))
                 started).
  assert (Hpoll : poll_job cfg tbl api started (S (S (S t)))
                  = (Returned, done,
                     [EvSleep (interval cfg);
                      EvGetAction (lr_id (live_response started));
                      EvLog Info (JobFinished (lr_id (live_response started))
                                              (sha256 started))],
                     S (S (S (S t))))).
  { unfold poll_job.
    rewrite bind_run. cbn [sleep emit value events requests fst snd].
    rewrite bind_run, get_machine_action_run, Hp.
    cbn [value events requests fst snd].
    rewrite Hst, String.eqb_refl.
    rewrite bind_run. reflexivity. }
  assert (Hwait : wait_live_response cfg tbl api started (S (S (S t)))
                  = (Returned, done,
                     [EvLog Info (WaitingJob (lr_id (live_response started))
                                             (sha256 started));
                      EvSleep (interval cfg);
                      EvGetAction (lr_id (live_response started));
                      EvLog Info (JobFinished (lr_id (live_response started))
                                              (sha256 started))],
                     S (S (S (S t))))).
  { rewrite wait_live_response_run. cbv zeta. unfold polls_left.
    rewrite wait_loop_step by exact Hk. cbv zeta. rewrite Hpoll.
    cbn [value events requests fst snd].
    rewrite terminal_job_is_not_polled by (cbn; apply orb_true_r).
    cbn [value events requests fst snd].
    apply keeps_waiting_spec in Hk. destruct Hk as [Hc _].
    replace (budget_spent cfg (JOB_TIMEOUT cfg) (timeout_counter (live_response done)))
      with false.
    - rewrite app_nil_r. reflexivity.
    - symmetry. rewrite budget_spent_ceil. apply Z.leb_gt. exact Hc. }
  unfold acquire.
  rewrite bind_run, is_machine_available_requests, Ha.
  rewrite bind_run. cbn [log emit value events requests fst snd].
  rewrite bind_run. cbn [request value events requests fst snd].
  rewrite Hs. rewrite bind_run. cbn [sleep emit value events requests fst snd].
  rewrite bind_run, get_machine_action_run, Hr.
  cbn [value events requests fst snd].
  rewrite bind_run. cbn [log emit value events requests fst snd].
  fold started. rewrite bind_run, Hwait. cbn [value events requests fst snd].
  replace (is_finished (live_response done)) with true by reflexivity.
  rewrite bind_run, get_live_response_result_run, Hl.
  cbn [value events requests fst snd ret]. split; reflexivity.
Qed.


End LiveFrame.


(** ** More on the containment sequencer *)

Section ContainmentEffort.

Variable api : Vendor.
Variable k : endpoint.
Variable evidence : Evidence.

Let budget : nat := Z.to_nat (polls_allowed (MACHINE_TIMEOUT cfg) (SLEEP cfg)).

Lemma count_zero_not_in p l e :
  count p l = 0%nat -> In e l -> p e = false.
Proof.
  intros H Hin. destruct (p e) eqn:E; [|reflexivity].
  assert (Hf : In e (filter p l)) by (apply filter_In; auto).
  unfold count in H. apply length_zero_iff_nil in H. rewrite H in Hf. destruct Hf.
Qed.

Lemma contain_machine_effort machine t :
  let r := contain_machine cfg tbl api k evidence machine t in
  (count is_submit (events r) <= 1)%nat
  /\ (t <= requests r)%nat
  /\ (requests r <= t + (budget + 1))%nat
  /\ submits_only_to cfg k evidence [machine] (events r).
Proof.
  cbv zeta.
  destruct (contain_machine_shape api k evidence machine t)
    as [j [_ [(Hlt & _ & Hev & Hreq) | (Hj & Hev & Hreq)]]];
    rewrite Hev, Hreq.
  - assert (Hb : count is_submit (busy_rounds cfg tbl api machine j t) = 0%nat)
      by (apply silent_busy_rounds; cbn; auto).
    assert (Hg : count is_submit
                   (events (is_machine_available tbl api machine (t + j)%nat)) = 0%nat)
      by (apply silent_is_machine_available; cbn; auto).
    split; [|split; [|split]].
    + rewrite count_cons, !count_app, Hb, Hg.
      destruct (submit_reply api (S (t + j))); cbn; lia.
    + lia.
    + unfold budget. lia.
    + intros k' m body [H|H]; [discriminate H|].
      apply in_app_or in H. destruct H as [H|H].
      { apply (count_zero_not_in _ _ _ Hb) in H. discriminate H. }
      apply in_app_or in H. destruct H as [H|H].
      { apply (count_zero_not_in _ _ _ Hg) in H. discriminate H. }
      destruct H as [H|[H|[H|[]]]].
      * injection H as <- <- <-. cbn. auto.
      * destruct (submit_reply api (S (t + j))); discriminate H.
      * discriminate H.
  - assert (Hb : count is_submit (busy_rounds cfg tbl api machine j t) = 0%nat)
      by (apply silent_busy_rounds; cbn; auto).
    split; [|split; [|split]].
    + rewrite count_cons, !count_app, Hb. cbn. lia.
    + lia.
    + unfold budget. lia.
    + intros k' m body [H|H]; [discriminate H|].
      apply in_app_or in H. destruct H as [H|H].
      { apply (count_zero_not_in _ _ _ Hb) in H. discriminate H. }
      destruct H as [H|[]]. discriminate H.
Qed.

Lemma for_each_requests {A} (body : A -> M unit) x l t :
  requests (for_each body (x :: l) t)
  = requests (for_each body l (requests (body x t))).
Proof. cbn [for_each]. rewrite requests_bind. reflexivity. Qed.

Lemma contain_machines_effort l : forall t,
  let r := for_each (contain_machine cfg tbl api k evidence) l t in
  (count is_submit (events r) <= List.length l)%nat
  /\ (t <= requests r)%nat
  /\ (requests r <= t + List.length l * (budget + 1))%nat
  /\ submits_only_to cfg k evidence l (events r).
Proof.
  induction l as [|m l IH]; intro t; cbv zeta.
  - cbn. split; [lia|]. split; [lia|]. split; [lia|]. intros k' m body [].
  - rewrite for_each_cons, for_each_requests, count_app.
    destruct (contain_machine_effort m t) as (A & B & C & D). cbv zeta in *.
    destruct (IH (requests (contain_machine cfg tbl api k evidence m t)))
      as (A' & B' & C' & D').
    cbn [List.length]. split; [lia|]. split; [lia|]. split; [nia|].
    intros k' m' body H. apply in_app_or in H. destruct H as [H|H].
    + destruct (D _ _ _ H) as (E1 & [E2|[]] & E3). subst. cbn. auto.
    + destruct (D' _ _ _ H) as (E1 & E2 & E3). cbn. auto.
Qed.

(** X9.  A containment function submits at most once per machine of the
    evidence, only to its own endpoint, only to machines of the evidence
    and only its own request body; it makes at most
    [polls_allowed MACHINE_TIMEOUT SLEEP + 1] requests per machine. *)
Theorem containment_effort_is_bounded (t : nat) :
  let r := contain cfg tbl api k evidence t in
  (count is_submit (events r) <= List.length (machines evidence))%nat
  /\ (requests r
      <= t + List.length (machines evidence)
             * (Z.to_nat (polls_allowed (MACHINE_TIMEOUT cfg) (SLEEP cfg)) + 1))%nat
  /\ (forall k' machine body,
        In (EvSubmit k' machine body) (events r) ->
        k' = k /\ In machine (machines evidence)
        /\ body = request_data cfg k evidence).
Proof.
  cbv zeta. unfold contain.
  rewrite events_bind, requests_bind.
  cbn [log emit value events requests fst snd app].
  destruct (contain_machines_effort (machines evidence) t) as (A & B & C & D).
  cbv zeta in *. split; [|split].
  - rewrite count_cons. cbn [is_submit]. lia.
  - exact C.
  - intros k' machine body [H|H]; [discriminate H|]. exact (D _ _ _ H).
Qed.

End ContainmentEffort.


(** ** The indicators *)

Section IndicatorProperties.

Variable icfg : IndicatorConfig.
Variable mappings : dict.

Lemma mem_In v l : mem v l = true <-> In v l.
Proof.
  unfold mem. rewrite existsb_exists. split.
  - intros [x [Hin Hx]]. apply String.eqb_eq in Hx. subst. exact Hin.
  - intro H. exists v. split; [exact H | apply String.eqb_refl].
Qed.

Lemma mem_not_In v l : mem v l = false <-> ~ In v l.
Proof.
  rewrite <- mem_In. destruct (mem v l); split; intro H; congruence.
Qed.

(** X10.  Every object that [create_indicator_objects] creates has a value
    that is not in [old_indicators], and the action, application name,
    title and description of the configuration. *)
Theorem created_indicators_are_new (indicator_data : dict)
    (old_indicators : list string) :
  Forall
    (fun i =>
       ~ In (indicator_value i) old_indicators
       /\ indicator_action i = INDICATOR_ACTION icfg
       /\ indicator_application i = APPLICATION_NAME icfg
       /\ indicator_title i = INDICATOR_TITLE icfg
       /\ indicator_description i = INDICATOR_DESCRIPTION icfg)
    (create_indicator_objects icfg mappings indicator_data old_indicators).
Proof.
  apply Forall_forall. intros i Hi.
  unfold create_indicator_objects in Hi.
  apply in_flat_map in Hi. destruct Hi as [key [_ Hi]].
  destruct (lookup key mappings) as [fields|]; [|destruct Hi].
  apply in_flat_map in Hi. destruct Hi as [field [_ Hi]].
  destruct (lookup key indicator_data) as [values|]; [|destruct Hi].
  apply in_map_iff in Hi. destruct Hi as [v [<- Hv]].
  apply filter_In in Hv. destruct Hv as [_ Hv].
  apply negb_true_iff, mem_not_In in Hv. cbn. auto.
Qed.

(** X11.  The objects that [create_indicator_objects] creates are exactly
    these: for a key of [indicator_data] that [IOC_FIELD_MAPPINGS] has, a
    field of the mapping of the key and a value of the key that is not in
    [old_indicators], the object of that field and value.  A key without a
    mapping gives none. *)
Theorem created_indicators_are_the_mapped_ones (indicator_data : dict)
    (old_indicators : list string) (i : Indicator) :
  In i (create_indicator_objects icfg mappings indicator_data old_indicators)
  <->
  exists key fields values field v,
    In key (map fst indicator_data)
    /\ lookup key mappings = Some fields
    /\ In field fields
    /\ lookup key indicator_data = Some values
    /\ In v values
    /\ ~ In v old_indicators
    /\ i = new_indicator icfg field v.
Proof.
  unfold create_indicator_objects. rewrite in_flat_map. split.
  - intros [key [Hk Hi]].
    destruct (lookup key mappings) as [fields|] eqn:Hm; [|destruct Hi].
    apply in_flat_map in Hi. destruct Hi as [field [Hf Hi]].
    destruct (lookup key indicator_data) as [values|] eqn:Hd; [|destruct Hi].
    apply in_map_iff in Hi. destruct Hi as [v [<- Hv]].
    apply filter_In in Hv. destruct Hv as [Hin Hv].
    apply negb_true_iff, mem_not_In in Hv.
    exists key, fields, values, field, v. auto 10.
  - intros (key & fields & values & field & v & Hk & Hm & Hf & Hd & Hv & Ho & ->).
    exists key. split; [exact Hk|]. rewrite Hm.
    apply in_flat_map. exists field. split; [exact Hf|]. rewrite Hd.
    apply in_map. apply filter_In. split; [exact Hv|].
    apply negb_true_iff, mem_not_In. exact Ho.
Qed.

Lemma set_add_In v s x : In x (set_add v s) <-> x = v \/ In x s.
Proof.
  unfold set_add. destruct (mem v s) eqn:E.
  - apply mem_In in E. split; [auto|]. intros [->|H]; assumption.
  - rewrite in_app_iff. cbn. split.
    + intros [H|[H|[]]]; auto.
    + intros [H|H]; auto.
Qed.

Lemma set_add_NoDup v s : NoDup s -> NoDup (set_add v s).
Proof.
  intro H. unfold set_add. destruct (mem v s) eqn:E; [exact H|].
  apply mem_not_In in E.
  apply NoDup_app; [exact H | repeat constructor; intros [] | ].
  intros x Hx [<-|[]]. exact (E Hx).
Qed.

Lemma collect_indicators_spec l : forall acc,
  NoDup acc ->
  NoDup (collect_indicators l acc)
  /\ forall v, In v (collect_indicators l acc) <-> In v acc \/ In v (readable l).
Proof.
  induction l as [|[x|] l IH]; intros acc Hacc; cbn [collect_indicators readable].
  - split; [exact Hacc|]. intro v. cbn. tauto.
  - destruct (IH (set_add x acc) (set_add_NoDup x acc Hacc)) as [Hn Hi].
    split; [exact Hn|]. intro v. rewrite Hi, set_add_In. cbn. intuition.
  - split; [exact Hacc|]. intro v. cbn. tauto.
Qed.

(** X12.  [get_indicators] returns a set: no value twice.  Its members are
    the values of the listing up to the first indicator without a value;
    a failed request, an ["error"] body and a body without ["value"] give
    the empty set. *)
Theorem get_indicators_reads_the_listing
    (reply : api_reply (option (list (option string)))) :
  NoDup (get_indicators reply)
  /\ (forall v,
        In v (get_indicators reply) <->
        exists l, reply = Api_body (Some l) /\ In v (readable l))
  /\ ((forall l, reply <> Api_body (Some l)) -> get_indicators reply = []).
Proof.
  destruct reply as [| m | [l|]]; cbn [get_indicators].
  - split; [constructor|]. split.
    + intro v. split; [intros [] | intros [l [H _]]; discriminate H].
    + reflexivity.
  - split; [constructor|]. split.
    + intro v. split; [intros [] | intros [l [H _]]; discriminate H].
    + reflexivity.
  - destruct (collect_indicators_spec l [] (NoDup_nil _)) as [Hn Hi].
    split; [exact Hn|]. split.
    + intro v. rewrite Hi. split.
      * intros [[]|H]. exists l. auto.
      * intros [l' [E H]]. injection E as <-. auto.
    + intro H. exfalso. exact (H l eq_refl).
  - split; [constructor|]. split.
    + intro v. split; [intros [] | intros [l [H _]]; discriminate H].
    + reflexivity.
Qed.

(** X13.  The objects created against the set that [get_indicators] read:
    none has a value that the listing showed before its first indicator
    without a value. *)
Theorem listed_indicators_are_not_created_again (indicator_data : dict)
    (l : list (option string)) :
  Forall
    (fun i => ~ In (indicator_value i) (readable l))
    (create_indicator_objects icfg mappings indicator_data
       (get_indicators (Api_body (Some l)))).
Proof.
  apply Forall_forall. intros i Hi.
  unfold create_indicator_objects in Hi.
  apply in_flat_map in Hi. destruct Hi as [key [_ Hi]].
  destruct (lookup key mappings) as [fields|]; [|destruct Hi].
  apply in_flat_map in Hi. destruct Hi as [field [_ Hi]].
  destruct (lookup key indicator_data) as [values|]; [|destruct Hi].
  apply in_map_iff in Hi. destruct Hi as [v [<- Hv]].
  apply filter_In in Hv. destruct Hv as [_ Hv].
  apply negb_true_iff, mem_not_In in Hv. cbn [indicator_value new_indicator].
  intro H. apply Hv. cbn [get_indicators].
  destruct (collect_indicators_spec l [] (NoDup_nil _)) as [_ Hc].
  apply Hc. right. exact H.
Qed.

End IndicatorProperties.


(** ** The ingestion of alerts *)

Section IngestionProperties.

Variable types : list string.
Variable E : Type.
Variable new_evidence : string -> string -> string -> string -> string -> string -> string -> E.
Variable add_alert : string -> string -> E -> E.

Lemma keys_dict_update key f (d : evidence_dict E) :
  keys E (dict_update E key f d) = keys E d.
Proof.
  induction d as [|[k e] d IH]; cbn [dict_update]; [reflexivity|].
  destruct (String.eqb key k); cbn; [reflexivity|]. f_equal. exact IH.
Qed.

Lemma keys_app (d d' : evidence_dict E) : keys E (d ++ d') = keys E d ++ keys E d'.
Proof. unfold keys. apply map_app. Qed.

Lemma ingest_evidence_step id sev mid ev d db o d' db' :
  ingest_evidence types E new_evidence add_alert id sev mid ev (d, db)
    = (o, (d', db')) ->
  incl db db'
  /\ (NoDup (keys E d) -> NoDup (keys E d'))
  /\ (forall sha, In sha (keys E d') ->
        In sha (keys E d) \/ adds types id ev db db' sha).
Proof.
  assert (Hsame : forall db1, incl db db1 ->
            incl db db1
            /\ (NoDup (keys E d) -> NoDup (keys E d))
            /\ (forall sha, In sha (keys E d) ->
                  In sha (keys E d) \/ adds types id ev db db1 sha)).
  { intros db1 H. split; [exact H|]. split; auto. }
  unfold ingest_evidence.
  destruct (ev_sha256 ev) as [[sha|]|] eqn:Hs;
    destruct (ev_entityType ev) as [ty|] eqn:Ht;
    try (intro H; injection H as <- <- <-; apply Hsame, incl_refl).
  - destruct (mem ty types) eqn:Hm;
      [|intro H; injection H as <- <- <-; apply Hsame, incl_refl].
    destruct (String.eqb (lower sha) "none") eqn:Hl;
      [intro H; injection H as <- <- <-; apply Hsame, incl_refl|].
    destruct (mem (String.append id sha) db) eqn:Hd;
      [intro H; injection H as <- <- <-; apply Hsame, incl_refl|].
    apply mem_In in Hm. apply String.eqb_neq in Hl. apply mem_not_In in Hd.
    destruct (mem sha (keys E d)) eqn:Hk.
    + intro H. injection H as <- <- <-.
      rewrite keys_dict_update. apply Hsame, incl_tl, incl_refl.
    + apply mem_not_In in Hk.
      destruct (ev_sha1 ev), (ev_fileName ev), (ev_filePath ev);
        intro H; injection H as <- <- <-;
        try (apply Hsame, incl_tl, incl_refl).
      split; [apply incl_tl, incl_refl|]. split.
      * intro Hn. rewrite keys_app. cbn.
        apply NoDup_app; [exact Hn | repeat constructor; intros [] |].
        intros x Hx [<-|[]]. exact (Hk Hx).
      * intros x Hx. rewrite keys_app in Hx. apply in_app_or in Hx.
        destruct Hx as [Hx|[<-|[]]]; [left; exact Hx|].
        right. unfold adds. repeat split; eauto. left. reflexivity.
  - destruct (mem ty types);
      intro H; injection H as <- <- <-; apply Hsame, incl_refl.
Qed.

Lemma adds_weaken id ev db0 db db' db'' sha :
  incl db0 db -> incl db' db'' -> adds types id ev db db' sha -> adds types id ev db0 db'' sha.
Proof.
  unfold adds. intros H0 H1 (A & B & C & D & F).
  split; [exact A|]. split; [exact B|]. split; [exact C|].
  split; [apply H1; exact D|]. intro G. apply F, H0, G.
Qed.

Lemma ingest_evidences_step id sev mid l : forall d db o d' db',
  ingest_evidences types E new_evidence add_alert id sev mid l (d, db)
    = (o, (d', db')) ->
  incl db db'
  /\ (NoDup (keys E d) -> NoDup (keys E d'))
  /\ (forall sha, In sha (keys E d') ->
        In sha (keys E d) \/ exists ev, In ev l /\ adds types id ev db db' sha).
Proof.
  induction l as [|ev l IH]; intros d db o d' db' H; cbn [ingest_evidences] in H.
  - injection H as <- <- <-. split; [apply incl_refl|]. split; auto.
  - destruct (ingest_evidence types E new_evidence add_alert id sev mid ev (d, db))
      as [o1 [d1 db1]] eqn:H1.
    apply ingest_evidence_step in H1. destruct H1 as (A1 & B1 & C1).
    destruct o1.
    + apply IH in H. destruct H as (A2 & B2 & C2).
      split; [eapply incl_tran; eassumption|]. split; [auto|].
      intros sha Hsha. destruct (C2 sha Hsha) as [Hk | [ev' [Hin Had]]].
      * destruct (C1 sha Hk) as [Hk0 | Had]; [left; exact Hk0|].
        right. exists ev. split; [left; reflexivity|].
        eapply adds_weaken; [apply incl_refl | exact A2 | exact Had].
      * right. exists ev'. split; [right; exact Hin|].
        eapply adds_weaken; [exact A1 | apply incl_refl | exact Had].
    + injection H as <- <- <-.
      split; [exact A1|]. split; [exact B1|].
      intros sha Hsha. destruct (C1 sha Hsha) as [Hk0 | Had]; [left; exact Hk0|].
      right. exists ev. split; [left; reflexivity | exact Had].
Qed.

Lemma ingest_alert_step all a d db d' db' :
  In a all ->
  ingest_alert types E new_evidence add_alert a (d, db) = (d', db') ->
  incl db db'
  /\ (NoDup (keys E d) -> NoDup (keys E d'))
  /\ (forall sha, In sha (keys E d') ->
        In sha (keys E d) \/ accounted types all db db' sha).
Proof.
  intros Hin. unfold ingest_alert.
  destruct (alert_id a) as [id|] eqn:Hid;
    destruct (alert_severity a) as [sev|];
    destruct (alert_machineId a) as [mid|];
    destruct (alert_evidences a) as [l|] eqn:Hl;
    try (intro H; injection H as <- <-; split; [apply incl_refl|]; split; auto).
  destruct (ingest_evidences types E new_evidence add_alert id sev mid l (d, db))
    as [o [d1 db1]] eqn:H1.
  cbn [snd]. intro H. injection H as <- <-.
  apply ingest_evidences_step in H1. destruct H1 as (A & B & C).
  split; [exact A|]. split; [exact B|].
  intros sha Hsha. destruct (C sha Hsha) as [Hk | [ev [Hev Had]]]; [left; exact Hk|].
  right. exists a, id, l, ev. auto.
Qed.

Lemma accounted_weaken all db0 db db' db'' sha :
  incl db0 db -> incl db' db'' ->
  accounted types all db db' sha -> accounted types all db0 db'' sha.
Proof.
  intros H0 H1 (a & id & l & ev & A & B & C & D & F).
  exists a, id, l, ev.
  split; [exact A|]. split; [exact B|]. split; [exact C|]. split; [exact D|].
  eapply adds_weaken; eassumption.
Qed.

Lemma ingest_alerts_step all alerts : forall d db d' db',
  incl alerts all ->
  ingest_alerts types E new_evidence add_alert alerts (d, db) = (d', db') ->
  incl db db'
  /\ (NoDup (keys E d) -> NoDup (keys E d'))
  /\ (forall sha, In sha (keys E d') ->
        In sha (keys E d) \/ accounted types all db db' sha).
Proof.
  induction alerts as [|a alerts IH]; intros d db d' db' Hall H;
    unfold ingest_alerts in *; cbn [fold_left] in H.
  - injection H as <- <-. split; [apply incl_refl|]. split; auto.
  - destruct (ingest_alert types E new_evidence add_alert a (d, db)) as [d1 db1] eqn:H1.
    apply (ingest_alert_step all) in H1; [|apply Hall; left; reflexivity].
    destruct H1 as (A1 & B1 & C1).
    apply IH in H; [|intros x Hx; apply Hall; right; exact Hx].
    destruct H as (A2 & B2 & C2).
    split; [eapply incl_tran; eassumption|]. split; [auto|].
    intros sha Hsha. destruct (C2 sha Hsha) as [Hk | Hacc].
    + destruct (C1 sha Hk) as [Hk0 | Hacc]; [left; exact Hk0|].
      right. eapply accounted_weaken; [apply incl_refl | exact A2 | exact Hacc].
    + right. eapply accounted_weaken; [exact A1 | apply incl_refl | exact Hacc].
Qed.

(** X14.  [get_evidences_from_alerts] only adds to the store.  The dict it
    returns has one item per hash, and each hash in it is the ["sha256"] of
    an evidence of a listed alert, is not [none] in any case of letters,
    has an entity type of the configuration, and with the id of its alert
    in front was not in the store before and is in it now.  A failed
    request, an ["error"] body and a body without ["value"] give the empty
    dict and leave the store as it is. *)
Theorem ingested_evidences_are_new
    (reply : api_reply (option (list alert))) (db : store) :
  let r := get_evidences_from_alerts types E new_evidence add_alert reply db in
  incl db (snd r)
  /\ NoDup (keys E (fst r))
  /\ (forall sha, In sha (keys E (fst r)) ->
        exists alerts,
          reply = Api_body (Some alerts) /\ accounted types alerts db (snd r) sha)
  /\ ((forall alerts, reply <> Api_body (Some alerts)) -> r = ([], db)).
Proof.
  cbv zeta. destruct reply as [| m | [alerts|]]; cbn [get_evidences_from_alerts fst snd].
  1,2,4: split; [apply incl_refl|]; split; [constructor|];
    split; [intros sha [] | reflexivity].
  destruct (ingest_alerts types E new_evidence add_alert alerts ([], db))
    as [d' db'] eqn:H.
  apply (ingest_alerts_step alerts) in H; [|apply incl_refl].
  destruct H as (A & B & C). cbn [fst snd].
  split; [exact A|]. split; [apply B; constructor|]. split.
  - intros sha Hsha. exists alerts. split; [reflexivity|].
    destruct (C sha Hsha) as [[] | Hacc]. exact Hacc.
  - intro H. exfalso. exact (H alerts eq_refl).
Qed.

Lemma ingest_evidences_known id sev mid l : forall d db,
  incl (looked_up_of types id l) db ->
  snd (ingest_evidences types E new_evidence add_alert id sev mid l (d, db))
  = (d, db).
Proof.
  induction l as [|ev l IH]; intros d db H; [reflexivity|].
  cbn [ingest_evidences looked_up_of] in *. unfold ingest_evidence.
  destruct (ev_sha256 ev) as [[sha|]|]; destruct (ev_entityType ev) as [ty|];
    try reflexivity.
  - destruct (mem ty types).
    + destruct (String.eqb (lower sha) "none").
      * apply IH. exact H.
      * assert (Hin : In (String.append id sha) db) by (apply H; left; reflexivity).
        apply mem_In in Hin. rewrite Hin.
        apply IH. intros x Hx. apply H. right. exact Hx.
    + apply IH. exact H.
  - destruct (mem ty types); apply IH; exact H.
Qed.

Lemma ingest_evidences_records id sev mid l : forall d db o d' db',
  (forall ev, In ev l ->
     ev_sha1 ev <> None /\ ev_fileName ev <> None /\ ev_filePath ev <> None) ->
  ingest_evidences types E new_evidence add_alert id sev mid l (d, db)
    = (o, (d', db')) ->
  incl (looked_up_of types id l) db'.
Proof.
  induction l as [|ev l IH]; intros d db o d' db' Hfiles H; [intros x []|].
  cbn [ingest_evidences looked_up_of] in *.
  destruct (ingest_evidence types E new_evidence add_alert id sev mid ev (d, db))
    as [o1 [d1 db1]] eqn:H1.
  assert (Hrest : forall ev', In ev' l ->
            ev_sha1 ev' <> None /\ ev_fileName ev' <> None /\ ev_filePath ev' <> None)
    by (intros ev' Hin; apply Hfiles; right; exact Hin).
  destruct (Hfiles ev (or_introl eq_refl)) as (F1 & F2 & F3).
  unfold ingest_evidence in H1.
  destruct (ev_sha256 ev) as [[sha|]|]; destruct (ev_entityType ev) as [ty|];
    try (intros x []).
  - destruct (mem ty types).
    + destruct (String.eqb (lower sha) "none").
      * injection H1 as <- <- <-. cbn [app]. eapply IH; eassumption.
      * destruct (mem (String.append id sha) db) eqn:Hd.
        -- injection H1 as <- <- <-. apply mem_In in Hd.
           pose proof (ingest_evidences_step id sev mid l _ _ _ _ _ H) as (A & _ & _).
           intros x [<-|Hx]; [apply A; exact Hd|].
           eapply IH; eassumption.
        -- assert (Ho : o1 = Returned /\ db1 = String.append id sha :: db).
           { destruct (mem sha (keys E d)).
             - injection H1 as <- <- <-. auto.
             - destruct (ev_sha1 ev), (ev_fileName ev), (ev_filePath ev);
                 try congruence.
               injection H1 as <- <- <-. auto. }
           destruct Ho as [-> ->].
           pose proof (ingest_evidences_step id sev mid l _ _ _ _ _ H) as (A & _ & _).
           intros x [<-|Hx]; [apply A; left; reflexivity|].
           eapply IH; eassumption.
    + injection H1 as <- <- <-. cbn [app]. eapply IH; eassumption.
  - destruct (mem ty types); injection H1 as <- <- <-; cbn [app];
      eapply IH; eassumption.
Qed.

Lemma ingest_alerts_known alerts : forall d db,
  incl (looked_up types alerts) db ->
  ingest_alerts types E new_evidence add_alert alerts (d, db) = (d, db).
Proof.
  induction alerts as [|a alerts IH]; intros d db H; [reflexivity|].
  unfold ingest_alerts in *. cbn [fold_left].
  unfold looked_up in H. cbn [flat_map] in H.
  assert (Ha : ingest_alert types E new_evidence add_alert a (d, db) = (d, db)).
  { unfold ingest_alert.
    destruct (alert_id a), (alert_severity a), (alert_machineId a),
      (alert_evidences a); try reflexivity.
    apply ingest_evidences_known. intros x Hx. apply H.
    apply in_or_app. left. exact Hx. }
  rewrite Ha. apply IH. intros x Hx. apply H. apply in_or_app. right. exact Hx.
Qed.

Lemma ingest_alerts_records alerts : forall d db d' db',
  files_complete alerts ->
  ingest_alerts types E new_evidence add_alert alerts (d, db) = (d', db') ->
  incl (looked_up types alerts) db'.
Proof.
  induction alerts as [|a alerts IH]; intros d db d' db' Hfiles H; [intros x []|].
  unfold ingest_alerts in *. cbn [fold_left] in H.
  destruct (ingest_alert types E new_evidence add_alert a (d, db)) as [d1 db1] eqn:H1.
  assert (Hrest : files_complete alerts).
  { intros a' l ev Ha'. apply Hfiles. right. exact Ha'. }
  pose proof (ingest_alerts_step alerts alerts d1 db1 d' db' (incl_refl _) H)
    as (A & _ & _).
  unfold looked_up. cbn [flat_map].
  intros x Hx. apply in_app_or in Hx. destruct Hx as [Hx|Hx].
  - apply A. unfold ingest_alert in H1.
    destruct (alert_id a) as [id|], (alert_severity a) as [sev|],
      (alert_machineId a) as [mid|], (alert_evidences a) as [l|] eqn:Hl;
      try destruct Hx.
    destruct (ingest_evidences types E new_evidence add_alert id sev mid l (d, db))
      as [o [d2 db2]] eqn:H2.
    cbn [snd] in H1. injection H1 as <- <-.
    eapply ingest_evidences_records; [|exact H2|exact Hx].
    intros ev Hev. apply (Hfiles a l ev); [left; reflexivity | exact Hl | exact Hev].
  - eapply IH; eassumption.
Qed.

(** X15.  Evidences are returned once: where every evidence has its three
    file keys, a second call on the same alerts with the store that the
    first call left returns the empty dict and leaves the store as it
    is. *)
Theorem processed_alerts_give_nothing_again (alerts : list alert) (db : store) :
  files_complete alerts ->
  let r := get_evidences_from_alerts types E new_evidence add_alert
             (Api_body (Some alerts)) db in
  get_evidences_from_alerts types E new_evidence add_alert
    (Api_body (Some alerts)) (snd r)
  = ([], snd r).
Proof.
  intro Hfiles. cbv zeta. cbn [get_evidences_from_alerts].
  destruct (ingest_alerts types E new_evidence add_alert alerts ([], db))
    as [d1 db1] eqn:H.
  cbn [snd]. apply ingest_alerts_known.
  eapply ingest_alerts_records; eassumption.
Qed.

(** X16.  An evidence that is new to the store and to the dict and lacks
    one of its three file keys is lost: its identifier is put into the
    store before the object is made, the KeyError ends the alert, the
    dict is as before, and every later pass skips the evidence as known. *)
Theorem evidence_without_file_key_is_lost (id sev mid : string)
    (ev : alert_evidence) (rest : list alert_evidence)
    (d : evidence_dict E) (db : store) (sha ty : string) :
  ev_sha256 ev = Some (Some sha) ->
  ev_entityType ev = Some ty ->
  In ty types ->
  lower sha <> "none" ->
  ~ In (String.append id sha) db ->
  ~ In sha (keys E d) ->
  ev_sha1 ev = None \/ ev_fileName ev = None \/ ev_filePath ev = None ->
  ingest_evidences types E new_evidence add_alert id sev mid (ev :: rest) (d, db)
  = (Raised, (d, String.append id sha :: db))
  /\ forall d' db',
       In (String.append id sha) db' ->
       ingest_evidence types E new_evidence add_alert id sev mid ev (d', db')
       = (Returned, (d', db')).
Proof.
  intros Hs Ht Hty Hl Hdb Hd Hmiss.
  apply mem_In in Hty. apply String.eqb_neq in Hl.
  split.
  - apply mem_not_In in Hdb. apply mem_not_In in Hd.
    cbn [ingest_evidences]. unfold ingest_evidence.
    rewrite Hs, Ht, Hty, Hl, Hdb, Hd.
    destruct Hmiss as [H | [H | H]]; rewrite H;
      destruct (ev_sha1 ev), (ev_fileName ev), (ev_filePath ev);
      try discriminate H; reflexivity.
  - intros d' db' Hin. apply mem_In in Hin.
    unfold ingest_evidence. rewrite Hs, Ht, Hty, Hl, Hin. reflexivity.
Qed.


End IngestionProperties.


(** ** The download of evidences *)

(** X18.  [download_evidences] transfers the evidences that have a link,
    once each, and no other.  What it returns are evidences of its input
    that have a link, each with the file of its hash, at most as many as
    have a link; when every transfer succeeds it returns all that have a
    link, in their order. *)
Theorem downloaded_evidences_have_files (transfers : nat -> transfer)
    (l : list Evidence) (n : nat) :
  let r := download_evidences transfers l n in
  Forall
    (fun p => In (fst p) l /\ has_link (fst p) = true /\ snd p = sha256 (fst p))
    (fst r)
  /\ snd r = (n + List.length (filter has_link l))%nat
  /\ (List.length (fst r) <= List.length (filter has_link l))%nat
  /\ ((forall i, transfers i = Extracted) ->
      map fst (fst r) = filter has_link l).
Proof.
  cbv zeta. revert n. induction l as [|e l IH]; intro n.
  - cbn. split; [constructor|]. split; [lia|]. split; [lia|]. reflexivity.
  - cbn [download_evidences filter].
    destruct (download_url e) as [url|] eqn:Hu.
    + assert (He : has_link e = true) by (unfold has_link; rewrite Hu; reflexivity).
      rewrite He.
      destruct (IH (S n)) as (A & B & C & D).
      assert (A' : Forall
                (fun p => In (fst p) (e :: l) /\ has_link (fst p) = true
                          /\ snd p = sha256 (fst p))
                (fst (download_evidences transfers l (S n)))).
      { eapply Forall_impl; [|exact A]. intros p (P1 & P2 & P3).
        split; [right; exact P1 | auto]. }
      destruct (transfers n) eqn:Ht; cbn [fst snd List.length].
      1,2,3: split; [exact A'|]; split; [lia|]; split; [lia|];
        intro Hall; rewrite Hall in Ht; discriminate Ht.
      split.
      * constructor; [|exact A']. cbn.
        split; [left; reflexivity | auto].
      * split; [lia|]. split; [lia|]. intro Hall. cbn [map fst].
        rewrite (D Hall). reflexivity.
    + assert (He : has_link e = false) by (unfold has_link; rewrite Hu; reflexivity).
      rewrite He.
      destruct (IH n) as (A & B & C & D).
      split; [|split; [exact B|split; [exact C|exact D]]].
      eapply Forall_impl; [|exact A]. intros p (P1 & P2 & P3).
      split; [right; exact P1 | auto].
Qed.


(** ** Jobs that succeed *)

Section TrackerSuccess.

Variable api : Vendor.

Let allowance : Z := polls_allowed (JOB_TIMEOUT cfg) (SLEEP cfg).

Lemma wait_loop_succeeds k : forall n e t,
  terminal (live_response e) = false ->
  timeout_counter (live_response e) + Z.of_nat k < allowance ->
  (forall i, (i < k)%nat -> reports_running tbl (action_reply api (t + i)%nat)) ->
  reports_succeeded tbl (action_reply api (t + k)%nat) ->
  (k < n)%nat ->
  let r := wait_loop cfg tbl api n e t in
  let lr' := live_response (snd (value r)) in
  fst (value r) = Returned
  /\ is_finished lr' = true
  /\ has_error lr' = false
  /\ lr_status lr' = SUCCEEDED tbl
  /\ timeout_counter lr' = timeout_counter (live_response e) + Z.of_nat k
  /\ count is_poll (events r) = S k.
Proof.
  induction k as [|k IH]; intros n e t Ht Hc Hrun Hok Hn; cbv zeta.
  - destruct n as [|n]; [lia|].
    assert (Hk : keeps_waiting cfg (live_response e) = true).
    { apply keeps_waiting_spec. unfold allowance in *. split; [lia | exact Ht]. }
    rewrite wait_loop_step by exact Hk. cbv zeta.
    pose proof (poll_job_polled api e t) as P.
    pose proof (poll_job_polls api e t) as Hp.
    destruct Hok as [ma [Hr Hs]]. rewrite Nat.add_0_r in Hr. rewrite Hr in P.
    assert (Heq : String.eqb (ma_status ma) (SUCCEEDED tbl) = true)
      by (apply String.eqb_eq; exact Hs).
    unfold terminal in Ht. apply orb_false_iff in Ht. destruct Ht as [He Hf].
    destruct (value (poll_job cfg tbl api e t)) as [o e'].
    inversion P; subst; try congruence.
    rewrite terminal_job_is_not_polled by (cbn; apply orb_true_r).
    cbn [value events fst snd]. rewrite app_nil_r.
    fold (events (poll_job cfg tbl api e t)). rewrite Hp. cbn.
    repeat split; try assumption. lia.
  - destruct n as [|n]; [lia|].
    assert (Hk : keeps_waiting cfg (live_response e) = true).
    { apply keeps_waiting_spec. unfold allowance in *. split; [lia | exact Ht]. }
    rewrite wait_loop_step by exact Hk. cbv zeta.
    pose proof (poll_job_polled api e t) as P.
    pose proof (poll_job_polls api e t) as Hp.
    destruct (Hrun 0%nat) as [ma [Hr [Hs Hfl]]]; [lia|].
    rewrite Nat.add_0_r in Hr. rewrite Hr in P.
    destruct (value (poll_job cfg tbl api e t)) as [o e'].
    inversion P; subst; try congruence.
    specialize (IH n (with_live_response (incr_timeout_counter (live_response e)) e)
                  (S t)).
    cbv zeta in IH.
    destruct IH as (A & B & C & D & F & G).
    + exact Ht.
    + cbn. lia.
    + intros i Hi. replace (S t + i)%nat with (t + S i)%nat by lia.
      apply Hrun. lia.
    + replace (S t + k)%nat with (t + S k)%nat by lia. exact Hok.
    + lia.
    + unfold value, events in *. cbn [fst snd] in *.
      rewrite count_app, Hp, G.
      repeat split; try assumption.
      rewrite F. cbn. lia.
Qed.

(** X19.  A job that the vendor reports as running [k] times and then as
    succeeded, with [k] polls left below the budget: the tracker returns
    it finished, with the status [SUCCEEDED], without [has_error], its
    counter [k] higher, after [k + 1] polls and without a cancellation. *)
Theorem job_succeeding_within_budget_finishes (evidence : Evidence)
    (t k : nat) :
  terminal (live_response evidence) = false ->
  timeout_counter (live_response evidence) + Z.of_nat k
    < polls_allowed (JOB_TIMEOUT cfg) (SLEEP cfg) ->
  (forall i, (i < k)%nat -> reports_running tbl (action_reply api (t + i)%nat)) ->
  reports_succeeded tbl (action_reply api (t + k)%nat) ->
  let r := wait_live_response cfg tbl api evidence t in
  let lr' := live_response (snd (value r)) in
  fst (value r) = Returned
  /\ is_finished lr' = true
  /\ has_error lr' = false
  /\ lr_status lr' = SUCCEEDED tbl
  /\ timeout_counter lr' = timeout_counter (live_response evidence) + Z.of_nat k
  /\ count is_poll (events r) = S k
  /\ count is_cancel (events r) = 0%nat.
Proof.
  intros Ht Hc Hrun Hok. cbv zeta.
  destruct (wait_live_response_cancels api evidence t) as [Hn _]. cbv zeta in Hn.
  rewrite Hn. clear Hn.
  rewrite wait_live_response_run. cbv zeta.
  destruct (wait_loop_succeeds k
              (polls_left cfg (timeout_counter (live_response evidence)))
              evidence t Ht Hc Hrun Hok) as (A & B & C & D & F & G).
  { unfold polls_left, allowance in *. lia. }
  cbv zeta in *.
  set (r := wait_loop cfg tbl api _ evidence t) in *.
  rewrite A.
  assert (Hb : budget_spent cfg (JOB_TIMEOUT cfg)
                 (timeout_counter (live_response (snd (value r)))) = false).
  { rewrite budget_spent_ceil. apply Z.leb_gt. rewrite F. exact Hc. }
  rewrite Hb. cbn [value events fst snd]. rewrite Hb.
  rewrite count_cons. cbn [is_poll].
  repeat split; assumption.
Qed.

End TrackerSuccess.

(** ** Machines with nothing pending *)

(** X20.  Machines without pending actions are left alone: for a list of
    machines none of which has pending actions, [run_live_response] returns
    the list as it is and makes no request, whatever the iteration bound. *)
Theorem machines_without_pending_actions_are_left_alone (api : Vendor)
    (has_pending_actions : Machine -> bool)
    (start : LiveResponse -> Z -> list string -> string -> string -> LiveResponse)
    (fuel : nat) (l : list Machine) (t : nat) :
  (forall m, In m l -> has_pending_actions m = false) ->
  let r := run_live_response cfg tbl api has_pending_actions start fuel l t in
  value r = Some l
  /\ requests r = t
  /\ events r =
     map (fun m => EvLog Info (WaitingMachine (List.length (evidences m))
                                              (machine_id m))) l.
Proof.
  revert t. induction l as [|m l IH]; intros t H; cbv zeta.
  - cbn. auto.
  - assert (Hm : has_pending_actions m = false) by (apply H; left; reflexivity).
    assert (Hl : machine_loop cfg tbl api has_pending_actions start fuel m t
                 = (Some m, [], t)).
    { destruct fuel; cbn [machine_loop]; rewrite Hm, andb_false_r; reflexivity. }
    assert (Hr : run_machine cfg tbl api has_pending_actions start fuel m t
                 = (Some m,
                    [EvLog Info (WaitingMachine (List.length (evidences m))
                                                (machine_id m))],
                    t)).
    { unfold run_machine. rewrite bind_run.
      cbn [log emit value events requests fst snd app].
      rewrite bind_run, Hl. cbn [value events requests fst snd]. rewrite Hm.
      reflexivity. }
    destruct (IH t) as (A & B & C).
    { intros m' Hm'. apply H. right. exact Hm'. }
    cbv zeta in *.
    cbn [run_live_response]. rewrite bind_run, Hr.
    cbn [value events requests fst snd]. rewrite bind_run, A.
    cbn [value events requests fst snd ret]. rewrite B, C, app_nil_r.
    cbn. auto.
Qed.


End Properties.

(** * The properties on sample runs *)

Open Scope nat_scope.

(** Scenario B: one action [InProgress] makes the machine unavailable; the
    same action [Succeeded] makes it available. *)
Example scenario_b :
  value (is_machine_available sample_status busy_vendor "m1" 0) = false
  /\ value (is_machine_available sample_status prompt_vendor "m1" 0) = true.
Proof. split; reflexivity. Qed.

(** Scenario A: [JOB_TIMEOUT = 30], [SLEEP = 10], a job stuck in progress:
    three polls, then [TimeOut] and one cancellation. *)
Example scenario_a :
  let r := wait_live_response even_config sample_status stuck_vendor sample_evidence 0 in
  count is_poll (events r) = 3
  /\ count is_cancel (events r) = 1
  /\ lr_status (live_response (snd (value r))) = "TimeOut"
  /\ has_error (live_response (snd (value r))) = true.
Proof. vm_compute. repeat split. Qed.

(** C2, as stated, fails: with [JOB_TIMEOUT = 25] and [SLEEP = 10] the
    floor of the quotient is 2, and a job stuck in progress is polled three
    times ([25 / 10 = 2.5] exceeds the counters 0, 1 and 2). *)
Lemma tracker_polls_beyond_floor :
  (JOB_TIMEOUT uneven_config / Z.pos (SLEEP uneven_config) = 2)%Z
  /\ count is_poll
       (events (wait_live_response uneven_config sample_status stuck_vendor
                  sample_evidence 0)) = 3
  /\ ~ (Z.of_nat
          (count is_poll
             (events (wait_live_response uneven_config sample_status stuck_vendor
                        sample_evidence 0%nat)))
        <= JOB_TIMEOUT uneven_config / Z.pos (SLEEP uneven_config))%Z.
Proof.
  split; [reflexivity|]. split; [vm_compute; reflexivity|].
  vm_compute. intro H. apply H. reflexivity.
Qed.

(** C3 at the failing record: the vendor reports the job as [Failed] with
    an empty error list.  The poll raises before the job is updated: the
    tracker is left by the exception with the status and both flags as they
    were, and the failure is not logged.  The caller's [except] then sets
    [has_error] under the message of a parse failure; the status is never
    set to [Failed]. *)
Lemma failed_job_without_error_is_not_marked_failed :
  mem "Failed" (FAIL sample_status) = true
  /\ wait_live_response even_config sample_status failing_vendor sample_evidence 0
     = (Raised, sample_evidence,
        [EvLog Info (WaitingJob (Some "a1") "ab12");
         EvSleep (10 # 1); EvGetAction (Some "a1")],
        1)
  /\ lr_status
       (live_response
          (value (acquire even_config sample_status failing_vendor sample_start
                    "m1" sample_evidence 0))) = "Created"
  /\ forall error,
       ~ In (EvLog Error (JobFailed (Some "a1") "ab12" error))
            (events (acquire even_config sample_status failing_vendor sample_start
                       "m1" sample_evidence 0)).
Proof.
  split; [reflexivity|]. split; [vm_compute; reflexivity|].
  split; [vm_compute; reflexivity|].
  intros error H. vm_compute in H.
  repeat (destruct H as [H|H]; [discriminate H|]). exact H.
Qed.



(** C5, as stated, fails: with [MACHINE_TIMEOUT = 25] and [SLEEP = 10] the
    floor of the quotient is 2; after two failed checks and no submission
    the loop checks a third time ([25 / 10 = 2.5 > 2]) and submits, in a
    containment function and in [run_live_response], and no timeout is
    logged. *)
Lemma submission_after_floor_of_budget :
  (MACHINE_TIMEOUT uneven_config / Z.pos (SLEEP uneven_config) = 2)%Z
  /\ value (is_machine_available sample_status late_vendor "m1" 0) = false
  /\ value (is_machine_available sample_status late_vendor "m1" 1) = false
  /\ count is_submit
       (events (contain_machine uneven_config sample_status late_vendor Isolate
                  sample_evidence "m1" 0)) = 1
  /\ ~ In (EvLog Error (ActionMachineTimeout Isolate "m1"))
          (events (contain_machine uneven_config sample_status late_vendor Isolate
                     sample_evidence "m1" 0))
  /\ count is_submit
       (events (run_machine uneven_config sample_status late_vendor sample_pending
                  sample_start 10 sample_machine 0)) = 1
  /\ ~ In (EvLog Error (MachineTimeoutHit "m1"))
          (events (run_machine uneven_config sample_status late_vendor sample_pending
                     sample_start 10 sample_machine 0)).
Proof.
  repeat split; try (vm_compute; reflexivity);
    intro H; vm_compute in H;
    repeat (destruct H as [H|H]; [discriminate H|]); exact H.
Qed.

(** A machine that is busy throughout, with a budget of three checks. *)
Lemma unavailable_machine_is_not_submitted_to_witness :
  (count is_submit
     (events (contain_machine uneven_config sample_status busy_vendor Isolate
                sample_evidence "m1" 0)) = 0
   /\ In (EvLog Error (ActionMachineTimeout Isolate "m1"))
         (events (contain_machine uneven_config sample_status busy_vendor Isolate
                    sample_evidence "m1" 0))
   /\ requests (contain_machine uneven_config sample_status busy_vendor Isolate
                  sample_evidence "m1" 0) = 3)
  /\ (exists machine',
       value (run_machine uneven_config sample_status busy_vendor sample_pending
                sample_start 5 sample_machine 0) = Some machine'
       /\ evidences machine' = evidences sample_machine
       /\ count is_submit
            (events (run_machine uneven_config sample_status busy_vendor
                       sample_pending sample_start 5 sample_machine 0)) = 0
       /\ In (EvLog Error (MachineTimeoutHit "m1"))
             (events (run_machine uneven_config sample_status busy_vendor
                        sample_pending sample_start 5 sample_machine 0))).
Proof.
  apply (unavailable_machine_is_not_submitted_to uneven_config sample_status
           busy_vendor sample_pending sample_start sample_machine Isolate
           sample_evidence 5 0).
  - cbn. lia.
  - intros i _. reflexivity.
  - intro c. reflexivity.
  - vm_compute. lia.
Defined.

(** C7, as stated, fails: the submitted isolation stays in progress at the
    vendor, and [isolate_machine] returns after the submission and one
    sleep, without reading the action once. *)
Lemma isolate_machine_does_not_wait :
  (forall n, action_reply stuck_vendor n = Api_body (sample_action "InProgress" []))
  /\ isolate_machine even_config sample_status stuck_vendor sample_evidence 0
     = (tt,
        [EvLog Info (ActionBegin Isolate 1);
         EvLog Info (ActionOnMachine Isolate "m1");
         EvListActions "m1"; EvLog Info (MachineAvailable "m1");
         EvSubmit Isolate "m1" [("Comment", "VMRay"); ("IsolationType", "Full")];
         EvLog Info (ActionStarted Isolate "m1");
         EvSleep (10 # 1)],
        2)
  /\ count is_poll
       (events (isolate_machine even_config sample_status stuck_vendor
                  sample_evidence 0)) = 0.
Proof.
  split; [intro n; reflexivity|]. split; vm_compute; reflexivity.
Qed.

(** Scenario C: the verdict [malicious] with package collection and
    quarantine enabled for it, antivirus scan disabled and isolation
    enabled for [suspicious] only. *)
Example scenario_c :
  filter is_begin
    (events (run_automated_machine_actions even_config sample_status stuck_vendor
               "malicious" sample_evidence 0))
  = [EvLog Info (ActionBegin CollectInvestigationPackage 1);
     EvLog Info (ActionBegin StopAndQuarantineFile 1)].
Proof. vm_compute. reflexivity. Qed.

(** Scenario D: the vendor answers the submission with an ["error"] body. *)
Lemma refused_submission_is_not_fatal_witness :
  value (acquire even_config sample_status (refusing_vendor (fun _ => idle))
           sample_start "m1" sample_evidence 0)
  = mark_error sample_evidence
  /\ has_error
       (live_response
          (value (acquire even_config sample_status (refusing_vendor (fun _ => idle))
                    sample_start "m1" sample_evidence 0))) = true
  /\ events (acquire even_config sample_status (refusing_vendor (fun _ => idle))
               sample_start "m1" sample_evidence 0)
     = events (is_machine_available sample_status (refusing_vendor (fun _ => idle))
                 "m1" 0)
       ++ [EvLog Info (TryingJob (absolute_path sample_evidence) "m1");
           EvSubmit RunLiveResponse "m1"
             (request_data even_config RunLiveResponse sample_evidence);
           EvLog Error
             (SubmitError "m1" (sha256 sample_evidence) "ActiveRequestAlreadyExists")]
  /\ count is_poll
       (events (acquire even_config sample_status (refusing_vendor (fun _ => idle))
                  sample_start "m1" sample_evidence 0)) = 0
  /\ requests (acquire even_config sample_status (refusing_vendor (fun _ => idle))
                 sample_start "m1" sample_evidence 0) = 2
  /\ acquire_all even_config sample_status (refusing_vendor (fun _ => idle))
       sample_start "m1" [sample_evidence; sample_evidence] 0
     = (mark_error sample_evidence
        :: value (acquire_all even_config sample_status
                    (refusing_vendor (fun _ => idle)) sample_start "m1"
                    [sample_evidence] 2),
        events (acquire even_config sample_status (refusing_vendor (fun _ => idle))
                  sample_start "m1" sample_evidence 0)
        ++ events (acquire_all even_config sample_status
                     (refusing_vendor (fun _ => idle)) sample_start "m1"
                     [sample_evidence] 2),
        requests (acquire_all even_config sample_status
                    (refusing_vendor (fun _ => idle)) sample_start "m1"
                    [sample_evidence] 2)).
Proof.
  apply (refused_submission_is_not_fatal even_config sample_status
           (refusing_vendor (fun _ => idle)) sample_start "m1" sample_evidence
           [sample_evidence] 0 (Some "ActiveRequestAlreadyExists")).
  - reflexivity.
  - reflexivity.
Defined.

(** The inner check failing again and again: an iteration leaves the
    machine as it is, counter included, after a sleep of [SLEEP / 60], and
    fifty iterations do not end a loop whose budget is three. *)
Example inner_unavailability_spins :
  machine_step even_config sample_status flapping_vendor sample_start
    sample_machine 0
  = (sample_machine,
     [EvListActions "m1"; EvLog Info (MachineAvailable "m1");
      EvListActions "m1";
      EvLog Warning (MachineBusy "m1" "LiveResponse" "InProgress");
      EvSleep (10 # 60)],
     2)
  /\ value (machine_loop even_config sample_status flapping_vendor sample_pending
              sample_start 50 sample_machine 0) = None.
Proof. split; vm_compute; reflexivity. Qed.

(** The warning names the busy action between two idle ones. *)
Lemma first_busy_action_decides_witness :
  is_machine_available sample_status mixed_vendor "m1" 0
  = (false,
     [EvListActions "m1";
      EvLog Warning (MachineBusy "m1" "LiveResponse" "InProgress")],
     1).
Proof.
  apply (first_busy_action_decides sample_status mixed_vendor "m1" idle
           {| action_type := "LiveResponse"; action_status := "InProgress" |}
           idle 0).
  - reflexivity.
  - intros b [<-|[]]. reflexivity.
  - reflexivity.
Defined.

(** A job that succeeds at its first poll. *)
Lemma tracker_flags_exclude_each_other_witness :
  (is_finished
     (live_response
        (snd (value (wait_live_response even_config sample_status prompt_vendor
                       sample_evidence 0)))) = true ->
   has_error
     (live_response
        (snd (value (wait_live_response even_config sample_status prompt_vendor
                       sample_evidence 0)))) = false
   /\ lr_status
        (live_response
           (snd (value (wait_live_response even_config sample_status prompt_vendor
                          sample_evidence 0)))) = SUCCEEDED sample_status
   /\ (timeout_counter
         (live_response
            (snd (value (wait_live_response even_config sample_status prompt_vendor
                           sample_evidence 0%nat))))
       < polls_allowed (JOB_TIMEOUT even_config) (SLEEP even_config))%Z
   /\ count is_cancel
        (events (wait_live_response even_config sample_status prompt_vendor
                   sample_evidence 0)) = 0)
  /\ (is_finished
        (live_response
           (snd (value (wait_live_response even_config sample_status prompt_vendor
                          sample_evidence 0)))) = false ->
      has_error
        (live_response
           (snd (value (wait_live_response even_config sample_status prompt_vendor
                          sample_evidence 0)))) = true).
Proof.
  apply (tracker_flags_exclude_each_other even_config sample_status prompt_vendor
           sample_evidence 0).
  - reflexivity.
  - vm_compute. reflexivity.
Defined.

(** The record of an accepted submission cannot be read back. *)
Lemma unread_submission_is_forgotten_witness :
  acquire even_config sample_status forgetful_vendor sample_start "m1"
    sample_evidence 0
  = (sample_evidence,
     events (is_machine_available sample_status forgetful_vendor "m1" 0)
     ++ [EvLog Info (TryingJob (absolute_path sample_evidence) "m1");
         EvSubmit RunLiveResponse "m1"
           (request_data even_config RunLiveResponse sample_evidence);
         EvSleep (5 # 1);
         EvGetAction (Some "a1");
         EvLog Error (GetActionFailed (Some "a1"))],
     3).
Proof.
  apply (unread_submission_is_forgotten even_config sample_status forgetful_vendor
           sample_start "m1" sample_evidence 0 "a1").
  - reflexivity.
  - reflexivity.
  - intros ma H. discriminate H.
Defined.

(** The sample machine through a whole run. *)
Lemma run_live_response_keeps_the_queues_witness :
  Forall2
    (fun m m' =>
       queue m' = queue m
       /\ (machine_timeout_counter m <= machine_timeout_counter m')%Z
       /\ (machine_timeout_counter m'
           <= Z.max (machine_timeout_counter m)
                    (polls_allowed (MACHINE_TIMEOUT even_config) (SLEEP even_config)))%Z)
    [sample_machine] sample_outcome.
Proof.
  apply (run_live_response_keeps_the_queues even_config sample_status prompt_vendor
           sample_pending sample_start 10 [sample_machine] sample_outcome 0).
  vm_compute. reflexivity.
Defined.

(** The sample alert a second time. *)
Lemma processed_alerts_give_nothing_again_witness :
  get_evidences_from_alerts ["File"] (string * list string) sample_new_evidence
    sample_add_alert (Api_body (Some [sample_alert]))
    (snd (get_evidences_from_alerts ["File"] (string * list string)
            sample_new_evidence sample_add_alert
            (Api_body (Some [sample_alert])) []))
  = ([],
     snd (get_evidences_from_alerts ["File"] (string * list string)
            sample_new_evidence sample_add_alert
            (Api_body (Some [sample_alert])) [])).
Proof.
  apply (processed_alerts_give_nothing_again ["File"] (string * list string)
           sample_new_evidence sample_add_alert [sample_alert] []).
  intros a l ev [<-|[]] Hl Hin. cbn in Hl. injection Hl as <-.
  destruct Hin as [<-|[<-|[]]]; cbn; repeat split; discriminate.
Defined.

(** An evidence without ["sha1"], followed by a complete one. *)
Lemma evidence_without_file_key_is_lost_witness :
  ingest_evidences ["File"] (string * list string) sample_new_evidence
    sample_add_alert "al1" "High" "m1"
    [sample_file "ab12" None; sample_file "ef56" (Some "0789")] ([], [])
  = (Raised, ([], [String.append "al1" "ab12"]))
  /\ forall d' db',
       In (String.append "al1" "ab12") db' ->
       ingest_evidence ["File"] (string * list string) sample_new_evidence
         sample_add_alert "al1" "High" "m1" (sample_file "ab12" None) (d', db')
       = (Returned, (d', db')).
Proof.
  apply (evidence_without_file_key_is_lost ["File"] (string * list string)
           sample_new_evidence sample_add_alert "al1" "High" "m1"
           (sample_file "ab12" None) [sample_file "ef56" (Some "0789")]
           [] [] "ab12" "File").
  - reflexivity.
  - reflexivity.
  - left. reflexivity.
  - cbn. discriminate.
  - intros [].
  - intros [].
  - left. reflexivity.
Defined.

(** The sample evidence against the prompt vendor. *)
Lemma acquire_gets_the_link_witness :
  value (acquire even_config sample_status prompt_vendor sample_start "m1"
           sample_evidence 0)
  = with_download_url "https://download/a1"
      (with_live_response
         (set_is_finished
            (set_status (SUCCEEDED sample_status)
               (live_response
                  (with_live_response
                     (start_commands sample_start (sample_action "Succeeded" [])
                        (live_response sample_evidence))
                     sample_evidence))))
         (with_live_response
            (start_commands sample_start (sample_action "Succeeded" [])
               (live_response sample_evidence))
            sample_evidence))
  /\ requests (acquire even_config sample_status prompt_vendor sample_start "m1"
                 sample_evidence 0) = 5.
Proof.
  apply (acquire_gets_the_link even_config sample_status prompt_vendor sample_start
           "m1" sample_evidence 0 "a1" "https://download/a1"
           (sample_action "Succeeded" []) (sample_action "Succeeded" [])).
  - reflexivity.
  - reflexivity.
  - reflexivity.
  - vm_compute. reflexivity.
  - reflexivity.
  - reflexivity.
  - reflexivity.
Defined.

(** A job that runs for two polls and succeeds at the third, with a budget
    of three. *)
Lemma job_succeeding_within_budget_finishes_witness :
  fst (value (wait_live_response even_config sample_status slow_vendor
                sample_evidence 0)) = Returned
  /\ is_finished
       (live_response
          (snd (value (wait_live_response even_config sample_status slow_vendor
                         sample_evidence 0)))) = true
  /\ has_error
       (live_response
          (snd (value (wait_live_response even_config sample_status slow_vendor
                         sample_evidence 0)))) = false
  /\ lr_status
       (live_response
          (snd (value (wait_live_response even_config sample_status slow_vendor
                         sample_evidence 0)))) = SUCCEEDED sample_status
  /\ timeout_counter
       (live_response
          (snd (value (wait_live_response even_config sample_status slow_vendor
                         sample_evidence 0))))
     = (timeout_counter (live_response sample_evidence) + Z.of_nat 2)%Z
  /\ count is_poll
       (events (wait_live_response even_config sample_status slow_vendor
                  sample_evidence 0)) = 3
  /\ count is_cancel
       (events (wait_live_response even_config sample_status slow_vendor
                  sample_evidence 0)) = 0.
Proof.
  apply (job_succeeding_within_budget_finishes even_config sample_status
           slow_vendor sample_evidence 0 2).
  - reflexivity.
  - vm_compute. reflexivity.
  - intros [|[|i]] Hi; try lia;
      (eexists; split; [reflexivity | split; reflexivity]).
  - eexists. split; reflexivity.
Defined.

(** Two machines without evidences. *)
Lemma machines_without_pending_actions_are_left_alone_witness :
  value (run_live_response even_config sample_status busy_vendor sample_pending
           sample_start 0 [empty_machine; empty_machine] 0)
  = Some [empty_machine; empty_machine]
  /\ requests (run_live_response even_config sample_status busy_vendor
                 sample_pending sample_start 0 [empty_machine; empty_machine] 0)
     = 0
  /\ events (run_live_response even_config sample_status busy_vendor
               sample_pending sample_start 0 [empty_machine; empty_machine] 0)
     = map (fun m => EvLog Info (WaitingMachine (List.length (evidences m))
                                                (machine_id m)))
           [empty_machine; empty_machine].
Proof.
  apply (machines_without_pending_actions_are_left_alone even_config sample_status
           busy_vendor sample_pending sample_start 0
           [empty_machine; empty_machine] 0).
  intros m [<-|[<-|[]]]; reflexivity.
Defined.
